(** * FUND-SELECTOR-CN: the indicator / performance pipeline

    A shallow embedding of the computation core of the dashboard:
    - [preprocess_fund_data]              (src/src/data_loader.py)
    - [calculate_technical_indicators],
      [calculate_performance_metrics],
      [detect_golden_cross_death_cross]   (src/src/indicators.py)
    - [detect_cross_points],
      [generate_technical_analysis_summary] (src/src/visualization.py)

    Conventions of the embedding.
    - A float64 is an exact rational or [nan].  Rounding is not modelled,
      and a division by zero yields [nan] (numpy's signed infinities are
      folded into [nan]); statements about quotients therefore carry the
      hypothesis that prices are positive.
    - A pandas DataFrame is a row count and an ordered list of named
      columns; a cell is a float, Python's None, a timestamp, NaT or text.
    - A Python function whose body is a try/except is a computation in
      the [result] monad, wrapped by the handler of the except clause.
      What [st.error] shows is returned next to the value.
    - pandas_ta and the two transcendental numpy primitives are not part
      of the repository: they are parameters of the model. *)

From Stdlib Require Import QArith Qabs Lqa ZArith Lia Sorted Permutation DecimalString.
From stdpp Require Import base option list strings gmap.

Local Open Scope Q_scope.
Local Open Scope string_scope.
Local Open Scope list_scope.

(** ** Floats *)

Inductive float := nan | fin (q : Q).

Definition Qltb (x y : Q) : bool := negb (Qle_bool y x).

Definition lift2 (f : Q -> Q -> Q) (a b : float) : float :=
  match a, b with
  | fin x, fin y => fin (f x y)
  | _, _ => nan
  end.

Definition fadd := lift2 Qplus.
Definition fsub := lift2 Qminus.
Definition fmul := lift2 Qmult.

Definition fdiv (a b : float) : float :=
  match a, b with
  | fin x, fin y => if Qeq_bool y 0 then nan else fin (x / y)
  | _, _ => nan
  end.

Definition fabs (a : float) : float :=
  match a with
  | fin x => fin (Qabs x)
  | nan => nan
  end.

(** Ordered comparisons are false as soon as one side is [nan]. *)
Definition fcmp (c : Q -> Q -> bool) (a b : float) : bool :=
  match a, b with
  | fin x, fin y => c x y
  | _, _ => false
  end.

Definition fgt := fcmp (fun x y => Qltb y x).
Definition flt := fcmp Qltb.
Definition fge := fcmp (fun x y => Qle_bool y x).
Definition fle := fcmp Qle_bool.

(** [a != b]: true when one side is [nan]. *)
Definition fne (a b : float) : bool :=
  match a, b with
  | fin x, fin y => negb (Qeq_bool x y)
  | _, _ => true
  end.

Definition fisnan (a : float) : bool :=
  match a with nan => true | fin _ => false end.

Definition of_nat (n : nat) : float := fin (inject_Z (Z.of_nat n)).

(** ** Python values and exceptions *)

Inductive exn :=
| KeyError (key : string)
| TypeError
| IndexError
| ValueError
| LibraryError (msg : string).

Inductive result (A : Type) :=
| Ok (a : A)
| Raise (e : exn).
Arguments Ok {A} a.
Arguments Raise {A} e.

#[global] Instance result_ret : MRet result := fun A x => Ok x.
#[global] Instance result_bind : MBind result := fun A B f m =>
  match m with
  | Ok a => f a
  | Raise e => Raise e
  end.

Inductive cell :=
| Float (x : float)
| PyNone
| Timestamp (t : Z)
| NaT
| Text (s : string).

(** [pd.isna] on a scalar. *)
Definition isna (c : cell) : bool :=
  match c with
  | Float nan | PyNone | NaT => true
  | _ => false
  end.

(** Python's ordering operators on two scalars.  Floats compare as
    floats, timestamps as instants (NaT compares false), text
    lexicographically; any other pairing raises TypeError. *)
Definition cell_cmp (cq : Q -> Q -> bool) (cz : Z -> Z -> bool)
    (cs : string -> string -> bool) (a b : cell) : result bool :=
  match a, b with
  | Float x, Float y => Ok (fcmp cq x y)
  | Timestamp x, Timestamp y => Ok (cz x y)
  | Timestamp _, NaT | NaT, Timestamp _ | NaT, NaT => Ok false
  | Text x, Text y => Ok (cs x y)
  | _, _ => Raise TypeError
  end.

Definition cell_gt := cell_cmp (fun x y => Qltb y x) Z.gtb (fun x y => String.ltb y x).
Definition cell_lt := cell_cmp Qltb Z.ltb String.ltb.
Definition cell_ge := cell_cmp (fun x y => Qle_bool y x) Z.geb (fun x y => String.leb y x).
Definition cell_le := cell_cmp Qle_bool Z.leb String.leb.

(** Arithmetic and the [:.nf] format specifier are modelled on floats
    only: another operand raises TypeError. *)
Definition as_float (c : cell) : result float :=
  match c with
  | Float x => Ok x
  | _ => Raise TypeError
  end.

Definition cell_sub (a b : cell) : result cell :=
  x ← as_float a; y ← as_float b; Ok (Float (fsub x y)).

Definition format_f (c : cell) : result float := as_float c.

Definition num (q : Q) : cell := Float (fin q).

(** Short-circuit [and] of two comparisons. *)
Definition and_then (a : result bool) (b : result bool) : result bool :=
  match a with
  | Ok true => b
  | Ok false => Ok false
  | Raise e => Raise e
  end.

(** ** DataFrames *)

Record DataFrame := mkFrame {
  nrows : nat;
  columns : list (string * list cell)
}.

Fixpoint assoc {A} (k : string) (l : list (string * A)) : option A :=
  match l with
  | [] => None
  | (k', v) :: l' => if String.eqb k k' then Some v else assoc k l'
  end.

Fixpoint assoc_set {A} (k : string) (v : A) (l : list (string * A)) : list (string * A) :=
  match l with
  | [] => [(k, v)]
  | (k', v') :: l' =>
      if String.eqb k k' then (k, v) :: l' else (k', v') :: assoc_set k v l'
  end.

(** [df.empty]: one of the two axes has length zero. *)
Definition empty (df : DataFrame) : bool :=
  (nrows df =? 0)%nat || match columns df with [] => true | _ => false end.

(** [c in df.columns] *)
Definition has_column (df : DataFrame) (c : string) : bool :=
  match assoc c (columns df) with Some _ => true | None => false end.

(** [df[c]] *)
Definition get_column (df : DataFrame) (c : string) : result (list cell) :=
  match assoc c (columns df) with
  | Some v => Ok v
  | None => Raise (KeyError c)
  end.

(** A Series assigned to a frame is aligned on the frame's index: here,
    cut or padded with NaN to the frame's length. *)
Definition fit (n : nat) (v : list cell) : list cell :=
  take n (v ++ replicate (n - length v) (Float nan)).

(** [df[c] = v]: replaces the column in place or appends it. *)
Definition set_column (df : DataFrame) (c : string) (v : list cell) : DataFrame :=
  mkFrame (nrows df) (assoc_set c (fit (nrows df) v) (columns df)).

(** [s.iloc[i]] for [0 <= i]. *)
Definition iloc (s : list cell) (i : nat) : result cell :=
  match s !! i with
  | Some c => Ok c
  | None => Raise IndexError
  end.

(** [df.iloc[-1]]: the last row, as a mapping from column name to cell. *)
Definition last_row (df : DataFrame) : result (list (string * cell)) :=
  if (nrows df =? 0)%nat then Raise IndexError
  else Ok (omap (fun '(c, v) => pair c <$> (v !! (nrows df - 1)%nat)) (columns df)).

(** [row[c]] *)
Definition row_get (row : list (string * cell)) (c : string) : result cell :=
  match assoc c row with
  | Some v => Ok v
  | None => Raise (KeyError c)
  end.

(** [df[mask]]: keeps the rows whose mask is true. *)
Fixpoint select {A} (mask : list bool) (v : list A) : list A :=
  match mask, v with
  | b :: mask', x :: v' => if b then x :: select mask' v' else select mask' v'
  | _, _ => []
  end.

Definition filter_rows (mask : list bool) (df : DataFrame) : DataFrame :=
  mkFrame (length (select mask (seq 0 (nrows df))))
          (map (fun '(c, v) => (c, select mask v)) (columns df)).

(** [df.take(idx)]: the rows in the order given by [idx]. *)
Definition take_rows (idx : list nat) (df : DataFrame) : DataFrame :=
  mkFrame (length idx)
          (map (fun '(c, v) => (c, map (fun i => default (Float nan) (v !! i)) idx))
               (columns df)).

(** What [st.error] displays: the function that reports, and the
    exception when the message quotes one. *)
Inductive st_message :=
| st_error (origin : string) (cause : option exn).

(** [f'MA{n}'] and the like. *)
Definition fstr (prefix : string) (n : nat) : string :=
  prefix +:+ NilZero.string_of_uint (Nat.to_uint n).

(** A loop over a Series whose body can raise. *)
Fixpoint traverse {A B} (f : A -> result B) (l : list A) : result (list B) :=
  match l with
  | [] => Ok []
  | x :: l' => y ← f x; ys ← traverse f l'; Ok (y :: ys)
  end.

Definition floats (v : list cell) : result (list float) := traverse as_float v.

Definition cells (v : list float) : list cell := map Float v.

(** Equality of two scalars as [Series.isin] sees it (NaN matches NaN).
    Timestamps match by instant, which is what pandas does between two
    datetime columns; against a column of date strings pandas may match
    less, never more. *)
Definition cell_eqb (a b : cell) : bool :=
  match a, b with
  | Float (fin x), Float (fin y) => Qeq_bool x y
  | Float nan, Float nan => true
  | PyNone, PyNone => true
  | Timestamp x, Timestamp y => Z.eqb x y
  | NaT, NaT => true
  | Text x, Text y => String.eqb x y
  | _, _ => false
  end.

(** [s.isin(values)] *)
Definition isin (s values : list cell) : list bool :=
  map (fun c => existsb (cell_eqb c) values) s.

(** ** src/src/data_loader.py *)

Module DataLoader.

(** [pd.to_datetime(s)].  A vendor date that parses is represented by the
    timestamp it denotes; missing values become NaT; a number is read as
    an offset from the epoch; other text raises. *)
Definition to_datetime1 (c : cell) : result cell :=
  match c with
  | Timestamp t => Ok (Timestamp t)
  | NaT | PyNone | Float nan => Ok NaT
  | Float (fin q) => Ok (Timestamp (Z.quot (Qnum q) (Zpos (Qden q))))
  | Text _ => Raise ValueError
  end.

Definition to_datetime (s : list cell) : result (list cell) :=
  traverse to_datetime1 s.

(** [pd.to_numeric(s, errors='coerce')].  As for dates, a price sent as
    numeric text is represented by the number it denotes; [Text] stands
    for text that is not a number, which is coerced to NaN. *)
Definition to_numeric1 (c : cell) : cell :=
  match c with
  | Float x => Float x
  | Timestamp t => Float (fin (inject_Z t))
  | PyNone | NaT | Text _ => Float nan
  end.

Definition to_numeric (s : list cell) : list cell := map to_numeric1 s.

(** The order [sort_values] uses on a datetime column: ascending, NaT
    (and anything that is not a timestamp) last. *)
Definition date_le (a b : cell) : bool :=
  match a, b with
  | Timestamp x, Timestamp y => Z.leb x y
  | Timestamp _, _ => true
  | _, Timestamp _ => false
  | _, _ => true
  end.

Fixpoint insert_by {A} (le : A -> A -> bool) (x : A) (l : list A) : list A :=
  match l with
  | [] => [x]
  | y :: l' => if le x y then x :: y :: l' else y :: insert_by le x l'
  end.

Definition sort_by {A} (le : A -> A -> bool) (l : list A) : list A :=
  foldr (insert_by le) [] l.

(** The permutation that sorts the keys.  pandas' default sort leaves
    the order of equal keys unspecified; the model keeps them in their
    original order. *)
Definition argsort (keys : list cell) : list nat :=
  map fst (sort_by (fun p q => date_le (snd p) (snd q))
                   (combine (seq 0 (length keys)) keys)).

(** [df.sort_values(by).reset_index(drop=True)] *)
Definition sort_values (df : DataFrame) (by_ : string) : result DataFrame :=
  keys ← get_column df by_;
  Ok (take_rows (argsort (fit (nrows df) keys)) df).

(** [df.dropna(subset=[a, b])] *)
Definition dropna (df : DataFrame) (a b : string) : result DataFrame :=
  va ← get_column df a;
  vb ← get_column df b;
  Ok (filter_rows (zip_with (fun x y => negb (isna x || isna y))
                            (fit (nrows df) va) (fit (nrows df) vb)) df).

Fixpoint first_present (df : DataFrame) (names : list string) : option string :=
  match names with
  | [] => None
  | c :: names' => if has_column df c then Some c else first_present df names'
  end.

(** [s / x] for a Series and a scalar. *)
Definition series_div (s : list cell) (x : cell) : result (list cell) :=
  d ← as_float x;
  v ← floats s;
  Ok (cells (map (fun a => fdiv a d) v)).

(** The body of the try block. *)
Definition preprocess_try (df_raw : DataFrame)
  : result (option DataFrame * list st_message) :=
  match first_present df_raw ["ann_date"; "trade_date"] with
  | None => Ok (None, [st_error "preprocess_fund_data: no date column" None])
  | Some date_column =>
      raw ← get_column df_raw date_column;
      dates ← to_datetime raw;
      let df := set_column df_raw "date" dates in
      df ← sort_values df "date";
      match first_present df ["unit_nav"; "adj_nav"; "close"] with
      | None => Ok (None, [st_error "preprocess_fund_data: no nav column" None])
      | Some nav_column =>
          v ← get_column df nav_column;
          let df := set_column df "nav" (to_numeric v) in
          df ← dropna df "nav" "date";
          nav ← get_column df "nav";
          nav0 ← iloc nav 0;
          cum ← series_div nav nav0;
          Ok (Some (set_column df "cum_nav" cum), [])
      end
  end.

Definition preprocess_fund_data (df_raw : option DataFrame)
  : option DataFrame * list st_message :=
  match df_raw with
  | None => (None, [])
  | Some raw =>
      if empty raw then (None, [])
      else match preprocess_try raw with
           | Ok r => r
           | Raise e => (None, [st_error "preprocess_fund_data" (Some e)])
           end
  end.

(** *** The loaders *)

(** What the loaders display: a warning or an error. *)
Inductive st_notice :=
| st_warning (origin : string)
| st_failure (origin : string) (cause : option exn).

(** The Tushare Pro endpoints the loaders call.  Each returns a frame or
    raises. *)
Record tushare_pro := {
  fund_nav : string -> string -> string -> result DataFrame;
  fund_daily : string -> string -> string -> result DataFrame;
  fund_manager : string -> result DataFrame;
  fund_share : string -> string -> string -> result DataFrame;
  fund_div : string -> result DataFrame;
  index_daily : string -> string -> string -> result DataFrame
}.

(** [load_fund_data]: the NAV endpoint first, the daily endpoint when it
    has no row. *)
Definition load_fund_data (pro : tushare_pro) (fund_code start_date end_date : string)
  : option DataFrame * list st_notice :=
  match fund_nav pro fund_code start_date end_date with
  | Raise e => (None, [st_failure "load_fund_data" (Some e)])
  | Ok df_nav =>
      if empty df_nav then
        match fund_daily pro fund_code start_date end_date with
        | Raise e =>
            (None, [st_warning "load_fund_data"; st_failure "load_fund_data" (Some e)])
        | Ok df_daily =>
            if empty df_daily
            then (None, [st_warning "load_fund_data"; st_failure "load_fund_data" None])
            else (Some df_daily, [st_warning "load_fund_data"])
        end
      else (Some df_nav, [])
  end.

(** The pattern of the other loaders: one call, None with a warning when
    the answer has no row. *)
Definition load_one (origin : string) (answer : result DataFrame)
  : option DataFrame * list st_notice :=
  match answer with
  | Raise e => (None, [st_failure origin (Some e)])
  | Ok df => if empty df then (None, [st_warning origin]) else (Some df, [])
  end.

Definition load_fund_manager_info (pro : tushare_pro) (fund_code : string) :=
  load_one "load_fund_manager_info" (fund_manager pro fund_code).

Definition load_fund_share_data (pro : tushare_pro) (fund_code start_date end_date : string) :=
  load_one "load_fund_share_data" (fund_share pro fund_code start_date end_date).

Definition load_fund_div_data (pro : tushare_pro) (fund_code : string) :=
  load_one "load_fund_div_data" (fund_div pro fund_code).

Definition load_benchmark_data (pro : tushare_pro)
    (benchmark_code start_date end_date : string) :=
  load_one "load_benchmark_data" (index_daily pro benchmark_code start_date end_date).

End DataLoader.

(** ** src/src/indicators.py *)

Module Indicators.

(** What a pandas_ta function hands back: a Series, a DataFrame of named
    result columns, or None when the input is shorter than the window. *)
Inductive pyval :=
| VNone
| VSeries (v : list cell)
| VFrame (cols : list (string * list cell)).

(** The pandas_ta entry points the module calls.  Each may raise. *)
Record pandas_ta := {
  ta_sma : list cell -> nat -> result pyval;
  ta_rsi : list cell -> nat -> result pyval;
  ta_bbands : list cell -> nat -> Q -> result pyval;
  ta_macd : list cell -> result pyval;
  ta_stoch : list cell -> list cell -> list cell -> nat -> nat -> nat -> result pyval;
  ta_cci : list cell -> list cell -> list cell -> nat -> result pyval;
  ta_adx : list cell -> list cell -> list cell -> nat -> result pyval;
  ta_trix : list cell -> nat -> result pyval;
  ta_atr : list cell -> list cell -> list cell -> nat -> result pyval;
  ta_obv : list cell -> list cell -> result pyval;
  ta_mfi : list cell -> list cell -> list cell -> list cell -> nat -> result pyval
}.

(** [df[c] = v] for a value returned by the library. *)
Definition assign (df : DataFrame) (c : string) (v : pyval) : result DataFrame :=
  match v with
  | VSeries s => Ok (set_column df c s)
  | VNone => Ok (set_column df c (replicate (nrows df) PyNone))
  | VFrame [(_, s)] => Ok (set_column df c s)
  | VFrame _ => Raise ValueError
  end.

(** [v[key]] for a value returned by the library. *)
Definition subscript (v : pyval) (key : string) : result pyval :=
  match v with
  | VFrame cols =>
      match assoc key cols with
      | Some s => Ok (VSeries s)
      | None => Raise (KeyError key)
      end
  | VSeries _ => Raise (KeyError key)
  | VNone => Raise TypeError
  end.

(** [df[c] = v[key]] *)
Definition assign_from (df : DataFrame) (c : string) (v : pyval) (key : string)
  : result DataFrame :=
  s ← subscript v key; assign df c s.

Definition series_of (v : pyval) : result (list float) :=
  match v with
  | VSeries s => floats s
  | _ => Raise TypeError
  end.

(** [isinstance(v, pd.DataFrame)] *)
Definition is_frame (v : pyval) : bool :=
  match v with VFrame _ => true | _ => false end.

(** [x in selected_indicators] *)
Definition selected (name : string) (l : list string) : bool :=
  existsb (String.eqb name) l.

(** One [if name in selected_indicators: ...] block. *)
Definition when (b : bool) (step : DataFrame -> result DataFrame) (df : DataFrame)
  : result DataFrame :=
  if b then step df else Ok df.

(** The volume the OBV and MFI blocks use: the frame's own, or a constant
    placeholder. *)
Definition volume_data (df : DataFrame) : result (list cell) :=
  if negb (has_column df "volume")
  then Ok (replicate (nrows df) (num 1000000))
  else get_column df "volume".

Section Engine.
Variable ta : pandas_ta.
Variables (short_ma long_ma rsi_period : nat).

Definition base_step (df : DataFrame) : result DataFrame :=
  nav ← get_column df "nav";
  v ← ta_sma ta nav short_ma; df ← assign df (fstr "MA" short_ma) v;
  nav ← get_column df "nav";
  v ← ta_sma ta nav long_ma; df ← assign df (fstr "MA" long_ma) v;
  nav ← get_column df "nav";
  v ← ta_rsi ta nav rsi_period; assign df (fstr "RSI" rsi_period) v.

Definition boll_step (df : DataFrame) : result DataFrame :=
  nav ← get_column df "nav";
  boll ← ta_bbands ta nav 20 2;
  df ← assign_from df "BOLL_UPPER" boll "BBU_20_2.0_2.0";
  df ← assign_from df "BOLL_MIDDLE" boll "BBM_20_2.0_2.0";
  assign_from df "BOLL_LOWER" boll "BBL_20_2.0_2.0".

Definition macd_step (df : DataFrame) : result DataFrame :=
  nav ← get_column df "nav";
  macd ← ta_macd ta nav;
  df ← assign_from df "MACD_DIF" macd "MACD_12_26_9";
  df ← assign_from df "MACD_DEA" macd "MACDs_12_26_9";
  assign_from df "MACD_HIST" macd "MACDh_12_26_9".

Definition kdj_step (df : DataFrame) : result DataFrame :=
  nav ← get_column df "nav";
  kdj ← ta_stoch ta nav nav nav 9 3 3;
  df ← assign_from df "KDJ_K" kdj "STOCHk_9_3_3";
  df ← assign_from df "KDJ_D" kdj "STOCHd_9_3_3";
  k ← get_column df "KDJ_K"; k ← floats k;
  d ← get_column df "KDJ_D"; d ← floats d;
  Ok (set_column df "KDJ_J"
        (cells (zip_with (fun x y => fsub (fmul (fin 3) x) (fmul (fin 2) y)) k d))).

Definition cci_step (df : DataFrame) : result DataFrame :=
  nav ← get_column df "nav";
  cci ← ta_cci ta nav nav nav 20;
  assign df "CCI" cci.

Definition dmi_step (df : DataFrame) : result DataFrame :=
  nav ← get_column df "nav";
  dmi ← ta_adx ta nav nav nav 14;
  df ← assign_from df "DMI_PLUS" dmi "DMP_14";
  df ← assign_from df "DMI_MINUS" dmi "DMN_14";
  assign_from df "DMI_ADX" dmi "ADX_14".

Definition bbi_step (df : DataFrame) : result DataFrame :=
  nav ← get_column df "nav"; ma3 ← ta_sma ta nav 3;
  nav ← get_column df "nav"; ma6 ← ta_sma ta nav 6;
  nav ← get_column df "nav"; ma12 ← ta_sma ta nav 12;
  nav ← get_column df "nav"; ma24 ← ta_sma ta nav 24;
  a ← series_of ma3; b ← series_of ma6;
  let ab := zip_with fadd a b in
  c ← series_of ma12;
  let abc := zip_with fadd ab c in
  d ← series_of ma24;
  let abcd := zip_with fadd abc d in
  Ok (set_column df "BBI" (cells (map (fun x => fdiv x (fin 4)) abcd))).

Definition trix_step (df : DataFrame) : result DataFrame :=
  nav ← get_column df "nav";
  trix ← ta_trix ta nav 12;
  if is_frame trix then
    df ← assign_from df "TRIX" trix "TRIX_12_9";
    assign_from df "TRIX_SIGNAL" trix "TRIXs_12_9"
  else assign df "TRIX" trix.

Definition atr_step (df : DataFrame) : result DataFrame :=
  nav ← get_column df "nav";
  atr ← ta_atr ta nav nav nav 14;
  assign df "ATR" atr.

Definition obv_step (df : DataFrame) : result DataFrame :=
  volume ← volume_data df;
  nav ← get_column df "nav";
  obv ← ta_obv ta nav volume;
  assign df "OBV" obv.

Definition mfi_step (df : DataFrame) : result DataFrame :=
  volume ← volume_data df;
  nav ← get_column df "nav";
  mfi ← ta_mfi ta nav nav nav volume 14;
  assign df "MFI" mfi.

(** The body of the try block.  [if selected_indicators:] is false
    for None and for the empty list. *)
Definition indicators_try (df : DataFrame) (selected_indicators : option (list string))
  : result DataFrame :=
  df ← base_step df;
  match selected_indicators with
  | None | Some [] => Ok df
  | Some sel =>
      df ← when (selected "BOLL" sel) boll_step df;
      df ← when (selected "MACD" sel) macd_step df;
      df ← when (selected "KDJ" sel) kdj_step df;
      df ← when (selected "CCI" sel) cci_step df;
      df ← when (selected "DMI" sel) dmi_step df;
      df ← when (selected "BBI" sel) bbi_step df;
      df ← when (selected "TRIX" sel) trix_step df;
      df ← when (selected "ATR" sel) atr_step df;
      df ← when (selected "OBV" sel) obv_step df;
      when (selected "MFI" sel) mfi_step df
  end.

(** On an exception the handler reports it and returns the frame it was
    given, which the body never touched (it works on a copy). *)
Definition calculate_technical_indicators (df : option DataFrame)
    (selected_indicators : option (list string))
  : option DataFrame * list st_message :=
  match df with
  | None => (None, [])
  | Some d =>
      if empty d then (None, [])
      else match indicators_try d selected_indicators with
           | Ok out => (Some out, [])
           | Raise e => (Some d, [st_error "calculate_technical_indicators" (Some e)])
           end
  end.
End Engine.

(** *** Statistics on a Series *)

(** A Series that went through [dropna] keeps its index labels. *)
Definition series := list (nat * float).

Definition values (s : series) : list float := map snd s.

Fixpoint pct_from (i : nat) (prev : float) (v : list float) : series :=
  match v with
  | [] => []
  | x :: v' => (i, fsub (fdiv x prev) (fin 1)) :: pct_from (S i) x v'
  end.

(** [s.pct_change()]: undefined at the first position. *)
Definition pct_change (v : list float) : series :=
  match v with
  | [] => []
  | x :: v' => (0%nat, nan) :: pct_from 1 x v'
  end.

(** [s.dropna()] *)
Definition dropna_s (s : series) : series :=
  List.filter (fun p => negb (fisnan (snd p))) s.

Definition skipna (v : list float) : list Q :=
  omap (fun x => match x with fin q => Some q | nan => None end) v.

Definition Qsum (l : list Q) : Q := foldr Qplus 0 l.

Definition Qlen (l : list Q) : Q := inject_Z (Z.of_nat (length l)).

Definition Qmean (l : list Q) : Q := Qsum l / Qlen l.

(** [s.mean()] *)
Definition mean (v : list float) : float :=
  match skipna v with
  | [] => nan
  | l => fin (Qmean l)
  end.

(** Sum of the products of the deviations from the means. *)
Definition codeviation (a b : list Q) : Q :=
  Qsum (zip_with (fun x y => (x - Qmean a) * (y - Qmean b)) a b).

(** Variance with [ddof] delta degrees of freedom; undefined when the
    divisor is not positive. *)
Definition variance (ddof : nat) (v : list float) : float :=
  let l := skipna v in
  if (length l <=? ddof)%nat then nan
  else fin (codeviation l l / inject_Z (Z.of_nat (length l - ddof))).

(** [s.index.get(i)] *)
Fixpoint at_label (i : nat) (s : series) : option float :=
  match s with
  | [] => None
  | (j, x) :: s' => if (i =? j)%nat then Some x else at_label i s'
  end.

(** [a - b] on two Series: aligned on the index labels, undefined where
    a label is missing on one side. *)
Definition sub_aligned (a b : series) : series :=
  map (fun p => (fst p, match at_label (fst p) b with
                        | Some y => fsub (snd p) y
                        | None => nan
                        end)) a
  ++ map (fun p => (fst p, nan))
         (List.filter (fun p => match at_label (fst p) a with
                                | Some _ => false
                                | None => true
                                end) b).

(** The two numpy primitives that leave the rationals. *)
Record numpy := {
  np_sqrt : float -> float;
  np_power : float -> float -> float
}.

Section Stats.
Variable np : numpy.

(** [s.std()] (sample standard deviation) *)
Definition std (v : list float) : float := np_sqrt np (variance 1 v).

(** [np.var(s)] (population variance) *)
Definition np_var (v : list float) : float := variance 0 v.

(** [np.cov(a, b)[0][1]]: raises on operands of different lengths. *)
Definition np_cov (a b : list float) : result float :=
  if negb (length a =? length b)%nat then Raise ValueError
  else if existsb fisnan a || existsb fisnan b then Ok nan
  else if (length a <=? 1)%nat then Ok nan
  else Ok (fin (codeviation (skipna a) (skipna b)
                / inject_Z (Z.of_nat (length a - 1)))).
End Stats.

(** *** calculate_performance_metrics *)

Definition fmax (m x : float) : float :=
  match m, x with
  | nan, _ => x
  | _, nan => m
  | fin a, fin b => if Qle_bool a b then fin b else fin a
  end.

Definition fmin (m x : float) : float :=
  match m, x with
  | nan, _ => x
  | _, nan => m
  | fin a, fin b => if Qle_bool a b then fin a else fin b
  end.

Fixpoint expanding_from (m : float) (v : list float) : list float :=
  match v with
  | [] => []
  | x :: v' => fmax m x :: expanding_from (fmax m x) v'
  end.

(** [s.expanding().max()] *)
Definition expanding_max (v : list float) : list float := expanding_from nan v.

(** [s.min()] *)
Definition series_min (v : list float) : float := foldr fmin nan v.

Definition head_or_raise {A} (l : list A) : result A :=
  match l with
  | x :: _ => Ok x
  | [] => Raise IndexError
  end.

Definition last_or_raise {A} (l : list A) : result A :=
  match last l with
  | Some x => Ok x
  | None => Raise IndexError
  end.

Definition risk_free_rate : Q := 3 # 100.

Section Performance.
Variable np : numpy.

(** The benchmark-relative block; [metrics] already holds the six
    basic entries. *)
Definition relative_metrics (df b : DataFrame) (metrics : gmap string float)
  : result (gmap string float) :=
  close ← get_column b "close"; close ← floats close;
  let benchmark_returns := dropna_s (pct_change close) in
  dates ← get_column df "date";
  trade_dates ← get_column b "trade_date";
  let common_dates := isin dates trade_dates in
  let fund_aligned := filter_rows common_dates df in
  fund_dates ← get_column fund_aligned "date";
  let benchmark_aligned := filter_rows (isin trade_dates fund_dates) b in
  if (0 <? nrows fund_aligned)%nat && (0 <? nrows benchmark_aligned)%nat then
    fnav ← get_column fund_aligned "nav"; fnav ← floats fnav;
    bclose ← get_column benchmark_aligned "close"; bclose ← floats bclose;
    let fund_returns := dropna_s (pct_change fnav) in
    let bench_returns := dropna_s (pct_change bclose) in
    let excess_returns := values (sub_aligned fund_returns bench_returns) in
    let tracking_error := fmul (std np excess_returns) (np_sqrt np (fin 252)) in
    let information_ratio :=
      if fgt tracking_error (fin 0)
      then fdiv (fmul (mean excess_returns) (np_sqrt np (fin 252))) tracking_error
      else fin 0 in
    if (nrows fund_aligned =? nrows benchmark_aligned)%nat then
      covariance ← np_cov (values fund_returns) (values bench_returns);
      let benchmark_variance := np_var (values bench_returns) in
      let beta :=
        if fgt benchmark_variance (fin 0)
        then fdiv covariance benchmark_variance
        else fin 1 in
      Ok (<["tracking_error" := tracking_error]>
          (<["information_ratio" := information_ratio]>
          (<["beta" := beta]> metrics)))
    else Ok metrics
  else Ok metrics.

(** The body of the try block. *)
Definition performance_try (df : DataFrame) (benchmark_df : option DataFrame)
  : result (gmap string float) :=
  nav ← get_column df "nav"; nav ← floats nav;
  let returns := dropna_s (pct_change nav) in
  cum ← get_column df "cum_nav"; cum ← floats cum;
  c_last ← last_or_raise cum;
  c_first ← head_or_raise cum;
  let cum_returns := fsub (fdiv c_last c_first) (fin 1) in
  let trading_days := nrows df in
  let years := fdiv (of_nat trading_days) (fin 252) in
  let annual_return :=
    fsub (np_power np (fadd (fin 1) cum_returns) (fdiv (fin 1) years)) (fin 1) in
  let annual_volatility := fmul (std np (values returns)) (np_sqrt np (fin 252)) in
  let rolling_max := expanding_max cum in
  let drawdown := zip_with (fun c m => fdiv (fsub c m) m) cum rolling_max in
  let max_drawdown := series_min drawdown in
  let sharpe_ratio :=
    if fgt annual_volatility (fin 0)
    then fdiv (fsub annual_return (fin risk_free_rate)) annual_volatility
    else fin 0 in
  let calmar_ratio :=
    if fne max_drawdown (fin 0)
    then fdiv annual_return (fabs max_drawdown)
    else fin 0 in
  let metrics : gmap string float :=
    <["calmar_ratio" := calmar_ratio]>
    (<["sharpe_ratio" := sharpe_ratio]>
    (<["max_drawdown" := max_drawdown]>
    (<["annual_volatility" := annual_volatility]>
    (<["annual_return" := annual_return]>
    (<["total_return" := cum_returns]> ∅))))) in
  match benchmark_df with
  | None => Ok metrics
  | Some b => if empty b then Ok metrics else relative_metrics df b metrics
  end.

Definition calculate_performance_metrics (df benchmark_df : option DataFrame)
  : option (gmap string float) * list st_message :=
  match df with
  | None => (None, [])
  | Some d =>
      if empty d then (None, [])
      else match performance_try d benchmark_df with
           | Ok m => (Some m, [])
           | Raise e => (None, [st_error "calculate_performance_metrics" (Some e)])
           end
  end.
End Performance.

(** *** detect_golden_cross_death_cross *)

(** [for i in l: s = body(s, i)] with a body that can raise. *)
Fixpoint for_each {S} (body : S -> nat -> result S) (l : list nat) (s : S) : result S :=
  match l with
  | [] => Ok s
  | i :: l' => s' ← body s i; for_each body l' s'
  end.

(** One iteration of the scanning loop; the accumulator holds the two
    date lists. *)
Definition cross_step (df : DataFrame) (short_col long_col : string)
    (acc : list cell * list cell) (i : nat) : result (list cell * list cell) :=
  short ← get_column df short_col;
  long ← get_column df long_col;
  golden ← and_then (s0 ← iloc short (i - 1); l0 ← iloc long (i - 1); cell_le s0 l0)
                    (s1 ← iloc short i; l1 ← iloc long i; cell_gt s1 l1);
  if golden : bool then
    date ← get_column df "date"; d ← iloc date i;
    Ok (fst acc ++ [d], snd acc)
  else
    death ← and_then (s0 ← iloc short (i - 1); l0 ← iloc long (i - 1); cell_ge s0 l0)
                     (s1 ← iloc short i; l1 ← iloc long i; cell_lt s1 l1);
    if death : bool then
      date ← get_column df "date"; d ← iloc date i;
      Ok (fst acc, snd acc ++ [d])
    else Ok acc.

(** The body of the try block: [range(1, len(df))]. *)
Definition cross_try (df : DataFrame) (short_ma long_ma : nat)
  : result (list cell * list cell) :=
  let short_col := fstr "MA" short_ma in
  let long_col := fstr "MA" long_ma in
  if negb (has_column df short_col) || negb (has_column df long_col)
  then Ok ([], [])
  else for_each (cross_step df short_col long_col) (seq 1 (nrows df - 1)) ([], []).

Definition detect_golden_cross_death_cross (df : option DataFrame)
    (short_ma long_ma : nat) : (list cell * list cell) * list st_message :=
  match df with
  | None => (([], []), [])
  | Some d =>
      if empty d then (([], []), [])
      else match cross_try d short_ma long_ma with
           | Ok r => (r, [])
           | Raise e => (([], []), [st_error "detect_golden_cross_death_cross" (Some e)])
           end
  end.

(** *** calculate_rolling_volatility *)

Section Rolling.
Variable np : numpy.

(** The standard deviation of one full window, as the rolling kernel
    computes it: undefined when the window holds an undefined value or
    fewer than two observations. *)
Definition window_std (w : list float) : float :=
  if existsb fisnan w then nan
  else match variance 1 w with
       | nan => nan
       | x => np_sqrt np x
       end.

(** [s.rolling(window).std()]: undefined until the window is full. *)
Definition rolling_std (window : nat) (v : list float) : list float :=
  imap (fun k _ =>
          if (window <=? S k)%nat
          then window_std (take window (drop (S k - window) v))
          else nan) v.

(** The body of the try block.  The result is the list of the values
    of the returned Series, in order; the Series carries the row labels
    of the frame (first row apart), which a frame of this model does not
    have. *)
Definition rolling_try (df : DataFrame) (window : nat) : result (list float) :=
  nav ← get_column df "nav"; nav ← floats nav;
  let returns := values (dropna_s (pct_change nav)) in
  Ok (map (fun x => fmul x (np_sqrt np (fin 252))) (rolling_std window returns)).

Definition calculate_rolling_volatility (df : option DataFrame) (window : nat)
  : option (list float) * list st_message :=
  match df with
  | None => (None, [])
  | Some d =>
      if empty d then (None, [])
      else match rolling_try d window with
           | Ok r => (Some r, [])
           | Raise e => (None, [st_error "calculate_rolling_volatility" (Some e)])
           end
  end.
End Rolling.

End Indicators.

(** ** src/src/visualization.py *)

Module Visualization.

(** [detect_cross_points]: the same scanning loop, without the guard on
    an absent frame (reading [df.columns] of None raises inside the try
    block) and without a report. *)
Definition detect_cross_points (df : option DataFrame) (short_ma long_ma : nat)
  : list cell * list cell :=
  match df with
  | None => ([], [])
  | Some d =>
      match Indicators.cross_try d short_ma long_ma with
      | Ok r => r
      | Raise _ => ([], [])
      end
  end.

(** The per-indicator labels, in the order the source introduces them:
    neutral, bullish, bearish, overbought, oversold, above the upper
    band, below the lower band, strong zone, weak zone, up-trend,
    down-trend, ranging. *)
Inductive label :=
| Neutral | Bullish | Bearish | Overbought | Oversold
| AboveUpper | BelowLower | StrongZone | WeakZone
| UpTrend | DownTrend | Ranging.

(** The three values of [overall_signal] and of [risk_level]. *)
Inductive overall := LeanBullish | LeanBearish | LeanNeutral.
Inductive risk := RiskHigh | RiskMedium | RiskLow.

Record entry := mkEntry {
  signal : label;
  interpretation : list float   (* the values formatted into the text *)
}.

Record summary := mkSummary {
  overall_signal : overall;
  key_signals : list string;
  risk_level : risk;
  suggestion : option overall;   (* which of the three texts, if any *)
  indicator_analysis : list (string * entry)
}.

(** The local variables of the analysis. *)
Record tally := mkTally {
  signals_bullish : nat;
  signals_bearish : nat;
  analysis : list (string * entry)
}.

Definition bullish_vote (t : tally) : tally :=
  mkTally (S (signals_bullish t)) (signals_bearish t) (analysis t).

Definition bearish_vote (t : tally) : tally :=
  mkTally (signals_bullish t) (S (signals_bearish t)) (analysis t).

(** [summary['indicator_analysis'][name] = {...}] *)
Definition note (name : string) (e : entry) (t : tally) : tally :=
  mkTally (signals_bullish t) (signals_bearish t) (assoc_set name e (analysis t)).

Definition has_all (df : DataFrame) (cols : list string) : bool :=
  forallb (has_column df) cols.

Section Summary.
Variable df : DataFrame.
Variable latest_data : list (string * cell).

Definition macd_analysis (t : tally) : result tally :=
  if has_column df "MACD_DIF" && has_column df "MACD_DEA" then
    dif_latest ← row_get latest_data "MACD_DIF";
    dea_latest ← row_get latest_data "MACD_DEA";
    hist_latest ← cell_sub dif_latest dea_latest;
    up ← and_then (cell_gt dif_latest dea_latest) (cell_gt hist_latest (num 0));
    r ← (if up : bool then Ok (Bullish, bullish_vote t)
         else
           down ← and_then (cell_lt dif_latest dea_latest) (cell_lt hist_latest (num 0));
           if down : bool then Ok (Bearish, bearish_vote t) else Ok (Neutral, t));
    x ← format_f dif_latest;
    y ← format_f dea_latest;
    Ok (note "MACD" (mkEntry (fst r) [x; y]) (snd r))
  else Ok t.

(** [rsi_col]: the columns whose name starts with RSI, in frame order. *)
Definition rsi_col : list string :=
  List.filter (String.prefix "RSI") (map fst (columns df)).

Definition rsi_analysis (t : tally) : result tally :=
  match rsi_col with
  | [] => Ok t
  | c :: _ =>
      rsi_latest ← row_get latest_data c;
      high ← cell_gt rsi_latest (num 70);
      r ← (if high : bool then Ok (Overbought, bearish_vote t)
           else
             low ← cell_lt rsi_latest (num 30);
             if low : bool then Ok (Oversold, bullish_vote t) else Ok (Neutral, t));
      x ← format_f rsi_latest;
      Ok (note "RSI" (mkEntry (fst r) [x]) (snd r))
  end.

Definition kdj_analysis (t : tally) : result tally :=
  if has_all df ["KDJ_K"; "KDJ_D"; "KDJ_J"] then
    k_latest ← row_get latest_data "KDJ_K";
    d_latest ← row_get latest_data "KDJ_D";
    j_latest ← row_get latest_data "KDJ_J";
    c1 ← and_then (cell_gt k_latest (num 80)) (cell_gt d_latest (num 80));
    r ← (if c1 : bool then Ok (Overbought, bearish_vote t)
         else
           c2 ← and_then (cell_lt k_latest (num 20)) (cell_lt d_latest (num 20));
           if c2 : bool then Ok (Oversold, bullish_vote t)
           else
             c3 ← and_then (cell_gt k_latest d_latest) (cell_gt j_latest (num 0));
             if c3 : bool then Ok (Bullish, bullish_vote t)
             else
               c4 ← and_then (cell_lt k_latest d_latest) (cell_lt j_latest (num 0));
               if c4 : bool then Ok (Bearish, bearish_vote t) else Ok (Neutral, t));
    x ← format_f k_latest;
    y ← format_f d_latest;
    z ← format_f j_latest;
    Ok (note "KDJ" (mkEntry (fst r) [x; y; z]) (snd r))
  else Ok t.

Definition boll_analysis (t : tally) : result tally :=
  if has_all df ["BOLL_UPPER"; "BOLL_MIDDLE"; "BOLL_LOWER"] then
    nav_latest ← row_get latest_data "nav";
    upper_latest ← row_get latest_data "BOLL_UPPER";
    lower_latest ← row_get latest_data "BOLL_LOWER";
    middle_latest ← row_get latest_data "BOLL_MIDDLE";
    c1 ← cell_gt nav_latest upper_latest;
    r ← (if c1 : bool then Ok (AboveUpper, bearish_vote t)
         else
           c2 ← cell_lt nav_latest lower_latest;
           if c2 : bool then Ok (BelowLower, bullish_vote t)
           else
             c3 ← cell_gt nav_latest middle_latest;
             if c3 : bool then Ok (StrongZone, bullish_vote t)
             else Ok (WeakZone, bearish_vote t));
    Ok (note "BOLL" (mkEntry (fst r) []) (snd r))
  else Ok t.

Definition cci_analysis (t : tally) : result tally :=
  if has_column df "CCI" then
    cci_latest ← row_get latest_data "CCI";
    high ← cell_gt cci_latest (num 100);
    r ← (if high : bool then Ok (Overbought, bearish_vote t)
         else
           low ← cell_lt cci_latest (num (-100));
           if low : bool then Ok (Oversold, bullish_vote t) else Ok (Neutral, t));
    x ← format_f cci_latest;
    Ok (note "CCI" (mkEntry (fst r) [x]) (snd r))
  else Ok t.

Definition dmi_analysis (t : tally) : result tally :=
  if has_all df ["DMI_PLUS"; "DMI_MINUS"; "DMI_ADX"] then
    di_plus_latest ← row_get latest_data "DMI_PLUS";
    di_minus_latest ← row_get latest_data "DMI_MINUS";
    adx_latest ← row_get latest_data "DMI_ADX";
    trend ← cell_gt adx_latest (num 25);
    r ← (if trend : bool then
           up ← cell_gt di_plus_latest di_minus_latest;
           if up : bool then Ok (UpTrend, bullish_vote t)
           else Ok (DownTrend, bearish_vote t)
         else Ok (Ranging, t));
    x ← format_f adx_latest;
    _ ← cell_gt adx_latest (num 25);
    Ok (note "DMI" (mkEntry (fst r) [x]) (snd r))
  else Ok t.

Definition mfi_analysis (t : tally) : result tally :=
  if has_column df "MFI" then
    mfi_latest ← row_get latest_data "MFI";
    high ← cell_gt mfi_latest (num 80);
    r ← (if high : bool then Ok (Overbought, bearish_vote t)
         else
           low ← cell_lt mfi_latest (num 20);
           if low : bool then Ok (Oversold, bullish_vote t) else Ok (Neutral, t));
    x ← format_f mfi_latest;
    Ok (note "MFI" (mkEntry (fst r) [x]) (snd r))
  else Ok t.

Definition bbi_analysis (t : tally) : result tally :=
  if has_column df "BBI" then
    bbi_latest ← row_get latest_data "BBI";
    nav_latest ← row_get latest_data "nav";
    up ← cell_gt nav_latest bbi_latest;
    r ← (if up : bool then Ok (Bullish, bullish_vote t)
         else Ok (Bearish, bearish_vote t));
    Ok (note "BBI" (mkEntry (fst r) []) (snd r))
  else Ok t.

Definition trix_analysis (t : tally) : result tally :=
  if has_column df "TRIX" then
    trix_latest ← row_get latest_data "TRIX";
    up ← cell_gt trix_latest (num 0);
    r ← (if up : bool then Ok (Bullish, bullish_vote t)
         else Ok (Bearish, bearish_vote t));
    x ← format_f trix_latest;
    Ok (note "TRIX" (mkEntry (fst r) [x]) (snd r))
  else Ok t.

(** The overall judgement. *)
Definition judge (t : tally) : overall :=
  if (signals_bearish t <? signals_bullish t)%nat then LeanBullish
  else if (signals_bullish t <? signals_bearish t)%nat then LeanBearish
  else LeanNeutral.

(** The RSI flag of the risk assessment: it reads the column named
    RSI14, whatever the configured window. *)
Definition rsi_flag : result nat :=
  if has_column df "RSI14" then
    let rsi_latest := default (num 50) (assoc "RSI14" latest_data) in
    d ← cell_sub rsi_latest (num 50);
    d ← as_float d;
    far ← cell_gt (Float (fabs d)) (num 30);
    Ok (if far : bool then 1%nat else 0%nat)
  else Ok 0%nat.

Definition atr_flag : result nat :=
  if has_column df "ATR" then
    atr_latest ← row_get latest_data "ATR";
    positive ← (if negb (isna atr_latest) then cell_gt atr_latest (num 0)
                else Ok false);
    if positive : bool then
      big ← cell_gt atr_latest (num (2 # 100));
      Ok (if big : bool then 1%nat else 0%nat)
    else Ok 0%nat
  else Ok 0%nat.

Definition assess (volatility_signals : nat) : risk :=
  if (2 <=? volatility_signals)%nat then RiskHigh
  else if (volatility_signals =? 1)%nat then RiskMedium
  else RiskLow.

Definition summary_try : result summary :=
  t ← macd_analysis (mkTally 0 0 []);
  t ← rsi_analysis t;
  t ← kdj_analysis t;
  t ← boll_analysis t;
  t ← cci_analysis t;
  t ← dmi_analysis t;
  t ← mfi_analysis t;
  t ← bbi_analysis t;
  t ← trix_analysis t;
  r ← rsi_flag;
  a ← atr_flag;
  Ok (mkSummary (judge t) [] (assess (r + a)) (Some (judge t)) (analysis t)).
End Summary.

(** The dictionary the function starts from. *)
Definition initial_summary : summary :=
  mkSummary LeanNeutral [] RiskMedium None [].

(** [selected_indicators] is accepted and never read. *)
Definition generate_technical_analysis_summary (df : option DataFrame)
    (selected_indicators : list string) : option summary * list st_message :=
  match df with
  | None => (None, [])
  | Some d =>
      if empty d then (None, [])
      else match (if (0 <? nrows d)%nat
                  then row ← last_row d; summary_try d row
                  else Ok initial_summary) with
           | Ok s => (Some s, [])
           | Raise e => (None, [st_error "generate_technical_analysis_summary" (Some e)])
           end
  end.

End Visualization.

(** ** Concrete collaborators and inputs for the examples *)

Module Examples.
Import Indicators.

(** A numpy whose two primitives stay in the rationals: the square root
    is truncated to six decimals, a power is exact for an integral
    exponent and undefined otherwise (the examples use series whose
    length divides 252). *)
Definition rational_sqrt (x : float) : float :=
  match x with
  | fin q =>
      if Qle_bool 0 q
      then fin (Z.sqrt (Qnum q * 1000000000000 / Zpos (Qden q)) # 1000000)
      else nan
  | nan => nan
  end.

Definition rational_power (b e : float) : float :=
  match b, e with
  | fin x, fin y =>
      if (Zpos (Qden (Qred y)) =? 1)%Z then fin (Qred (Qpower x (Qnum (Qred y))))
      else nan
  | _, _ => nan
  end.

Definition rational_numpy : numpy :=
  {| np_sqrt := rational_sqrt; np_power := rational_power |}.

(** The simple moving average: undefined on the first [n - 1] positions,
    None when the series is shorter than the window. *)
Fixpoint window_sums (n : nat) (v : list float) : list float :=
  match v with
  | [] => []
  | _ :: v' =>
      (if (n <=? length v)%nat
       then fdiv (foldr fadd (fin 0) (take n v)) (of_nat n)
       else nan) :: window_sums n v'
  end.

Definition sma (close : list cell) (n : nat) : result pyval :=
  if (length close <? n)%nat then Ok VNone
  else v ← floats close;
       Ok (VSeries (cells (replicate (n - 1) nan
                           ++ take (length v - (n - 1)) (window_sums n v)))).

(** pandas_ta on a short series: an indicator whose window does not fit
    returns None.  This instance computes the moving average only and
    raises for any other indicator whose window does fit. *)
Definition short_only (close : list cell) (n : nat) : result pyval :=
  if (length close <? n)%nat then Ok VNone
  else Raise (LibraryError "not modelled").

Definition short_series_ta : pandas_ta :=
  {| ta_sma := sma;
     ta_rsi := short_only;
     ta_bbands := fun close n _ => short_only close n;
     ta_macd := fun close => short_only close 26;
     ta_stoch := fun _ _ close k _ _ => short_only close k;
     ta_cci := fun _ _ close n => short_only close n;
     ta_adx := fun _ _ close n => short_only close n;
     ta_trix := fun close n => short_only close n;
     ta_atr := fun _ _ close n => short_only close n;
     ta_obv := fun close _ => Raise (LibraryError "not modelled");
     ta_mfi := fun _ _ close _ n => short_only close n |}.

(** A vendor payload: three NAV records, newest first. *)
Definition raw_nav : DataFrame :=
  mkFrame 3
    [("ts_code", [Text "510300.SH"; Text "510300.SH"; Text "510300.SH"]);
     ("ann_date", [Timestamp 20230105; Timestamp 20230104; Timestamp 20230103]);
     ("unit_nav", [num (105 # 100); num (110 # 100); num 1])].


(** A payload, oldest first, whose last two records carry the same
    announcement date: the price falls, rises and falls again. *)
Definition raw_peak : DataFrame :=
  mkFrame 4
    [("ann_date", [Timestamp 20230105; Timestamp 20230106; Timestamp 20230109;
                   Timestamp 20230109]);
     ("unit_nav", [num 2; num 1; num 3; num 1])].

(** The canonical series of [raw_nav]. *)
Definition fund3 : DataFrame :=
  mkFrame 3
    [("ts_code", [Text "510300.SH"; Text "510300.SH"; Text "510300.SH"]);
     ("ann_date", [Timestamp 20230103; Timestamp 20230104; Timestamp 20230105]);
     ("unit_nav", [num 1; num (110 # 100); num (105 # 100)]);
     ("date", [Timestamp 20230103; Timestamp 20230104; Timestamp 20230105]);
     ("nav", [num 1; num (110 # 100); num (105 # 100)]);
     ("cum_nav", [num 1; num (110 # 100); num (105 # 100)])].

(** A two-row canonical series. *)
Definition fund2 : DataFrame :=
  mkFrame 2
    [("date", [Timestamp 20230103; Timestamp 20230104]);
     ("nav", [num 1; num (11 # 10)]);
     ("cum_nav", [num 1; num (11 # 10)])].

(** A benchmark whose trading days are all later than the fund's. *)
Definition benchmark_later : DataFrame :=
  mkFrame 2
    [("trade_date", [Timestamp 20240102; Timestamp 20240103]);
     ("close", [num 3000; num 3030])].

(** An indicator table with both moving averages: the short one crosses
    above the long one at the fourth row and back below at the sixth. *)
Definition crossing : DataFrame :=
  mkFrame 6
    [("date", [Timestamp 1; Timestamp 2; Timestamp 3; Timestamp 4; Timestamp 5;
               Timestamp 6]);
     ("nav", [num 1; num 1; num 1; num 3; num 1; num 1]);
     ("MA2", [Float nan; num 1; num 1; num 2; num 2; num 1]);
     ("MA3", [Float nan; Float nan; num 1; num (5 # 3); num (5 # 3); num (5 # 3)])].

(** An indicator table computed with a 7-period RSI whose latest value
    is 90, and a MACD whose latest difference is above its signal. *)
Definition table_rsi7 : DataFrame :=
  mkFrame 2
    [("date", [Timestamp 20230103; Timestamp 20230104]);
     ("nav", [num 1; num (11 # 10)]);
     ("RSI7", [Float nan; num 90]);
     ("MACD_DIF", [num 0; num (2 # 100)]);
     ("MACD_DEA", [num 0; num (1 # 100)])].

End Examples.

(** ** The statements the theorems compare the code with *)

(** The columns each name of the catalogue adds to the table. *)
Definition catalog : list (string * list string) :=
  [("BOLL", ["BOLL_UPPER"; "BOLL_MIDDLE"; "BOLL_LOWER"]);
   ("MACD", ["MACD_DIF"; "MACD_DEA"; "MACD_HIST"]);
   ("KDJ", ["KDJ_K"; "KDJ_D"; "KDJ_J"]);
   ("CCI", ["CCI"]);
   ("DMI", ["DMI_PLUS"; "DMI_MINUS"; "DMI_ADX"]);
   ("BBI", ["BBI"]);
   ("TRIX", ["TRIX"]);
   ("ATR", ["ATR"]);
   ("OBV", ["OBV"]);
   ("MFI", ["MFI"])].

Definition indicator_columns (name : string) : list string :=
  default [] (assoc name catalog).

(** Every column a complete run adds: the two moving averages, the RSI
    and the columns of the requested indicators. *)
Definition requested_columns (short_ma long_ma rsi_period : nat)
    (selected_indicators : option (list string)) : list string :=
  [fstr "MA" short_ma; fstr "MA" long_ma; fstr "RSI" rsi_period]
  ++ flat_map indicator_columns (default [] selected_indicators).

(** [d'] has every column of [d]. *)
Definition extends (d d' : DataFrame) : Prop :=
  forall c, has_column d c = true -> has_column d' c = true.

(** A step adds the columns [cols] and removes none. *)
Definition adds (step : DataFrame -> result DataFrame) (cols : list string) : Prop :=
  forall d d', step d = Ok d' ->
    extends d d' /\ Forall (fun c => has_column d' c = true) cols.

(** The rows [dropna] keeps: those with a price and a date. *)
Definition keep (navs dates : list cell) : list bool :=
  zip_with (fun x y => negb (isna x || isna y)) navs dates.

(** The value of an indicator at a position, undefined outside. *)
Definition value_at (v : list float) (i : nat) : float := default nan (v !! i).

(** The two crossing conditions of the specification at the pair
    [(i - 1, i)]. *)
Definition golden_cross_at (short long : list float) (i : nat) : bool :=
  fle (value_at short (i - 1)) (value_at long (i - 1))
  && fgt (value_at short i) (value_at long i).

Definition death_cross_at (short long : list float) (i : nat) : bool :=
  fge (value_at short (i - 1)) (value_at long (i - 1))
  && flt (value_at short i) (value_at long i).

(** The dates found at the given positions. *)
Definition dates_at (dates : list cell) (idx : list nat) : list cell :=
  map (fun i => default NaT (dates !! i)) idx.

(** The vote a label stands for.  Oversold, below the lower band, the
    strong zone and an up-trend count as bullish; their mirrors as
    bearish; neutral and ranging are the labels without a vote. *)
Inductive vote := VoteBullish | VoteBearish | NoVote.

Definition vote_of (l : Visualization.label) : vote :=
  match l with
  | Visualization.Bullish | Visualization.Oversold | Visualization.BelowLower
  | Visualization.StrongZone | Visualization.UpTrend => VoteBullish
  | Visualization.Bearish | Visualization.Overbought | Visualization.AboveUpper
  | Visualization.WeakZone | Visualization.DownTrend => VoteBearish
  | Visualization.Neutral | Visualization.Ranging => NoVote
  end.

Definition is_bullish (e : string * Visualization.entry) : bool :=
  match vote_of (Visualization.signal (snd e)) with VoteBullish => true | _ => false end.

Definition is_bearish (e : string * Visualization.entry) : bool :=
  match vote_of (Visualization.signal (snd e)) with VoteBearish => true | _ => false end.

(** The two counts, read off the per-indicator labels of a summary. *)
Definition bullish_count (a : list (string * Visualization.entry)) : nat :=
  length (List.filter is_bullish a).

Definition bearish_count (a : list (string * Visualization.entry)) : nat :=
  length (List.filter is_bearish a).

(** A branch that set label [l] left the counters as the label's vote
    says. *)
Definition cast (t : Visualization.tally) (l : Visualization.label)
    (t' : Visualization.tally) : Prop :=
  match vote_of l with
  | VoteBullish => t' = Visualization.bullish_vote t
  | VoteBearish => t' = Visualization.bearish_vote t
  | NoVote => t' = t
  end.

(** The counters agree with the labels recorded so far, and only the
    indicators in [names] have been recorded. *)
Definition tallied (names : list string) (t : Visualization.tally) : Prop :=
  Visualization.signals_bullish t = bullish_count (Visualization.analysis t)
  /\ Visualization.signals_bearish t = bearish_count (Visualization.analysis t)
  /\ forall k, assoc k (Visualization.analysis t) <> None -> In k names.

(** The labels that stand for no vote. *)
Definition neutral_label (l : Visualization.label) : bool :=
  match l with
  | Visualization.Neutral | Visualization.Ranging => true
  | _ => false
  end.

Definition has_vote (e : string * Visualization.entry) : bool :=
  negb (neutral_label (Visualization.signal (snd e))).

(** A sequence that never decreases from one position to the next. *)
Definition non_decreasing (l : list Q) : Prop :=
  forall i x y, l !! i = Some x -> l !! S i = Some y -> x <= y.

(** The same, for a sequence continued from a previous value. *)
Fixpoint ascending_from (m : Q) (l : list Q) : Prop :=
  match l with
  | [] => True
  | x :: l' => m <= x /\ ascending_from x l'
  end.

(** The drawdown series of a cumulative series. *)
Definition drawdowns (from : float) (cum : list float) : list float :=
  zip_with (fun c m => fdiv (fsub c m) m) cum (Indicators.expanding_from from cum).

(** Every column of the frame has one cell per row. *)
Definition well_formed (d : DataFrame) : Prop :=
  List.Forall (fun cv => length (snd cv) = nrows d) (columns d).

(** The columns the analyzers read. *)
Definition core_columns : list string := ["date"; "nav"; "cum_nav"].

(** [d'] has as many rows as [d] and the same date, nav and cum_nav
    columns. *)
Definition preserves (d d' : DataFrame) : Prop :=
  nrows d' = nrows d
  /\ forall c, In c core_columns -> get_column d' c = get_column d c.

(** The simple returns of a price list that follows the price [prev]. *)
Fixpoint simple_returns (prev : Q) (l : list Q) : list Q :=
  match l with
  | [] => []
  | x :: l' => (x / prev - 1) :: simple_returns x l'
  end.

(** A cell without a value: NaN or None. *)
Definition missing (c : cell) : bool :=
  match c with
  | Float nan | PyNone => true
  | _ => false
  end.

(** A comparison that answers False or raises. *)
Definition no_or_raise (r : result bool) : Prop :=
  r = Ok false \/ exists e, r = Raise e.


(** What a loader may answer: a frame with rows, or None together with
    at least one displayed notice. *)
Definition loader_outcome (r : option DataFrame * list DataLoader.st_notice) : Prop :=
  match fst r with
  | Some df => empty df = false
  | None => snd r <> []
  end.

(** The effect of one analysis on the recorded entries: none when its
    columns are missing, one entry under [name] otherwise. *)
Definition records (present : bool) (name : string) (t t' : Visualization.tally) : Prop :=
  if present
  then exists e, Visualization.analysis t' = assoc_set name e (Visualization.analysis t)
  else Visualization.analysis t' = Visualization.analysis t.

(** The nine indicators the summary knows, in the order it analyses
    them, each with the test on the frame's columns that guards it. *)
Definition reported (d : DataFrame) : list (string * bool) :=
  [("MACD", has_column d "MACD_DIF" && has_column d "MACD_DEA");
   ("RSI", match Visualization.rsi_col d with [] => false | _ => true end);
   ("KDJ", Visualization.has_all d ["KDJ_K"; "KDJ_D"; "KDJ_J"]);
   ("BOLL", Visualization.has_all d ["BOLL_UPPER"; "BOLL_MIDDLE"; "BOLL_LOWER"]);
   ("CCI", has_column d "CCI");
   ("DMI", Visualization.has_all d ["DMI_PLUS"; "DMI_MINUS"; "DMI_ADX"]);
   ("MFI", has_column d "MFI");
   ("BBI", has_column d "BBI");
   ("TRIX", has_column d "TRIX")].

Definition analysed (d : DataFrame) : list string :=
  map fst (List.filter snd (reported d)).

(** The value of column [c] on the last row of [d]. *)
Definition latest (d : DataFrame) (c : string) (x : cell) : Prop :=
  exists v, get_column d c = Ok v /\ v !! (nrows d - 1)%nat = Some x.

(** * Theorems *)

(** ** The error monad *)

Lemma bind_Ok {A B} (m : result A) (f : A -> result B) (y : B) :
  m ≫= f = Ok y -> exists x, m = Ok x /\ f x = Ok y.
Proof. destruct m as [a|e]; simpl; [eauto | discriminate]. Qed.

Lemma bind_ok {A B} (x : A) (f : A -> result B) : Ok x ≫= f = f x.
Proof. reflexivity. Qed.

Ltac run := repeat (rewrite bind_ok; cbv beta).

Ltac bind_inv H :=
  let x := fresh "x" in
  let Hx := fresh "E" in
  apply bind_Ok in H; destruct H as (x & Hx & H).

(** ** Columns *)

Lemma assoc_set_same {A} k (v : A) l : assoc k (assoc_set k v l) = Some v.
Proof.
  induction l as [|[k' v'] l IH]; simpl.
  - now rewrite String.eqb_refl.
  - destruct (String.eqb k k') eqn:E; simpl.
    + now rewrite String.eqb_refl.
    + now rewrite E.
Qed.

Lemma assoc_set_other {A} k k' (v : A) l :
  k <> k' -> assoc k' (assoc_set k v l) = assoc k' l.
Proof.
  intros Hne. induction l as [|[k0 v0] l IH]; simpl.
  - apply String.eqb_neq in Hne. rewrite String.eqb_sym in Hne. now rewrite Hne.
  - destruct (String.eqb k k0) eqn:E; simpl.
    + apply String.eqb_eq in E. subst k0.
      destruct (String.eqb k' k) eqn:E'; [|reflexivity].
      apply String.eqb_eq in E'. congruence.
    + now rewrite IH.
Qed.

Lemma get_set_same d c v : get_column (set_column d c v) c = Ok (fit (nrows d) v).
Proof. unfold get_column, set_column; simpl. now rewrite assoc_set_same. Qed.

Lemma get_set_other d c c' v :
  c <> c' -> get_column (set_column d c v) c' = get_column d c'.
Proof. intros. unfold get_column, set_column; simpl. now rewrite assoc_set_other. Qed.

Lemma has_set_same d c v : has_column (set_column d c v) c = true.
Proof. unfold has_column, set_column; simpl. now rewrite assoc_set_same. Qed.

Lemma extends_refl d : extends d d.
Proof. now intros c. Qed.

Lemma extends_trans d1 d2 d3 : extends d1 d2 -> extends d2 d3 -> extends d1 d3.
Proof. intros H1 H2 c Hc. auto. Qed.

Lemma extends_set d c v : extends d (set_column d c v).
Proof.
  intros c' Hc'. destruct (decide (c = c')) as [->|Hne].
  - apply has_set_same.
  - unfold has_column in *. unfold set_column; simpl. now rewrite assoc_set_other.
Qed.

(** ** C1: the indicator engine *)

Section EngineFacts.
Import Indicators.
Variable ta : pandas_ta.
Variables (short_ma long_ma rsi_period : nat).

Lemma assign_columns d c v d' :
  assign d c v = Ok d' -> has_column d' c = true /\ extends d d'.
Proof.
  unfold assign. intros H.
  destruct v as [|s|[|[k s] [|]]]; inversion H; subst;
    auto using has_set_same, extends_set.
Qed.

Lemma assign_from_columns d c v key d' :
  assign_from d c v key = Ok d' -> has_column d' c = true /\ extends d d'.
Proof. unfold assign_from. intros H. bind_inv H. eauto using assign_columns. Qed.

Ltac columns_tac :=
  repeat match goal with
    | H : assign _ _ _ = Ok _ |- _ => apply assign_columns in H; destruct H
    | H : assign_from _ _ _ _ = Ok _ |- _ => apply assign_from_columns in H; destruct H
    | H : Ok _ = Ok _ |- _ => inversion H; subst; clear H
    end;
  pose proof extends_set; pose proof has_set_same;
  unfold extends in *;
  split; [ intros; eauto 12 | repeat constructor; eauto 12 ].

Ltac step_tac H := repeat bind_inv H; columns_tac.

Lemma base_adds :
  adds (base_step ta short_ma long_ma rsi_period)
       [fstr "MA" short_ma; fstr "MA" long_ma; fstr "RSI" rsi_period].
Proof. intros d d' H. unfold base_step in H. step_tac H. Qed.

Lemma boll_adds : adds (boll_step ta) ["BOLL_UPPER"; "BOLL_MIDDLE"; "BOLL_LOWER"].
Proof. intros d d' H. unfold boll_step in H. step_tac H. Qed.

Lemma macd_adds : adds (macd_step ta) ["MACD_DIF"; "MACD_DEA"; "MACD_HIST"].
Proof. intros d d' H. unfold macd_step in H. step_tac H. Qed.

Lemma kdj_adds : adds (kdj_step ta) ["KDJ_K"; "KDJ_D"; "KDJ_J"].
Proof. intros d d' H. unfold kdj_step in H. step_tac H. Qed.

Lemma cci_adds : adds (cci_step ta) ["CCI"].
Proof. intros d d' H. unfold cci_step in H. step_tac H. Qed.

Lemma dmi_adds : adds (dmi_step ta) ["DMI_PLUS"; "DMI_MINUS"; "DMI_ADX"].
Proof. intros d d' H. unfold dmi_step in H. step_tac H. Qed.

Lemma bbi_adds : adds (bbi_step ta) ["BBI"].
Proof. intros d d' H. unfold bbi_step in H. step_tac H. Qed.

Lemma trix_adds : adds (trix_step ta) ["TRIX"].
Proof.
  intros d d' H. unfold trix_step in H. repeat bind_inv H.
  destruct (is_frame x0); step_tac H.
Qed.

Lemma atr_adds : adds (atr_step ta) ["ATR"].
Proof. intros d d' H. unfold atr_step in H. step_tac H. Qed.

Lemma obv_adds : adds (obv_step ta) ["OBV"].
Proof. intros d d' H. unfold obv_step in H. step_tac H. Qed.

Lemma mfi_adds : adds (mfi_step ta) ["MFI"].
Proof. intros d d' H. unfold mfi_step in H. step_tac H. Qed.

(** A guarded block adds its columns when the guard holds. *)
Lemma when_adds b step cols d d' :
  adds step cols -> when b step d = Ok d' ->
  extends d d' /\ (b = true -> Forall (fun c => has_column d' c = true) cols).
Proof.
  intros Hs H. destruct b; simpl in H.
  - apply Hs in H as [H1 H2]. auto.
  - inversion H; subst. split; [apply extends_refl | discriminate].
Qed.
Lemma selected_In name sel : In name sel -> selected name sel = true.
Proof.
  intros H. unfold selected. apply existsb_exists.
  exists name. split; [assumption | apply String.eqb_refl].
Qed.

(** C1, as the code has it.  The engine is all-or-nothing: when the
    computation of any indicator raises, the failure is reported and
    the table handed in is returned unchanged, without the columns
    computed before the failure; when nothing raises, nothing is
    reported and the moving averages, the RSI and the columns of every
    requested indicator of the catalogue are in the table. *)
Theorem C1_all_or_nothing (d : DataFrame) (sel : option (list string)) :
  empty d = false ->
  match indicators_try ta short_ma long_ma rsi_period d sel with
  | Raise e =>
      calculate_technical_indicators ta short_ma long_ma rsi_period (Some d) sel
      = (Some d, [st_error "calculate_technical_indicators" (Some e)])
  | Ok out =>
      calculate_technical_indicators ta short_ma long_ma rsi_period (Some d) sel
      = (Some out, [])
      /\ extends d out
      /\ Forall (fun c => has_column out c = true)
                (requested_columns short_ma long_ma rsi_period sel)
  end.
Proof.
  intros Hne. unfold calculate_technical_indicators. rewrite Hne.
  destruct (indicators_try ta short_ma long_ma rsi_period d sel) as [out|e] eqn:E;
    [|reflexivity].
  split; [reflexivity|].
  unfold indicators_try in E. bind_inv E.
  apply base_adds in E0 as [Hb1 Hb2].
  unfold requested_columns.
  assert (Hbase : forall o, extends x o ->
            Forall (fun c => has_column o c = true)
              [fstr "MA" short_ma; fstr "MA" long_ma; fstr "RSI" rsi_period]).
  { intros o Ho. eapply Forall_impl; [exact Hb2|]. intros c Hc. now apply Ho. }
  destruct sel as [[|n sel]|]; simpl default.
  - inversion E; subst. split; [assumption|].
    simpl flat_map. rewrite app_nil_r. apply Hbase, extends_refl.
  - remember (n :: sel) as names eqn:Hnames. clear Hnames.
    repeat bind_inv E.
    repeat match goal with
      | H : when _ (boll_step _) _ = Ok _ |- _ =>
          apply (when_adds _ _ _ _ _ boll_adds) in H; destruct H
      | H : when _ (macd_step _) _ = Ok _ |- _ =>
          apply (when_adds _ _ _ _ _ macd_adds) in H; destruct H
      | H : when _ (kdj_step _) _ = Ok _ |- _ =>
          apply (when_adds _ _ _ _ _ kdj_adds) in H; destruct H
      | H : when _ (cci_step _) _ = Ok _ |- _ =>
          apply (when_adds _ _ _ _ _ cci_adds) in H; destruct H
      | H : when _ (dmi_step _) _ = Ok _ |- _ =>
          apply (when_adds _ _ _ _ _ dmi_adds) in H; destruct H
      | H : when _ (bbi_step _) _ = Ok _ |- _ =>
          apply (when_adds _ _ _ _ _ bbi_adds) in H; destruct H
      | H : when _ (trix_step _) _ = Ok _ |- _ =>
          apply (when_adds _ _ _ _ _ trix_adds) in H; destruct H
      | H : when _ (atr_step _) _ = Ok _ |- _ =>
          apply (when_adds _ _ _ _ _ atr_adds) in H; destruct H
      | H : when _ (obv_step _) _ = Ok _ |- _ =>
          apply (when_adds _ _ _ _ _ obv_adds) in H; destruct H
      | H : when _ (mfi_step _) _ = Ok _ |- _ =>
          apply (when_adds _ _ _ _ _ mfi_adds) in H; destruct H
      end.
    assert (Hx : extends x out) by (unfold extends in *; eauto 15).
    split; [eauto using extends_trans|].
    apply Forall_app. split; [now apply Hbase|].
    apply Forall_forall. intros c Hc. apply list_elem_of_In in Hc.
    apply in_flat_map in Hc as (name & Hname & Hc).
    apply selected_In in Hname.
    unfold indicator_columns in Hc. simpl in Hc.
    repeat match type of Hc with
      | context [String.eqb name ?k] =>
          let Ek := fresh "Ek" in
          destruct (String.eqb name k) eqn:Ek;
          [ apply String.eqb_eq in Ek; subst name | ]
      end;
      cbv [default from_option id] in Hc; try (exfalso; exact Hc);
      apply list_elem_of_In in Hc;
      repeat match goal with
        | H : selected _ _ = true -> _ |- _ => specialize (H Hname)
        | H : selected _ _ = true -> _ |- _ => clear H
        end;
      match goal with
      | H : Forall _ _ |- _ =>
          rewrite Forall_forall in H; specialize (H c Hc); revert H
      end;
      clear Hb2 Hbase Hx Hc; unfold extends in *.
    all: intros; eauto 15.
  - inversion E; subst. split; [assumption|].
    simpl flat_map. rewrite app_nil_r. apply Hbase, extends_refl.
Qed.

End EngineFacts.

(** On a three-row series with the Bollinger bands requested, both
    moving averages are computed, the band computation returns None and
    subscripting it raises: the table comes back without the moving
    averages.  C1 as stated (only the failing indicator's column absent)
    does not hold. *)
Lemma C1_counterexample :
  let run := Indicators.calculate_technical_indicators
               Examples.short_series_ta 2 3 14 (Some Examples.fund3) (Some ["BOLL"]) in
  (exists d', Indicators.base_step Examples.short_series_ta 2 3 14 Examples.fund3 = Ok d'
              /\ has_column d' "MA2" = true /\ has_column d' "MA3" = true)
  /\ (exists d', Indicators.base_step Examples.short_series_ta 2 3 14 Examples.fund3 = Ok d'
                 /\ Indicators.boll_step Examples.short_series_ta d' = Raise TypeError)
  /\ run = (Some Examples.fund3,
            [st_error "calculate_technical_indicators" (Some TypeError)])
  /\ has_column Examples.fund3 "MA2" = false
  /\ has_column Examples.fund3 "MA3" = false.
Proof.
  cbv zeta. repeat split.
  - eexists. split; [vm_compute; reflexivity|]. split; reflexivity.
  - eexists. split; [vm_compute; reflexivity|]. vm_compute. reflexivity.
Qed.

Lemma C1_all_or_nothing_witness :
  empty Examples.fund3 = false
  /\ Indicators.calculate_technical_indicators
       Examples.short_series_ta 2 3 14 (Some Examples.fund3) (Some ["BOLL"])
     = (Some Examples.fund3, [st_error "calculate_technical_indicators" (Some TypeError)]).
Proof.
  split; [reflexivity|].
  exact (C1_all_or_nothing Examples.short_series_ta 2 3 14 Examples.fund3
           (Some ["BOLL"]) eq_refl).
Defined.

(** ** C10: absent and empty inputs *)

Lemma empty_no_rows d : nrows d = 0%nat -> empty d = true.
Proof. intros H. unfold empty. now rewrite H. Qed.

(** C10.  Handed None or a frame without rows, the indicator engine, the
    performance analyzer and the signal summary return None, and both
    cross detectors return two empty lists; nothing is reported. *)
Theorem C10_absent_input (ta : Indicators.pandas_ta) (np : Indicators.numpy)
    (short_ma long_ma rsi_period : nat) (sel : option (list string))
    (benchmark : option DataFrame) (names : list string) (df : option DataFrame) :
  (df = None \/ exists d, df = Some d /\ nrows d = 0%nat) ->
  Indicators.calculate_technical_indicators ta short_ma long_ma rsi_period df sel
    = (None, [])
  /\ Indicators.calculate_performance_metrics np df benchmark = (None, [])
  /\ Visualization.generate_technical_analysis_summary df names = (None, [])
  /\ Indicators.detect_golden_cross_death_cross df short_ma long_ma = (([], []), [])
  /\ Visualization.detect_cross_points df short_ma long_ma = ([], []).
Proof.
  intros [->|(d & -> & Hd)].
  - repeat split.
  - pose proof (empty_no_rows d Hd) as He.
    unfold Indicators.calculate_technical_indicators,
      Indicators.calculate_performance_metrics,
      Visualization.generate_technical_analysis_summary,
      Indicators.detect_golden_cross_death_cross,
      Visualization.detect_cross_points.
    rewrite He. repeat split.
    unfold Indicators.cross_try. rewrite Hd. simpl.
    now destruct (negb _ || negb _).
Qed.

Lemma C10_absent_input_witness :
  (Some (mkFrame 0 [("nav", [])]) = None
   \/ exists d, Some (mkFrame 0 [("nav", [])]) = Some d /\ nrows d = 0%nat)
  /\ Indicators.calculate_performance_metrics Examples.rational_numpy
       (Some (mkFrame 0 [("nav", [])])) None = (None, []).
Proof.
  assert (H : Some (mkFrame 0 [("nav", [])]) = None
              \/ exists d, Some (mkFrame 0 [("nav", [])]) = Some d /\ nrows d = 0%nat).
  { right. eexists. split; reflexivity. }
  split; [exact H|].
  exact (proj1 (proj2 (C10_absent_input Examples.short_series_ta Examples.rational_numpy
                         20 60 14 None None [] _ H))).
Defined.

(** ** C2 and C7: normalization *)

Section SortFacts.
Context {A : Type} (le : A -> A -> bool).
Hypothesis le_total : forall a b, le a b = true \/ le b a = true.
Hypothesis le_trans : forall a b c, le a b = true -> le b c = true -> le a c = true.

Lemma insert_by_In x y l :
  In y (DataLoader.insert_by le x l) <-> y = x \/ In y l.
Proof.
  induction l as [|z l IH]; simpl.
  - intuition.
  - destruct (le x z); simpl; [intuition|]. rewrite IH. intuition.
Qed.

Lemma sort_by_In y l : In y (DataLoader.sort_by le l) <-> In y l.
Proof.
  induction l as [|x l IH]; simpl; [tauto|].
  rewrite insert_by_In, IH. intuition.
Qed.

Lemma insert_by_sorted x l :
  StronglySorted (fun a b => le a b = true) l ->
  StronglySorted (fun a b => le a b = true) (DataLoader.insert_by le x l).
Proof.
  induction 1 as [|z l Hs IH Hz]; simpl.
  - repeat constructor.
  - destruct (le x z) eqn:E.
    + constructor; [now constructor|].
      constructor; [assumption|].
      eapply List.Forall_impl; [|exact Hz]. intros a Ha. eauto.
    + constructor; [assumption|].
      apply List.Forall_forall. intros a Ha. apply insert_by_In in Ha as [->|Ha].
      * destruct (le_total x z); congruence.
      * rewrite List.Forall_forall in Hz. auto.
Qed.

Lemma sort_by_sorted l :
  StronglySorted (fun a b => le a b = true) (DataLoader.sort_by le l).
Proof.
  induction l as [|x l IH]; simpl; [constructor|]. now apply insert_by_sorted.
Qed.

Lemma insert_by_length x l : length (DataLoader.insert_by le x l) = S (length l).
Proof. induction l as [|z l IH]; simpl; [|destruct (le x z); simpl]; auto. Qed.

Lemma sort_by_length l : length (DataLoader.sort_by le l) = length l.
Proof. induction l as [|x l IH]; simpl; [|rewrite insert_by_length]; auto. Qed.
End SortFacts.

Lemma date_le_total a b : DataLoader.date_le a b = true \/ DataLoader.date_le b a = true.
Proof.
  destruct a, b; simpl; auto.
  destruct (Z.leb_spec t t0), (Z.leb_spec t0 t); auto; lia.
Qed.

Lemma date_le_trans a b c :
  DataLoader.date_le a b = true -> DataLoader.date_le b c = true ->
  DataLoader.date_le a c = true.
Proof.
  destruct a, b, c; simpl; try congruence.
  rewrite !Z.leb_le. lia.
Qed.

(** Reading a column back through the positions [argsort] returns gives
    the keys in sorted order. *)
Lemma combine_seq_lookup (K : list cell) a i x :
  In (i, x) (combine (seq a (length K)) K) -> (a <= i)%nat /\ K !! (i - a)%nat = Some x.
Proof.
  revert a. induction K as [|y K IH]; simpl; intros a H; [contradiction|].
  destruct H as [H|H].
  - inversion H; subst. split; [lia|]. now rewrite Nat.sub_diag.
  - apply IH in H as [H1 H2]. split; [lia|].
    replace (i - a)%nat with (S (i - S a)) by lia. exact H2.
Qed.

Lemma take_argsort (K : list cell) :
  map (fun i => default (Float nan) (K !! i)) (DataLoader.argsort K)
  = map snd (DataLoader.sort_by (fun p q => DataLoader.date_le (snd p) (snd q))
               (combine (seq 0 (length K)) K)).
Proof.
  unfold DataLoader.argsort. rewrite map_map.
  apply map_ext_in. intros [i x] H.
  apply sort_by_In in H. apply combine_seq_lookup in H as [_ H].
  rewrite Nat.sub_0_r in H. simpl. now rewrite H.
Qed.

Lemma argsort_length K : length (DataLoader.argsort K) = length K.
Proof.
  unfold DataLoader.argsort.
  rewrite length_map, sort_by_length, length_combine, length_seq. lia.
Qed.

Lemma sorted_keys (K : list cell) :
  StronglySorted (fun a b => DataLoader.date_le a b = true)
    (map (fun i => default (Float nan) (K !! i)) (DataLoader.argsort K)).
Proof.
  rewrite take_argsort.
  pose proof (sort_by_sorted (fun p q : nat * cell => DataLoader.date_le (snd p) (snd q))
                (fun a b => date_le_total (snd a) (snd b))
                (fun a b c => date_le_trans (snd a) (snd b) (snd c))
                (combine (seq 0 (length K)) K)) as H.
  induction H as [|p l Hs IH Hp]; simpl; constructor; [assumption|].
  apply List.Forall_map. exact Hp.
Qed.

Lemma sorted_keys_In (K : list cell) c :
  In c (map (fun i => default (Float nan) (K !! i)) (DataLoader.argsort K)) -> In c K.
Proof.
  rewrite take_argsort. intros H. apply in_map_iff in H as ([i x] & <- & H).
  apply sort_by_In in H. apply combine_seq_lookup in H as [_ H].
  simpl. apply list_elem_of_In. eapply list_elem_of_lookup_2. exact H.
Qed.

(** *** Frames *)

Lemma fit_length n v : length (fit n v) = n.
Proof.
  unfold fit. rewrite length_take, length_app, length_replicate. lia.
Qed.

Lemma fit_id n v : length v = n -> fit n v = v.
Proof.
  intros <-. unfold fit. rewrite Nat.sub_diag. simpl.
  rewrite app_nil_r. apply firstn_all.
Qed.

Lemma fit_In n v c : In c (fit n v) -> In c v \/ c = Float nan.
Proof.
  unfold fit. intros H. apply list_elem_of_In in H.
  apply elem_of_take in H as (i & H & _).
  apply lookup_app_Some in H as [H|[_ H]].
  - left. apply list_elem_of_In. eapply list_elem_of_lookup_2. exact H.
  - right. apply lookup_replicate in H as [H _]. exact H.
Qed.

Lemma assoc_map {A B} (f : A -> B) k (l : list (string * A)) :
  assoc k (map (fun '(c, v) => (c, f v)) l) = f <$> assoc k l.
Proof.
  induction l as [|[c v] l IH]; simpl; [reflexivity|].
  destruct (String.eqb k c); [reflexivity | exact IH].
Qed.

Lemma get_take_rows idx d c :
  get_column (take_rows idx d) c
  = v ← get_column d c; Ok (map (fun i => default (Float nan) (v !! i)) idx).
Proof.
  unfold get_column, take_rows; simpl. rewrite assoc_map.
  now destruct (assoc c (columns d)).
Qed.

Lemma get_filter_rows mask d c :
  get_column (filter_rows mask d) c = v ← get_column d c; Ok (select mask v).
Proof.
  unfold get_column, filter_rows; simpl. rewrite assoc_map.
  now destruct (assoc c (columns d)).
Qed.

Lemma select_length {A B} (mask : list bool) (v : list A) (w : list B) :
  length v = length w -> length (select mask v) = length (select mask w).
Proof.
  revert v w. induction mask as [|b mask IH]; intros [|x v] [|y w] H;
    simpl in *; try discriminate; try reflexivity.
  destruct b; simpl; auto.
Qed.

Lemma select_In {A} (mask : list bool) (v : list A) x : In x (select mask v) -> In x v.
Proof.
  revert v. induction mask as [|b mask IH]; intros [|y v] H; simpl in *; try contradiction.
  destruct b; simpl in H; intuition.
Qed.

Lemma select_sorted {A} (R : A -> A -> Prop) (mask : list bool) (v : list A) :
  StronglySorted R v -> StronglySorted R (select mask v).
Proof.
  intros H. revert mask. induction H as [|x v Hs IH Hx]; intros [|b mask]; simpl;
    try constructor.
  destruct b; [|apply IH].
  constructor; [apply IH|].
  apply List.Forall_forall. intros y Hy. apply select_In in Hy.
  rewrite List.Forall_forall in Hx. auto.
Qed.

(** What survives [dropna] is not missing, on either column. *)
Lemma select_notna_l (a b : list cell) :
  List.Forall (fun c => isna c = false)
    (select (zip_with (fun x y => negb (isna x || isna y)) a b) a).
Proof.
  revert b. induction a as [|x a IH]; intros [|y b]; simpl; try constructor.
  destruct (isna x) eqn:Ex; simpl; [apply IH|].
  destruct (isna y); simpl; [apply IH|]. constructor; [assumption | apply IH].
Qed.

Lemma select_notna_r (a b : list cell) :
  List.Forall (fun c => isna c = false)
    (select (zip_with (fun x y => negb (isna x || isna y)) a b) b).
Proof.
  revert b. induction a as [|x a IH]; intros [|y b]; simpl; try constructor.
  destruct (isna x) eqn:Ex; simpl; [apply IH|].
  destruct (isna y) eqn:Ey; simpl; [apply IH|]. constructor; [assumption | apply IH].
Qed.

(** *** Loops in the error monad *)

Lemma traverse_Ok {A B} (f : A -> result B) l l' :
  traverse f l = Ok l' -> Forall2 (fun x y => f x = Ok y) l l'.
Proof.
  revert l'. induction l as [|x l IH]; simpl; intros l' H.
  - inversion H. constructor.
  - bind_inv H. bind_inv H. inversion H; subst. constructor; auto.
Qed.

Lemma floats_Ok l v : floats l = Ok v -> l = cells v.
Proof.
  intros H. apply traverse_Ok in H.
  induction H as [|x y l v Hxy _ IH]; simpl; [reflexivity|].
  destruct x; try discriminate. inversion Hxy; subst. now f_equal.
Qed.

Lemma floats_cells v : floats (cells v) = Ok v.
Proof.
  unfold floats, cells. induction v as [|x v IH]; simpl; [reflexivity|].
  now rewrite IH.
Qed.

Lemma to_datetime_cells l l' :
  DataLoader.to_datetime l = Ok l' ->
  List.Forall (fun c => (exists t, c = Timestamp t) \/ isna c = true) l'.
Proof.
  intros H. apply traverse_Ok in H.
  induction H as [|x y l v Hxy _ IH]; constructor; [|assumption].
  destruct x as [[|q]| | | |]; simpl in Hxy; inversion Hxy; subst; eauto.
Qed.

Lemma preprocess_shape raw out log :
  DataLoader.preprocess_fund_data (Some raw) = (Some out, log) ->
  exists (dates navs : list cell) (x0 : float) (v : list float),
    StronglySorted (fun a b => DataLoader.date_le a b = true) dates
    /\ List.Forall (fun c => (exists t, c = Timestamp t) \/ isna c = true) dates
    /\ List.Forall (fun c => exists x, c = Float x) navs
    /\ get_column out "date" = Ok (select (keep navs dates) dates)
    /\ select (keep navs dates) navs = cells v
    /\ head v = Some x0
    /\ get_column out "nav" = Ok (cells v)
    /\ get_column out "cum_nav" = Ok (cells (map (fun a => fdiv a x0) v)).
Proof.
  unfold DataLoader.preprocess_fund_data. intros H.
  destruct (empty raw); [discriminate|].
  destruct (DataLoader.preprocess_try raw) as [r|e] eqn:E; [subst r | discriminate].
  unfold DataLoader.preprocess_try in E.
  destruct (DataLoader.first_present raw _) as [date_column|]; [|discriminate].
  bind_inv E. bind_inv E. bind_inv E.
  match goal with H : DataLoader.sort_values _ _ = Ok _ |- _ =>
    unfold DataLoader.sort_values in H; rewrite get_set_same in H; simpl in H;
    inversion H; subst; clear H end.
  rewrite (fit_id _ (fit _ _)) in E by apply fit_length.
  match goal with H : DataLoader.to_datetime _ = Ok ?l |- _ =>
    apply to_datetime_cells in H; rename l into dates0, H into Hdates0 end.
  set (K := fit (nrows raw) dates0) in *.
  set (df1 := set_column raw "date" dates0) in *.
  set (df2 := take_rows (DataLoader.argsort K) df1) in *.
  destruct (DataLoader.first_present df2 _) as [nav_column|]; [|discriminate].
  bind_inv E. rename x into v0.
  set (df3 := set_column df2 "nav" (DataLoader.to_numeric v0)) in *.
  bind_inv E.
  match goal with H : DataLoader.dropna _ _ _ = Ok _ |- _ =>
    unfold DataLoader.dropna in H; rewrite get_set_same in H; simpl in H;
    rewrite get_set_other in H by discriminate end.
  unfold df2 in E2. rewrite get_take_rows in E2. unfold df1 in E2. rewrite get_set_same in E2.
  fold K in E2. simpl in E2.
  assert (Hlen : length (DataLoader.argsort K) = nrows raw)
    by (rewrite argsort_length; apply fit_length).
  rewrite Hlen in E2.
  rewrite (fit_id _ (fit _ _)) in E2 by apply fit_length.
  rewrite (fit_id _ (map _ _)) in E2 by (now rewrite length_map).
  inversion E2; subst x; clear E2.
  rewrite get_filter_rows, get_set_same in E. simpl in E. rewrite Hlen in E.
  bind_inv E. bind_inv E. inversion E; subst; clear E.
  match goal with H : DataLoader.series_div _ _ = Ok _ |- _ =>
    unfold DataLoader.series_div in H; bind_inv H; bind_inv H;
    inversion H; subst; clear H end.
  apply floats_Ok in E4.
  exists (map (fun i => default (Float nan) (K !! i)) (DataLoader.argsort K)),
         (fit (nrows raw) (DataLoader.to_numeric x0)), x2, x3.
  unfold keep.
  split; [apply sorted_keys|].
  split.
  { apply List.Forall_forall. intros c Hc. apply sorted_keys_In in Hc.
    apply fit_In in Hc as [Hc| ->]; [|now right].
    rewrite List.Forall_forall in Hdates0. auto. }
  split.
  { apply List.Forall_forall. intros c Hc.
    apply fit_In in Hc as [Hc| ->]; [|eauto].
    apply in_map_iff in Hc as (c0 & <- & _). destruct c0; simpl; eauto. }
  split.
  { rewrite get_set_other by discriminate.
    rewrite get_filter_rows, get_set_other by discriminate.
    rewrite get_take_rows, get_set_same. reflexivity. }
  split; [exact E4|].
  split.
  { rewrite E4 in E2. destruct x3 as [|y x3]; [discriminate|].
    simpl in E2. inversion E2; subst x. simpl in E. inversion E. reflexivity. }
  split.
  { rewrite get_set_other by discriminate.
    rewrite get_filter_rows, get_set_same. simpl. rewrite Hlen, E4. reflexivity. }
  rewrite get_set_same. f_equal. apply fit_id.
  unfold cells. rewrite !length_map. simpl. rewrite Hlen.
  transitivity (length (cells x3)); [unfold cells; now rewrite length_map|].
  rewrite <- E4. apply select_length. now rewrite fit_length, length_seq.
Qed.







Lemma cells_inj v w : cells v = cells w -> v = w.
Proof.
  unfold cells. revert w. induction v as [|x v IH]; intros [|y w] H;
    simpl in H; try discriminate; [reflexivity|].
  inversion H. f_equal. auto.
Qed.

Lemma cells_fin (l : list Q) : cells (map fin l) = map num l.
Proof. unfold cells, num. now rewrite map_map. Qed.

(** The prices of a normalized series are finite, and there is at least
    one. *)
Lemma preprocess_prices raw out log :
  DataLoader.preprocess_fund_data (Some raw) = (Some out, log) ->
  exists p0 prices, get_column out "nav" = Ok (map num (p0 :: prices)).
Proof.
  intros H. apply preprocess_shape in H
    as (dates & navs & x0 & v & _ & _ & _ & _ & Hsel & Hhead & Hnav & _).
  pose proof (select_notna_l navs dates) as Hna. fold (keep navs dates) in Hna.
  rewrite Hsel in Hna.
  assert (Hv : exists l, v = map fin l).
  { clear -Hna. induction v as [|x v IH]; [now exists []|].
    inversion Hna as [|? ? Hx Hv]; subst. destruct (IH Hv) as [l ->].
    destruct x as [|q]; [discriminate|]. now exists (q :: l). }
  destruct Hv as [[|p0 prices] ->]; [discriminate|].
  exists p0, prices. now rewrite Hnav, cells_fin.
Qed.

(** C7.  On a normalized series whose prices are positive, the
    cumulative column is the price column divided by its first price,
    position by position, and its first value equals 1. *)
Theorem C7_cumulative (raw out : DataFrame) (log : list st_message) (prices : list Q) :
  DataLoader.preprocess_fund_data (Some raw) = (Some out, log) ->
  get_column out "nav" = Ok (map num prices) ->
  List.Forall (fun p => 0 < p) prices ->
  exists p0 cumulative,
    head prices = Some p0
    /\ get_column out "cum_nav" = Ok (map num cumulative)
    /\ length cumulative = length prices
    /\ (forall i p, prices !! i = Some p ->
          exists c, cumulative !! i = Some c /\ c == p / p0)
    /\ (exists c0, cumulative !! 0%nat = Some c0 /\ c0 == 1).
Proof.
  intros H Hnav Hpos. apply preprocess_shape in H
    as (dates & navs & x0 & v & _ & _ & _ & _ & _ & Hhead & Hnav' & Hcum).
  rewrite Hnav' in Hnav. inversion Hnav as [Hv]. rewrite <- cells_fin in Hv.
  apply cells_inj in Hv. subst v.
  destruct prices as [|p0 prices]; [discriminate|].
  simpl in Hhead. inversion Hhead; subst x0.
  assert (Hp0 : 0 < p0) by now inversion Hpos.
  assert (Hz : Qeq_bool p0 0 = false).
  { destruct (Qeq_bool p0 0) eqn:E; [|reflexivity].
    apply Qeq_bool_eq in E. rewrite E in Hp0. now apply Qlt_irrefl in Hp0. }
  exists p0, (map (fun p => p / p0) (p0 :: prices)).
  split; [reflexivity|]. split.
  { rewrite Hcum, <- cells_fin. do 2 f_equal. rewrite !map_map.
    apply map_ext. intros p. simpl. now rewrite Hz. }
  split; [now rewrite length_map|]. split.
  - intros i p Hi. exists (p / p0). split; [|reflexivity].
    rewrite list_lookup_fmap. now rewrite Hi.
  - exists (p0 / p0). split; [reflexivity|].
    apply Qmult_inv_r. intros E. rewrite E in Hp0. now apply Qlt_irrefl in Hp0.
Qed.

Lemma C7_cumulative_witness :
  DataLoader.preprocess_fund_data (Some Examples.raw_nav) = (Some Examples.fund3, [])
  /\ get_column Examples.fund3 "nav" = Ok (map num [1; 110 # 100; 105 # 100])
  /\ List.Forall (fun p => 0 < p) [1; 110 # 100; 105 # 100]
  /\ exists p0 cumulative,
       head [1; 110 # 100; 105 # 100] = Some p0
       /\ get_column Examples.fund3 "cum_nav" = Ok (map num cumulative)
       /\ length cumulative = 3%nat
       /\ (forall i p, [1; 110 # 100; 105 # 100] !! i = Some p ->
             exists c, cumulative !! i = Some c /\ c == p / p0)
       /\ (exists c0, cumulative !! 0%nat = Some c0 /\ c0 == 1).
Proof.
  assert (H1 : DataLoader.preprocess_fund_data (Some Examples.raw_nav)
               = (Some Examples.fund3, [])) by (vm_compute; reflexivity).
  assert (H2 : get_column Examples.fund3 "nav" = Ok (map num [1; 110 # 100; 105 # 100]))
    by reflexivity.
  assert (H3 : List.Forall (fun p => 0 < p) [1; 110 # 100; 105 # 100])
    by (repeat constructor).
  split; [exact H1|]. split; [exact H2|]. split; [exact H3|].
  exact (C7_cumulative Examples.raw_nav Examples.fund3 [] _ H1 H2 H3).
Defined.


(** ** C4: crossings of the two moving averages *)

Lemma iloc_cells v i :
  (i < length v)%nat -> iloc (cells v) i = Ok (Float (value_at v i)).
Proof.
  intros H. unfold iloc, cells, value_at. rewrite list_lookup_fmap.
  destruct (lookup_lt_is_Some_2 v i H) as [x ->]. reflexivity.
Qed.

Lemma iloc_dates (dates : list cell) i :
  (i < length dates)%nat -> iloc dates i = Ok (default NaT (dates !! i)).
Proof.
  intros H. unfold iloc.
  destruct (lookup_lt_is_Some_2 dates i H) as [x ->]. reflexivity.
Qed.

Lemma Qltb_asym x y : Qltb x y = true -> Qltb y x = false.
Proof.
  unfold Qltb. intros H. apply negb_true_iff in H. apply negb_false_iff.
  apply Qle_bool_iff. destruct (Qle_bool y x) eqn:E; [discriminate|].
  apply Qlt_le_weak, Qnot_le_lt. intros Hle. apply Qle_bool_iff in Hle. congruence.
Qed.

(** The two conditions exclude each other. *)
Lemma golden_not_death short long i :
  golden_cross_at short long i = true -> death_cross_at short long i = false.
Proof.
  unfold golden_cross_at, death_cross_at. intros H.
  apply andb_true_iff in H as [_ H]. apply andb_false_iff. right.
  unfold fgt, flt, fcmp in *.
  destruct (value_at short i), (value_at long i); try reflexivity.
  now apply Qltb_asym.
Qed.

(** A pair that touches an undefined value satisfies neither. *)
Lemma undefined_no_cross short long i :
  value_at short (i - 1) = nan \/ value_at long (i - 1) = nan
  \/ value_at short i = nan \/ value_at long i = nan ->
  golden_cross_at short long i = false /\ death_cross_at short long i = false.
Proof.
  unfold golden_cross_at, death_cross_at, fle, fge, fgt, flt, fcmp.
  intros [H|[H|[H|H]]]; rewrite H;
    repeat match goal with |- context [match ?x with _ => _ end] => destruct x end;
    simpl; rewrite ?andb_false_r; auto.
Qed.

Section Crossings.
Variable d : DataFrame.
Variables (short_col long_col : string).
Variables (short long : list float) (dates : list cell).
Hypothesis Hshort : get_column d short_col = Ok (cells short).
Hypothesis Hlong : get_column d long_col = Ok (cells long).
Hypothesis Hdates : get_column d "date" = Ok dates.
Hypothesis Hshort_len : length short = nrows d.
Hypothesis Hlong_len : length long = nrows d.
Hypothesis Hdates_len : length dates = nrows d.

Lemma cross_step_spec acc i :
  (1 <= i < nrows d)%nat ->
  Indicators.cross_step d short_col long_col acc i
  = Ok (if golden_cross_at short long i
        then (fst acc ++ [default NaT (dates !! i)], snd acc)
        else if death_cross_at short long i
             then (fst acc, snd acc ++ [default NaT (dates !! i)])
             else acc).
Proof.
  intros Hi. unfold Indicators.cross_step.
  rewrite Hshort, Hlong, Hdates. simpl.
  rewrite !(iloc_cells short), !(iloc_cells long), iloc_dates by lia. simpl.
  unfold golden_cross_at, death_cross_at.
  change (fcmp Qle_bool) with fle. change (fcmp (fun x y => Qltb y x)) with fgt.
  change (fcmp (fun x y => Qle_bool y x)) with fge. change (fcmp Qltb) with flt.
  destruct (fle _ _); simpl.
  - destruct (fgt _ _); simpl; [reflexivity|].
    destruct (fge _ _); simpl; [|reflexivity].
    now destruct (flt _ _).
  - destruct (fge _ _); simpl; [|reflexivity].
    now destruct (flt _ _).
Qed.

Lemma cross_loop idx acc :
  List.Forall (fun i => (1 <= i < nrows d)%nat) idx ->
  Indicators.for_each (Indicators.cross_step d short_col long_col) idx acc
  = Ok (fst acc ++ dates_at dates (List.filter (golden_cross_at short long) idx),
        snd acc ++ dates_at dates (List.filter (death_cross_at short long) idx)).
Proof.
  intros H. revert acc. induction H as [|i idx Hi _ IH]; intros [g dd]; simpl.
  - now rewrite !app_nil_r.
  - rewrite cross_step_spec by exact Hi. simpl.
    destruct (golden_cross_at short long i) eqn:Eg.
    + rewrite (golden_not_death _ _ _ Eg). rewrite IH. simpl.
      now rewrite <- app_assoc.
    + destruct (death_cross_at short long i) eqn:Ed; rewrite IH; simpl;
        [now rewrite <- app_assoc | reflexivity].
Qed.
End Crossings.

Lemma get_has d c v : get_column d c = Ok v -> has_column d c = true.
Proof.
  unfold get_column, has_column. now destruct (assoc c (columns d)).
Qed.

Lemma scan_range n : List.Forall (fun i => (1 <= i < n)%nat) (seq 1 (n - 1)).
Proof. apply List.Forall_forall. intros i Hi. apply in_seq in Hi. lia. Qed.

Lemma dates_at_In dates f n x :
  length dates = n ->
  In x (dates_at dates (List.filter f (seq 1 (n - 1)))) ->
  exists i, f i = true /\ dates !! i = Some x.
Proof.
  intros Hlen H. unfold dates_at in H.
  apply in_map_iff in H as (i & <- & Hi).
  apply filter_In in Hi as [Hi Hf]. apply in_seq in Hi.
  exists i. split; [assumption|].
  destruct (lookup_lt_is_Some_2 dates i) as [y Hy]; [lia|]. now rewrite Hy.
Qed.

(** C4, as the code has it.  On a table whose two moving-average
    columns hold floats, both detectors return, in order, the dates of
    the positions [i] of the scan at which the golden condition
    (short[i-1] <= long[i-1] and short[i] > long[i]), respectively the
    death condition (short[i-1] >= long[i-1] and short[i] < long[i])
    holds, and nothing else.  A pair touching an undefined value
    satisfies neither condition and no position satisfies both; no date
    is in both lists when the dates are pairwise distinct, which a
    normalized series need not have. *)
Theorem C4_crossings (d : DataFrame) (short_ma long_ma : nat)
    (short long : list float) (dates : list cell) :
  empty d = false ->
  get_column d (fstr "MA" short_ma) = Ok (cells short) ->
  get_column d (fstr "MA" long_ma) = Ok (cells long) ->
  get_column d "date" = Ok dates ->
  length short = nrows d -> length long = nrows d -> length dates = nrows d ->
  let scan := seq 1 (nrows d - 1) in
  let golden := dates_at dates (List.filter (golden_cross_at short long) scan) in
  let death := dates_at dates (List.filter (death_cross_at short long) scan) in
  Indicators.detect_golden_cross_death_cross (Some d) short_ma long_ma
    = ((golden, death), [])
  /\ Visualization.detect_cross_points (Some d) short_ma long_ma = (golden, death)
  /\ (forall i,
        value_at short (i - 1) = nan \/ value_at long (i - 1) = nan
        \/ value_at short i = nan \/ value_at long i = nan ->
        golden_cross_at short long i = false /\ death_cross_at short long i = false)
  /\ (forall i, ~ (golden_cross_at short long i = true
                   /\ death_cross_at short long i = true))
  /\ (List.NoDup dates -> forall x, ~ (In x golden /\ In x death)).
Proof.
  intros Hne Hs Hl Hd Hsn Hln Hdn scan golden death.
  assert (Htry : Indicators.cross_try d short_ma long_ma = Ok (golden, death)).
  { unfold Indicators.cross_try.
    rewrite (get_has _ _ _ Hs), (get_has _ _ _ Hl). simpl.
    rewrite (cross_loop d _ _ short long dates Hs Hl Hd Hsn Hln Hdn)
      by apply scan_range.
    reflexivity. }
  split; [|split; [|split; [|split]]].
  - unfold Indicators.detect_golden_cross_death_cross. now rewrite Hne, Htry.
  - unfold Visualization.detect_cross_points. now rewrite Htry.
  - apply undefined_no_cross.
  - intros i [Hg Hdth]. apply golden_not_death in Hg. congruence.
  - intros Hnd x [Hg Hdth].
    subst golden death scan.
    apply (dates_at_In dates _ (nrows d) x Hdn) in Hg as (i & Hgi & Hi).
    apply (dates_at_In dates _ (nrows d) x Hdn) in Hdth as (j & Hdj & Hj).
    apply NoDup_ListNoDup in Hnd.
    assert (i = j) by exact (NoDup_lookup dates i j x Hnd Hi Hj). subst j.
    apply golden_not_death in Hgi. congruence.
Qed.

Lemma C4_crossings_witness :
  let short := [nan; fin 1; fin 1; fin 2; fin 2; fin 1] in
  let long := [nan; nan; fin 1; fin (5 # 3); fin (5 # 3); fin (5 # 3)] in
  let dates := [Timestamp 1; Timestamp 2; Timestamp 3; Timestamp 4; Timestamp 5;
                Timestamp 6] in
  empty Examples.crossing = false
  /\ get_column Examples.crossing (fstr "MA" 2) = Ok (cells short)
  /\ get_column Examples.crossing (fstr "MA" 3) = Ok (cells long)
  /\ get_column Examples.crossing "date" = Ok dates
  /\ length short = nrows Examples.crossing
  /\ length long = nrows Examples.crossing
  /\ length dates = nrows Examples.crossing
  /\ Indicators.detect_golden_cross_death_cross (Some Examples.crossing) 2 3
     = (([Timestamp 4], [Timestamp 6]), [])
  /\ Visualization.detect_cross_points (Some Examples.crossing) 2 3
     = ([Timestamp 4], [Timestamp 6]).
Proof.
  cbv zeta. do 7 (split; [reflexivity|]).
  pose proof (C4_crossings Examples.crossing 2 3
                [nan; fin 1; fin 1; fin 2; fin 2; fin 1]
                [nan; nan; fin 1; fin (5 # 3); fin (5 # 3); fin (5 # 3)]
                [Timestamp 1; Timestamp 2; Timestamp 3; Timestamp 4; Timestamp 5;
                 Timestamp 6]
                eq_refl eq_refl eq_refl eq_refl eq_refl eq_refl eq_refl)
    as (H1 & H2 & _).
  split; [exact H1 | exact H2].
Defined.

(** On a payload whose last two records carry the same date, the
    normalized series keeps both rows; with the 1-period and 2-period
    averages the short one crosses above the long one at the first of
    the two rows and back below at the second: both detectors return the
    repeated date as a golden cross and as a death cross.  The last
    clause of C4 (no date carries both events) does not hold. *)
Lemma C4_counterexample :
  exists series table,
    DataLoader.preprocess_fund_data (Some Examples.raw_peak) = (Some series, [])
    /\ get_column series "date"
       = Ok (map Timestamp [20230105; 20230106; 20230109; 20230109]%Z)
    /\ Indicators.calculate_technical_indicators Examples.short_series_ta 1 2 14
         (Some series) None = (Some table, [])
    /\ get_column table "MA1" = Ok [num 2; num 1; num 3; num 1]
    /\ get_column table "MA2" = Ok [Float nan; num (3 # 2); num (4 # 2); num (4 # 2)]
    /\ Indicators.detect_golden_cross_death_cross (Some table) 1 2
       = (([Timestamp 20230109], [Timestamp 20230109]), [])
    /\ Visualization.detect_cross_points (Some table) 1 2
       = ([Timestamp 20230109], [Timestamp 20230109]).
Proof.
  do 2 eexists. split; [vm_compute; reflexivity|].
  split; [reflexivity|]. split; [vm_compute; reflexivity|].
  split; [vm_compute; reflexivity|]. split; [vm_compute; reflexivity|].
  split; [vm_compute; reflexivity|]. vm_compute. reflexivity.
Qed.

(** ** C8 and C9: the signal summary *)

Lemma assoc_set_fresh {A} k (v : A) l :
  assoc k l = None -> assoc_set k v l = l ++ [(k, v)].
Proof.
  induction l as [|[k' v'] l IH]; simpl; [reflexivity|].
  destruct (String.eqb k k'); [discriminate|]. intros H. now rewrite IH.
Qed.

Lemma assoc_app_fresh {A} k k' (v : A) l :
  assoc k' (l ++ [(k, v)]) <> None -> assoc k' l <> None \/ k' = k.
Proof.
  induction l as [|[k0 v0] l IH]; simpl.
  - destruct (String.eqb k' k) eqn:E; [|congruence].
    apply String.eqb_eq in E. auto.
  - destruct (String.eqb k' k0); [left; congruence | exact IH].
Qed.

Lemma count_app {A} (f : A -> bool) l x :
  length (List.filter f (l ++ [x])) = (length (List.filter f l) + if f x then 1 else 0)%nat.
Proof.
  rewrite List.filter_app, length_app. simpl. now destruct (f x).
Qed.

(** Recording an indicator that was not recorded before keeps the
    counters in step with the labels. *)
Lemma note_tallied names name lab interp t t' :
  ~ In name names -> tallied names t -> cast t lab t' ->
  tallied (name :: names)
    (Visualization.note name (Visualization.mkEntry lab interp) t').
Proof.
  intros Hfresh (Hb & Hr & Hk) Hcast.
  assert (Hnone : assoc name (Visualization.analysis t) = None).
  { destruct (assoc name (Visualization.analysis t)) eqn:E; [|reflexivity].
    exfalso. apply Hfresh, Hk. congruence. }
  assert (Ha : Visualization.analysis t' = Visualization.analysis t).
  { unfold cast in Hcast. destruct (vote_of lab); subst t'; reflexivity. }
  unfold tallied, Visualization.note. simpl. rewrite Ha.
  rewrite (assoc_set_fresh _ _ _ Hnone).
  unfold bullish_count, bearish_count in *. rewrite !count_app.
  unfold is_bullish at 2, is_bearish at 2. simpl.
  unfold cast in Hcast. split; [|split].
  - destruct (vote_of lab); subst t'; simpl; lia.
  - destruct (vote_of lab); subst t'; simpl; lia.
  - intros k Hk'. apply assoc_app_fresh in Hk' as [Hk'| ->]; [right; auto | now left].
Qed.

Lemma tallied_weaken names name t : tallied names t -> tallied (name :: names) t.
Proof. intros (Hb & Hr & Hk). repeat split; try assumption. intros k H. right. auto. Qed.

Section SummaryFacts.
Import Visualization.
Variable df : DataFrame.
Variable latest_data : list (string * cell).

Ltac analysis_tac :=
  repeat match goal with
    | H : (if ?b then _ else _) = Ok _ |- _ => destruct b
    | H : _ ≫= _ = Ok _ |- _ => bind_inv H
    | H : Ok _ = Ok _ |- _ => inversion H; subst; try clear H
    end;
  cbn [fst snd];
  first [ now apply tallied_weaken
        | eapply note_tallied; [eassumption | eassumption | reflexivity] ].

Lemma macd_tallied names t t' :
  ~ In "MACD" names -> tallied names t ->
  macd_analysis df latest_data t = Ok t' -> tallied ("MACD" :: names) t'.
Proof. intros Hf Ht H. unfold macd_analysis in H. analysis_tac. Qed.

Lemma rsi_tallied names t t' :
  ~ In "RSI" names -> tallied names t ->
  rsi_analysis df latest_data t = Ok t' -> tallied ("RSI" :: names) t'.
Proof.
  intros Hf Ht H. unfold rsi_analysis in H.
  destruct (rsi_col df); analysis_tac.
Qed.

Lemma kdj_tallied names t t' :
  ~ In "KDJ" names -> tallied names t ->
  kdj_analysis df latest_data t = Ok t' -> tallied ("KDJ" :: names) t'.
Proof. intros Hf Ht H. unfold kdj_analysis in H. analysis_tac. Qed.

Lemma boll_tallied names t t' :
  ~ In "BOLL" names -> tallied names t ->
  boll_analysis df latest_data t = Ok t' -> tallied ("BOLL" :: names) t'.
Proof. intros Hf Ht H. unfold boll_analysis in H. analysis_tac. Qed.

Lemma cci_tallied names t t' :
  ~ In "CCI" names -> tallied names t ->
  cci_analysis df latest_data t = Ok t' -> tallied ("CCI" :: names) t'.
Proof. intros Hf Ht H. unfold cci_analysis in H. analysis_tac. Qed.

Lemma dmi_tallied names t t' :
  ~ In "DMI" names -> tallied names t ->
  dmi_analysis df latest_data t = Ok t' -> tallied ("DMI" :: names) t'.
Proof. intros Hf Ht H. unfold dmi_analysis in H. analysis_tac. Qed.

Lemma mfi_tallied names t t' :
  ~ In "MFI" names -> tallied names t ->
  mfi_analysis df latest_data t = Ok t' -> tallied ("MFI" :: names) t'.
Proof. intros Hf Ht H. unfold mfi_analysis in H. analysis_tac. Qed.

Lemma bbi_tallied names t t' :
  ~ In "BBI" names -> tallied names t ->
  bbi_analysis df latest_data t = Ok t' -> tallied ("BBI" :: names) t'.
Proof. intros Hf Ht H. unfold bbi_analysis in H. analysis_tac. Qed.

Lemma trix_tallied names t t' :
  ~ In "TRIX" names -> tallied names t ->
  trix_analysis df latest_data t = Ok t' -> tallied ("TRIX" :: names) t'.
Proof. intros Hf Ht H. unfold trix_analysis in H. analysis_tac. Qed.

Lemma not_in_names (k : string) (names : list string) :
  forallb (fun n => negb (String.eqb k n)) names = true -> ~ In k names.
Proof.
  intros H Hin. rewrite forallb_forall in H. specialize (H k Hin).
  now rewrite String.eqb_refl in H.
Qed.

Ltac advance L H :=
  eapply L in H; [| |eassumption]; [|apply not_in_names; reflexivity].

(** After the nine analyses the counters are the counts of the bullish
    and of the bearish labels recorded. *)
Lemma summary_tallied s :
  summary_try df latest_data = Ok s ->
  exists t, tallied ["TRIX"; "BBI"; "MFI"; "DMI"; "CCI"; "BOLL"; "KDJ"; "RSI"; "MACD"] t
            /\ overall_signal s = judge t
            /\ indicator_analysis s = analysis t.
Proof.
  intros H. unfold summary_try in H. repeat bind_inv H. inversion H; subst; clear H.
  eexists. split; [|split; reflexivity].
  assert (H0 : tallied [] (mkTally 0 0 [])) by (repeat split; simpl; congruence).
  repeat match goal with
    | H : macd_analysis _ _ _ = Ok _ |- _ => advance macd_tallied H
    | H : rsi_analysis _ _ _ = Ok _ |- _ => advance rsi_tallied H
    | H : kdj_analysis _ _ _ = Ok _ |- _ => advance kdj_tallied H
    | H : boll_analysis _ _ _ = Ok _ |- _ => advance boll_tallied H
    | H : cci_analysis _ _ _ = Ok _ |- _ => advance cci_tallied H
    | H : dmi_analysis _ _ _ = Ok _ |- _ => advance dmi_tallied H
    | H : mfi_analysis _ _ _ = Ok _ |- _ => advance mfi_tallied H
    | H : bbi_analysis _ _ _ = Ok _ |- _ => advance bbi_tallied H
    | H : trix_analysis _ _ _ = Ok _ |- _ => advance trix_tallied H
    end.
  assumption.
Qed.
End SummaryFacts.

(** Every label with a vote is counted once, on one side. *)
Lemma one_vote_each (a : list (string * Visualization.entry)) :
  (bullish_count a + bearish_count a)%nat = length (List.filter has_vote a).
Proof.
  unfold bullish_count, bearish_count.
  induction a as [|[k [lab interp]] a IH]; simpl; [reflexivity|].
  unfold is_bullish at 1, is_bearish at 1, has_vote at 1. simpl.
  destruct lab; simpl; lia.
Qed.

(** C8.  The overall signal of a summary is bullish exactly when more
    of its per-indicator labels vote bullish than bearish, bearish
    exactly in the mirror case and neutral exactly on a tie; every label
    other than neutral and ranging is counted once, on one side. *)
Theorem C8_overall_signal (d : DataFrame) (names : list string)
    (s : Visualization.summary) (log : list st_message) :
  Visualization.generate_technical_analysis_summary (Some d) names = (Some s, log) ->
  let bullish := bullish_count (Visualization.indicator_analysis s) in
  let bearish := bearish_count (Visualization.indicator_analysis s) in
  (Visualization.overall_signal s = Visualization.LeanBullish <-> (bearish < bullish)%nat)
  /\ (Visualization.overall_signal s = Visualization.LeanBearish
      <-> (bullish < bearish)%nat)
  /\ (Visualization.overall_signal s = Visualization.LeanNeutral <-> bullish = bearish)
  /\ (bullish + bearish)%nat
     = length (List.filter has_vote (Visualization.indicator_analysis s)).
Proof.
  intros H bullish bearish. subst bullish bearish.
  assert (Ht : exists t,
             Visualization.signals_bullish t
               = bullish_count (Visualization.indicator_analysis s)
             /\ Visualization.signals_bearish t
                = bearish_count (Visualization.indicator_analysis s)
             /\ Visualization.overall_signal s = Visualization.judge t).
  { unfold Visualization.generate_technical_analysis_summary in H.
    destruct (empty d); [discriminate|].
    destruct (0 <? nrows d)%nat.
    - destruct (last_row d) as [row|e]; simpl in H; [|discriminate].
      destruct (Visualization.summary_try d row) as [s'|e] eqn:E; [|discriminate].
      inversion H; subst s' log; clear H.
      apply summary_tallied in E as (t & (Hb & Hr & _) & Ho & Ha).
      exists t. rewrite Ha. auto.
    - inversion H; subst. exists (Visualization.mkTally 0 0 []). repeat split. }
  destruct Ht as (t & Hb & Hr & Ho).
  split; [|split; [|split; [|apply one_vote_each]]];
    rewrite Ho, <- Hb, <- Hr; unfold Visualization.judge;
    destruct (Nat.ltb_spec (Visualization.signals_bearish t)
                           (Visualization.signals_bullish t));
    destruct (Nat.ltb_spec (Visualization.signals_bullish t)
                           (Visualization.signals_bearish t));
    split; intros; try discriminate; try lia; try reflexivity.
Qed.

Lemma C8_overall_signal_witness :
  exists s,
    Visualization.generate_technical_analysis_summary (Some Examples.table_rsi7) []
      = (Some s, [])
    /\ bullish_count (Visualization.indicator_analysis s) = 1%nat
    /\ bearish_count (Visualization.indicator_analysis s) = 1%nat
    /\ (Visualization.overall_signal s = Visualization.LeanNeutral
        <-> bullish_count (Visualization.indicator_analysis s)
            = bearish_count (Visualization.indicator_analysis s)).
Proof.
  eexists. split; [vm_compute; reflexivity|].
  split; [reflexivity|]. split; [reflexivity|].
  exact (proj1 (proj2 (proj2
           (C8_overall_signal Examples.table_rsi7 [] _ [] eq_refl)))).
Defined.

(** C9, at a table computed with a 7-period RSI.  The latest RSI is 90,
    forty points from 50, and the table has no ATR column: one
    volatility flag would be set and the risk tier would be medium.  The
    risk assessment looks for a column named RSI14, finds none, sets no
    flag and answers low, while the RSI analysis of the same function
    reads the RSI7 column and labels it overbought. *)
Lemma C9_rsi_window_ignored :
  exists s row,
    Visualization.generate_technical_analysis_summary (Some Examples.table_rsi7) []
      = (Some s, [])
    /\ last_row Examples.table_rsi7 = Ok row
    /\ row_get row (fstr "RSI" 7) = Ok (num 90)
    /\ fgt (fabs (fsub (fin 90) (fin 50))) (fin 30) = true
    /\ has_column Examples.table_rsi7 "ATR" = false
    /\ assoc "RSI" (Visualization.indicator_analysis s)
       = Some (Visualization.mkEntry Visualization.Overbought [fin 90])
    /\ Visualization.rsi_flag Examples.table_rsi7 row = Ok 0%nat
    /\ Visualization.risk_level s = Visualization.RiskLow.
Proof.
  eexists. eexists. split; [vm_compute; reflexivity|].
  split; [vm_compute; reflexivity|].
  repeat split; reflexivity.
Qed.

(** ** C3, C5 and C6: performance metrics *)

Section PerformanceFacts.
Import Indicators.
Variable np : numpy.

Lemma relative_keeps d b metrics m k :
  relative_metrics np d b metrics = Ok m ->
  k <> "beta" -> k <> "information_ratio" -> k <> "tracking_error" ->
  m !! k = metrics !! k.
Proof.
  intros H H1 H2 H3. unfold relative_metrics in H.
  repeat bind_inv H.
  destruct (_ && _); [|now inversion H].
  repeat bind_inv H.
  destruct (_ =? _)%nat; [|now inversion H].
  bind_inv H. inversion H; subst; clear H.
  rewrite !lookup_insert_ne by congruence. reflexivity.
Qed.

(** The six basic entries, as the body computes them from the two
    columns it reads. *)
Lemma performance_entries d bench m navs cum :
  performance_try np d bench = Ok m ->
  get_column d "nav" = Ok (cells navs) ->
  get_column d "cum_nav" = Ok (cells cum) ->
  exists c_last c_first total_return annual_return annual_volatility max_drawdown,
    last cum = Some c_last /\ head cum = Some c_first
    /\ total_return = fsub (fdiv c_last c_first) (fin 1)
    /\ annual_return
       = fsub (np_power np (fadd (fin 1) total_return)
                 (fdiv (fin 1) (fdiv (of_nat (nrows d)) (fin 252)))) (fin 1)
    /\ annual_volatility
       = fmul (std np (values (dropna_s (pct_change navs)))) (np_sqrt np (fin 252))
    /\ max_drawdown
       = series_min (zip_with (fun c m => fdiv (fsub c m) m) cum (expanding_max cum))
    /\ m !! "total_return" = Some total_return
    /\ m !! "annual_return" = Some annual_return
    /\ m !! "annual_volatility" = Some annual_volatility
    /\ m !! "max_drawdown" = Some max_drawdown
    /\ m !! "sharpe_ratio"
       = Some (if fgt annual_volatility (fin 0)
               then fdiv (fsub annual_return (fin risk_free_rate)) annual_volatility
               else fin 0)
    /\ m !! "calmar_ratio"
       = Some (if fne max_drawdown (fin 0)
               then fdiv annual_return (fabs max_drawdown)
               else fin 0).
Proof.
  intros H Hnav Hcum. unfold performance_try in H.
  rewrite Hnav, Hcum in H. simpl in H. rewrite !floats_cells in H. simpl in H.
  bind_inv H. bind_inv H.
  match type of H with
  | match bench with _ => _ end = _ =>
      match type of H with
      | context [Ok ?metrics] =>
          assert (Hm : forall k, k <> "beta" -> k <> "information_ratio" ->
                                 k <> "tracking_error" -> m !! k = metrics !! k)
      end
  end.
  { intros k H1 H2 H3. destruct bench as [b|].
    - destruct (empty b); [now inversion H|].
      eapply relative_keeps; eassumption.
    - now inversion H. }
  clear H. exists x, x0. do 4 eexists.
  split. { unfold last_or_raise in E. destruct (last cum); now inversion E. }
  split. { unfold head_or_raise in E0. destruct cum; now inversion E0. }
  do 4 (split; [reflexivity|]).
  repeat split;
    rewrite Hm by discriminate;
    rewrite ?lookup_insert_eq, ?lookup_insert_ne by discriminate;
    try rewrite lookup_insert_eq; reflexivity.
Qed.
End PerformanceFacts.

(** *** The drawdown *)

Lemma dd_nonpos x M : 0 < M -> x <= M -> (x - M) / M <= 0.
Proof. intros HM Hx. apply Qle_shift_div_r; [assumption|]. lra. Qed.

Lemma dd_neg x M : 0 < M -> x < M -> (x - M) / M < 0.
Proof. intros HM Hx. apply Qlt_shift_div_r; [assumption|]. lra. Qed.

Lemma dd_zero x M : 0 < M -> ((x - M) / M == 0 <-> x == M).
Proof.
  intros HM. split; intros H.
  - assert (E : x - M == (x - M) / M * M) by (field; lra).
    rewrite H in E. lra.
  - rewrite H. unfold Qdiv. assert (E : M - M == 0) by lra. rewrite E. apply Qmult_0_l.
Qed.

Lemma fdiv_pos a b : 0 < b -> fdiv (fin a) (fin b) = fin (a / b).
Proof.
  intros Hb. unfold fdiv. destruct (Qeq_bool b 0) eqn:E; [|reflexivity].
  apply Qeq_bool_eq in E. lra.
Qed.

Lemma Qle_bool_false x y : Qle_bool x y = false -> y < x.
Proof.
  intros H. apply Qnot_le_lt. intros Hle. apply Qle_bool_iff in Hle. congruence.
Qed.

Lemma ascending_from_proper m m' l : m == m' -> ascending_from m l -> ascending_from m' l.
Proof. destruct l; simpl; [auto|]. intros E [H1 H2]. split; [lra | assumption]. Qed.

(** From a positive running maximum on, the smallest drawdown is a
    non-positive number, and it is zero exactly when the series never
    falls below what precedes it. *)
Lemma drawdown_from m l :
  0 < m -> l <> [] ->
  exists q, Indicators.series_min (drawdowns (fin m) (map fin l)) = fin q
            /\ q <= 0 /\ (q == 0 <-> ascending_from m l).
Proof.
  revert m. induction l as [|x l IH]; intros m Hm Hne; [congruence|].
  unfold drawdowns. simpl.
  destruct (Qle_bool m x) eqn:E; cbv beta iota.
  - apply Qle_bool_iff in E. assert (Hx : 0 < x) by lra.
    rewrite fdiv_pos by assumption.
    destruct l as [|y l].
    + simpl. exists ((x - x) / x). split; [reflexivity|].
      split; [apply dd_nonpos; lra|]. rewrite dd_zero by assumption.
      split; [intros _; split; [assumption | exact I] | intros _; reflexivity].
    + destruct (IH x Hx) as (q & Hq & Hq0 & Hqz); [discriminate|].
      unfold drawdowns in Hq. rewrite Hq. simpl.
      assert (Hd : (x - x) / x == 0) by (apply dd_zero; [assumption | reflexivity]).
      destruct (Qle_bool ((x - x) / x) q) eqn:Eq.
      * exists ((x - x) / x). split; [reflexivity|]. split; [lra|].
        apply Qle_bool_iff in Eq.
        split; [intros _; split; [assumption | apply Hqz; lra] | intros _; assumption].
      * exists q. split; [reflexivity|]. split; [assumption|].
        apply Qle_bool_false in Eq.
        split; [intros Hz; lra | intros [_ Ha]; now apply Hqz].
  - apply Qle_bool_false in E.
    rewrite fdiv_pos by assumption.
    pose proof (dd_neg x m Hm E) as Hd.
    destruct l as [|y l].
    + simpl. exists ((x - m) / m). split; [reflexivity|]. split; [lra|].
      split; [intros Hz; lra | intros [Hle _]; lra].
    + destruct (IH m Hm) as (q & Hq & Hq0 & Hqz); [discriminate|].
      unfold drawdowns in Hq. rewrite Hq. simpl.
      destruct (Qle_bool ((x - m) / m) q) eqn:Eq.
      * exists ((x - m) / m). split; [reflexivity|]. split; [lra|].
        split; [intros Hz; lra | intros [Hle _]; lra].
      * exists q. split; [reflexivity|]. split; [assumption|].
        apply Qle_bool_false in Eq.
        split; [intros Hz; lra | intros [Hle _]; lra].
Qed.

Lemma ascending_non_decreasing x l : ascending_from x l <-> non_decreasing (x :: l).
Proof.
  revert x. induction l as [|y l IH]; intros x; simpl.
  - split; [|auto]. intros _ [|i] a b Ha Hb; simpl in *; discriminate.
  - rewrite IH. split.
    + intros [Hxy Hnd] [|i] a b Ha Hb; simpl in *.
      * inversion Ha; inversion Hb; subst. assumption.
      * eapply Hnd; eassumption.
    + intros Hnd. split.
      * apply (Hnd 0%nat); reflexivity.
      * intros i a b Ha Hb. apply (Hnd (S i)); assumption.
Qed.

Lemma Qle_bool_refl x : Qle_bool x x = true.
Proof. apply Qle_bool_iff, Qle_refl. Qed.

(** With a positive first value, the smallest drawdown of a cumulative
    series is non-positive, and zero exactly when the series never
    decreases. *)
Lemma max_drawdown_spec c0 l :
  0 < c0 ->
  exists q,
    Indicators.series_min
      (zip_with (fun c m => fdiv (fsub c m) m) (map fin (c0 :: l))
         (Indicators.expanding_max (map fin (c0 :: l)))) = fin q
    /\ q <= 0 /\ (q == 0 <-> non_decreasing (c0 :: l)).
Proof.
  intros H0.
  destruct (drawdown_from c0 (c0 :: l) H0) as (q & Hq & Hle & Hz); [discriminate|].
  exists q. split; [|split; [assumption|]].
  - rewrite <- Hq. unfold drawdowns, Indicators.expanding_max. simpl.
    now rewrite Qle_bool_refl.
  - rewrite Hz. simpl. rewrite ascending_non_decreasing.
    split; [now intros [_ H] | intros H; split; [apply Qle_refl | assumption]].
Qed.

Section PerformanceClaims.
Import Indicators.
Variable np : numpy.

Lemma performance_returns d navs cum :
  get_column d "nav" = Ok (cells navs) ->
  get_column d "cum_nav" = Ok (cells cum) ->
  cum <> [] ->
  exists m, performance_try np d None = Ok m.
Proof.
  intros Hnav Hcum Hne. unfold performance_try.
  rewrite Hnav, Hcum. simpl. rewrite !floats_cells. simpl.
  destruct cum as [|c cum]; [congruence|].
  unfold last_or_raise. destruct (last (c :: cum)) eqn:E.
  - simpl. eauto.
  - apply last_None in E. discriminate.
Qed.

Lemma metrics_Some d bench m log :
  calculate_performance_metrics np (Some d) bench = (Some m, log) ->
  performance_try np d bench = Ok m.
Proof.
  unfold calculate_performance_metrics. destruct (empty d); [discriminate|].
  destruct (performance_try np d bench); intros H; inversion H. reflexivity.
Qed.

(** C3.  On a series whose cumulative value starts positive (it starts
    at 1 on a canonical series), the analyzer returns, with or without a
    benchmark, a max_drawdown that is at most 0, and equal to 0 exactly
    when the cumulative series never decreases. *)
Theorem C3_max_drawdown (d : DataFrame) (navs : list float) (c0 : Q) (cum : list Q) :
  empty d = false ->
  get_column d "nav" = Ok (cells navs) ->
  get_column d "cum_nav" = Ok (map num (c0 :: cum)) ->
  0 < c0 ->
  (exists m, calculate_performance_metrics np (Some d) None = (Some m, []))
  /\ forall bench m log,
       calculate_performance_metrics np (Some d) bench = (Some m, log) ->
       exists q, m !! "max_drawdown" = Some (fin q)
                 /\ q <= 0
                 /\ (q == 0 <-> non_decreasing (c0 :: cum)).
Proof.
  intros Hne Hnav Hcum H0. rewrite <- cells_fin in Hcum. split.
  - destruct (performance_returns d navs _ Hnav Hcum) as [m Hm]; [discriminate|].
    exists m. unfold calculate_performance_metrics. now rewrite Hne, Hm.
  - intros bench m log H. apply metrics_Some in H.
    destruct (performance_entries np d bench m navs _ H Hnav Hcum)
      as (cl & cf & tr & ar & vol & mdd & _ & _ & _ & _ & _ & Heq & _ & _ & _ & Hmdd & _).
    destruct (max_drawdown_spec c0 cum H0) as (q & Hq & Hle & Hz).
    exists q. rewrite Hmdd, Heq, Hq. auto.
Qed.
End PerformanceClaims.

Lemma C3_max_drawdown_witness :
  empty Examples.fund3 = false
  /\ get_column Examples.fund3 "nav" = Ok (cells [fin 1; fin (110 # 100); fin (105 # 100)])
  /\ get_column Examples.fund3 "cum_nav" = Ok (map num [1; 110 # 100; 105 # 100])
  /\ 0 < 1
  /\ exists m q,
       Indicators.calculate_performance_metrics Examples.rational_numpy
         (Some Examples.fund3) None = (Some m, [])
       /\ m !! "max_drawdown" = Some (fin q)
       /\ q <= 0
       /\ (q == 0 <-> non_decreasing [1; 110 # 100; 105 # 100]).
Proof.
  repeat split; try reflexivity.
  destruct (C3_max_drawdown Examples.rational_numpy Examples.fund3
              [fin 1; fin (110 # 100); fin (105 # 100)] 1 [110 # 100; 105 # 100]
              eq_refl eq_refl eq_refl eq_refl) as [[m Hm] H].
  destruct (H None m [] Hm) as (q & Hq).
  exists m, q. split; [exact Hm | exact Hq].
Defined.

Section RatioClaims.
Import Indicators.
Variable np : numpy.

(** C5, as the code has it.  On a series with positive prices the
    analyzer returns, with or without a benchmark, a sharpe_ratio equal
    to (annual_return - 0.03) / annual_volatility when the volatility
    is greater than 0, and to 0 otherwise: when the volatility is 0 and
    also when it is undefined.  The calmar_ratio is
    annual_return / |max_drawdown| when max_drawdown differs from 0 and
    0 when it is 0. *)
Theorem C5_ratio_guards (d : DataFrame) (prices : list Q) (c0 : Q) (cum : list Q) :
  empty d = false ->
  get_column d "nav" = Ok (map num prices) ->
  List.Forall (fun p => 0 < p) prices ->
  get_column d "cum_nav" = Ok (map num (c0 :: cum)) ->
  0 < c0 ->
  (exists m, calculate_performance_metrics np (Some d) None = (Some m, []))
  /\ forall bench m log,
       calculate_performance_metrics np (Some d) bench = (Some m, log) ->
       exists annual_return annual_volatility max_drawdown sharpe_ratio calmar_ratio,
         m !! "annual_return" = Some annual_return
         /\ m !! "annual_volatility" = Some annual_volatility
         /\ m !! "max_drawdown" = Some (fin max_drawdown)
         /\ m !! "sharpe_ratio" = Some sharpe_ratio
         /\ m !! "calmar_ratio" = Some calmar_ratio
         /\ (forall v, annual_volatility = fin v -> 0 < v ->
               sharpe_ratio
               = fdiv (fsub annual_return (fin (3 # 100))) annual_volatility)
         /\ (forall v, annual_volatility = fin v -> v <= 0 -> sharpe_ratio = fin 0)
         /\ (annual_volatility = nan -> sharpe_ratio = fin 0)
         /\ (max_drawdown == 0 -> calmar_ratio = fin 0)
         /\ (~ max_drawdown == 0 ->
               calmar_ratio = fdiv annual_return (fin (Qabs max_drawdown))).
Proof.
  intros Hne Hnav Hpos Hcum H0.
  rewrite <- cells_fin in Hnav, Hcum. split.
  - destruct (performance_returns np d _ _ Hnav Hcum) as [m Hm]; [discriminate|].
    exists m. unfold calculate_performance_metrics. now rewrite Hne, Hm.
  - intros bench m log H. apply metrics_Some in H.
    destruct (performance_entries np d bench m _ _ H Hnav Hcum)
      as (cl & cf & tr & ar & vol & mdd & _ & _ & _ & _ & _ & Heq
          & _ & Har & Hvol & Hmdd & Hsh & Hca).
    destruct (max_drawdown_spec c0 cum H0) as (q & Hq & _).
    rewrite Hq in Heq. subst mdd.
    exists ar, vol, q. do 2 eexists.
    split; [exact Har|]. split; [exact Hvol|]. split; [exact Hmdd|].
    split; [exact Hsh|]. split; [exact Hca|].
    split; [|split; [|split; [|split]]].
    + intros v -> Hv. simpl. unfold Qltb.
      destruct (Qle_bool v 0) eqn:E; [|reflexivity].
      apply Qle_bool_iff in E. lra.
    + intros v -> Hv. simpl. unfold Qltb.
      apply Qle_bool_iff in Hv. now rewrite Hv.
    + intros ->. reflexivity.
    + intros Hz. simpl. apply Qeq_bool_iff in Hz. now rewrite Hz.
    + intros Hz. simpl. destruct (Qeq_bool q 0) eqn:E; [|reflexivity].
      apply Qeq_bool_iff in E. contradiction.
Qed.
End RatioClaims.

Lemma C5_ratio_guards_witness :
  empty Examples.fund3 = false
  /\ get_column Examples.fund3 "nav" = Ok (map num [1; 110 # 100; 105 # 100])
  /\ List.Forall (fun p => 0 < p) [1; 110 # 100; 105 # 100]
  /\ get_column Examples.fund3 "cum_nav" = Ok (map num [1; 110 # 100; 105 # 100])
  /\ 0 < 1
  /\ exists m, Indicators.calculate_performance_metrics Examples.rational_numpy
                 (Some Examples.fund3) None = (Some m, []).
Proof.
  assert (H3 : List.Forall (fun p => 0 < p) [1; 110 # 100; 105 # 100])
    by (repeat constructor).
  repeat split; try reflexivity; try exact H3.
  exact (proj1 (C5_ratio_guards Examples.rational_numpy Examples.fund3
                  [1; 110 # 100; 105 # 100] 1 [110 # 100; 105 # 100]
                  eq_refl eq_refl H3 eq_refl eq_refl)).
Defined.

(** On a two-row series there is a single daily return, its sample
    standard deviation is undefined and so is the annual volatility:
    the volatility is not 0, yet the sharpe_ratio returned is 0 and not
    (annual_return - 0.03) / annual_volatility, which is undefined.  C5
    as stated (the quotient whenever the volatility is not 0) does not
    hold. *)
Lemma C5_counterexample :
  exists m annual_return,
    Indicators.calculate_performance_metrics Examples.rational_numpy
      (Some Examples.fund2) None = (Some m, [])
    /\ m !! "annual_return" = Some annual_return
    /\ m !! "annual_volatility" = Some nan
    /\ nan <> fin 0
    /\ m !! "sharpe_ratio" = Some (fin 0)
    /\ fdiv (fsub annual_return (fin (3 # 100))) nan = nan
    /\ fin 0 <> nan.
Proof.
  destruct (performance_returns Examples.rational_numpy Examples.fund2
              [fin 1; fin (11 # 10)] [fin 1; fin (11 # 10)] eq_refl eq_refl)
    as [m Hm]; [discriminate|].
  destruct (performance_entries Examples.rational_numpy Examples.fund2 None m
              [fin 1; fin (11 # 10)] [fin 1; fin (11 # 10)] Hm eq_refl eq_refl)
    as (cl & cf & tr & ar & vol & mdd & _ & _ & _ & _ & Hvol & _
        & _ & Har & Hv & _ & Hsh & _).
  assert (Hnan : vol = nan) by (rewrite Hvol; vm_compute; reflexivity).
  subst vol. exists m, ar.
  split.
  { unfold Indicators.calculate_performance_metrics.
    change (empty Examples.fund2) with false. now rewrite Hm. }
  split; [exact Har|]. split; [rewrite Hv; now rewrite Hnan|].
  split; [discriminate|].
  split; [rewrite Hsh, Hnan; reflexivity|].
  split; [now destruct (fsub ar (fin (3 # 100))) | discriminate].
Qed.

Lemma select_none {A} (mask : list bool) (v : list A) :
  List.Forall (fun b => b = false) mask -> select mask v = [].
Proof.
  intros H. revert v. induction H as [|b mask -> _ IH]; intros [|x v]; simpl; auto.
Qed.

Lemma isin_disjoint dates trade_dates :
  (forall x, In x dates -> existsb (cell_eqb x) trade_dates = false) ->
  List.Forall (fun b => b = false) (isin dates trade_dates).
Proof.
  intros H. unfold isin. apply List.Forall_forall. intros b Hb.
  apply in_map_iff in Hb as (x & <- & Hx). auto.
Qed.

Section BenchmarkClaims.
Import Indicators.
Variable np : numpy.

(** Without a common date the benchmark block adds nothing. *)
Lemma relative_disjoint d b metrics close dates trade_dates :
  get_column b "close" = Ok (cells close) ->
  get_column d "date" = Ok dates ->
  get_column b "trade_date" = Ok trade_dates ->
  (forall x, In x dates -> existsb (cell_eqb x) trade_dates = false) ->
  relative_metrics np d b metrics = Ok metrics.
Proof.
  intros Hclose Hdates Htrade Hdis. unfold relative_metrics.
  rewrite Hclose. run. rewrite floats_cells. run.
  rewrite Hdates, Htrade. run.
  rewrite (get_filter_rows _ d "date"), Hdates. run.
  unfold filter_rows at 1. cbn [nrows].
  rewrite (select_none (isin dates trade_dates) (seq 0 (nrows d)))
    by now apply isin_disjoint.
  reflexivity.
Qed.

(** C6.  With a benchmark that has a close and a trade_date column and
    shares no date with the fund, the analyzer raises nothing and
    reports nothing; the metrics it returns hold total_return,
    annual_return, annual_volatility, max_drawdown, sharpe_ratio and
    calmar_ratio, and hold no beta, information_ratio or
    tracking_error. *)
Theorem C6_disjoint_benchmark (d b : DataFrame) (navs cum close : list float)
    (dates trade_dates : list cell) :
  empty d = false -> empty b = false ->
  get_column d "nav" = Ok (cells navs) ->
  get_column d "cum_nav" = Ok (cells cum) -> cum <> [] ->
  get_column d "date" = Ok dates ->
  get_column b "close" = Ok (cells close) ->
  get_column b "trade_date" = Ok trade_dates ->
  (forall x, In x dates -> existsb (cell_eqb x) trade_dates = false) ->
  exists m,
    calculate_performance_metrics np (Some d) (Some b) = (Some m, [])
    /\ m !! "beta" = None
    /\ m !! "information_ratio" = None
    /\ m !! "tracking_error" = None
    /\ is_Some (m !! "total_return")
    /\ is_Some (m !! "annual_return")
    /\ is_Some (m !! "annual_volatility")
    /\ is_Some (m !! "max_drawdown")
    /\ is_Some (m !! "sharpe_ratio")
    /\ is_Some (m !! "calmar_ratio").
Proof.
  intros Hd Hb Hnav Hcum Hne Hdates Hclose Htrade Hdis.
  destruct (performance_returns np d navs cum Hnav Hcum Hne) as [m Hm].
  assert (Hsame : performance_try np d (Some b) = Ok m).
  { unfold performance_try in *.
    rewrite Hnav, Hcum in *. simpl in *. rewrite !floats_cells in *. simpl in *.
    bind_inv Hm. bind_inv Hm. rewrite E, E0. simpl. rewrite Hb.
    inversion Hm; subst m.
    eapply relative_disjoint; eassumption. }
  exists m. split.
  { unfold calculate_performance_metrics. now rewrite Hd, Hsame. }
  assert (Hnone : m !! "beta" = None /\ m !! "information_ratio" = None
                  /\ m !! "tracking_error" = None).
  { unfold performance_try in Hm.
    rewrite Hnav, Hcum in Hm. simpl in Hm. rewrite !floats_cells in Hm. simpl in Hm.
    bind_inv Hm. bind_inv Hm. inversion Hm; subst m.
    repeat split; rewrite !lookup_insert_ne by discriminate; apply lookup_empty. }
  destruct Hnone as (H1 & H2 & H3).
  destruct (performance_entries np d (Some b) m navs cum Hsame Hnav Hcum)
    as (cl & cf & tr & ar & vol & mdd & _ & _ & _ & _ & _ & _
        & Htr & Har & Hvol & Hmdd & Hsh & Hca).
  rewrite Htr, Har, Hvol, Hmdd, Hsh, Hca. repeat split; eauto.
Qed.
End BenchmarkClaims.

Lemma C6_disjoint_benchmark_witness :
  let dates := [Timestamp 20230103; Timestamp 20230104; Timestamp 20230105] in
  let trade_dates := [Timestamp 20240102; Timestamp 20240103] in
  empty Examples.fund3 = false
  /\ empty Examples.benchmark_later = false
  /\ get_column Examples.fund3 "date" = Ok dates
  /\ get_column Examples.benchmark_later "trade_date" = Ok trade_dates
  /\ (forall x, In x dates -> existsb (cell_eqb x) trade_dates = false)
  /\ exists m,
       Indicators.calculate_performance_metrics Examples.rational_numpy
         (Some Examples.fund3) (Some Examples.benchmark_later) = (Some m, [])
       /\ m !! "beta" = None
       /\ m !! "information_ratio" = None
       /\ m !! "tracking_error" = None
       /\ is_Some (m !! "total_return")
       /\ is_Some (m !! "annual_return")
       /\ is_Some (m !! "annual_volatility")
       /\ is_Some (m !! "max_drawdown")
       /\ is_Some (m !! "sharpe_ratio")
       /\ is_Some (m !! "calmar_ratio").
Proof.
  cbv zeta.
  assert (Hdis : forall x,
            In x [Timestamp 20230103; Timestamp 20230104; Timestamp 20230105] ->
            existsb (cell_eqb x) [Timestamp 20240102; Timestamp 20240103] = false).
  { intros x [<-|[<-|[<-|[]]]]; reflexivity. }
  do 4 (split; [reflexivity|]). split; [exact Hdis|].
  apply (C6_disjoint_benchmark Examples.rational_numpy
           Examples.fund3 Examples.benchmark_later
           [fin 1; fin (110 # 100); fin (105 # 100)]
           [fin 1; fin (110 # 100); fin (105 # 100)]
           [fin 3000; fin 3030]
           [Timestamp 20230103; Timestamp 20230104; Timestamp 20230105]
           [Timestamp 20240102; Timestamp 20240103]);
    try reflexivity; try discriminate.
  exact Hdis.
Defined.

(** * Further properties of the code *)

(** ** preprocess_fund_data *)

(** The frame a successful normalization returns, spelled out. *)
Lemma preprocess_form raw out log :
  DataLoader.preprocess_fund_data (Some raw) = (Some out, log) ->
  exists date_column nav_column raw_dates dates0 sorted_navs x0 v,
    log = []
    /\ DataLoader.first_present raw ["ann_date"; "trade_date"] = Some date_column
    /\ get_column raw date_column = Ok raw_dates
    /\ DataLoader.to_datetime raw_dates = Ok dates0
    /\ DataLoader.first_present
         (take_rows (DataLoader.argsort (fit (nrows raw) dates0))
            (set_column raw "date" dates0))
         ["unit_nav"; "adj_nav"; "close"] = Some nav_column
    /\ get_column (take_rows (DataLoader.argsort (fit (nrows raw) dates0))
                     (set_column raw "date" dates0)) nav_column = Ok sorted_navs
    /\ select (keep (fit (nrows raw) (DataLoader.to_numeric sorted_navs))
                 (map (fun i => default (Float nan) (fit (nrows raw) dates0 !! i))
                      (DataLoader.argsort (fit (nrows raw) dates0))))
         (fit (nrows raw) (DataLoader.to_numeric sorted_navs)) = cells v
    /\ head v = Some x0
    /\ out = set_column
               (filter_rows
                  (keep (fit (nrows raw) (DataLoader.to_numeric sorted_navs))
                     (map (fun i => default (Float nan) (fit (nrows raw) dates0 !! i))
                          (DataLoader.argsort (fit (nrows raw) dates0))))
                  (set_column
                     (take_rows (DataLoader.argsort (fit (nrows raw) dates0))
                        (set_column raw "date" dates0))
                     "nav" (DataLoader.to_numeric sorted_navs)))
               "cum_nav" (cells (map (fun a => fdiv a x0) v)).
Proof.
  unfold DataLoader.preprocess_fund_data. intros H.
  destruct (empty raw); [discriminate|].
  destruct (DataLoader.preprocess_try raw) as [r|e] eqn:E; [subst r | discriminate].
  unfold DataLoader.preprocess_try in E.
  destruct (DataLoader.first_present raw _) as [date_column|] eqn:Edc; [|discriminate].
  bind_inv E. rename x into raw_dates, E0 into Eraw.
  bind_inv E. rename x into dates0, E0 into Edates.
  bind_inv E.
  match goal with H : DataLoader.sort_values _ _ = Ok _ |- _ =>
    unfold DataLoader.sort_values in H; rewrite get_set_same in H; simpl in H;
    inversion H; subst; clear H end.
  rewrite (fit_id _ (fit _ _)) in E by apply fit_length.
  destruct (DataLoader.first_present (take_rows _ _) _) as [nav_column|] eqn:Enc;
    [|discriminate].
  bind_inv E. rename x into sorted_navs, E0 into Enav.
  bind_inv E.
  match goal with H : DataLoader.dropna _ _ _ = Ok _ |- _ =>
    unfold DataLoader.dropna in H; rewrite get_set_same in H; simpl in H;
    rewrite get_set_other in H by discriminate;
    rewrite get_take_rows, get_set_same in H; simpl in H;
    rename H into Edrop end.
  assert (Hlen : length (DataLoader.argsort (fit (nrows raw) dates0)) = nrows raw)
    by (rewrite argsort_length; apply fit_length).
  rewrite Hlen in Edrop.
  rewrite (fit_id _ (fit _ _)) in Edrop by apply fit_length.
  rewrite (fit_id _ (map _ _)) in Edrop by (now rewrite length_map).
  inversion Edrop; subst x; clear Edrop.
  rewrite get_filter_rows, get_set_same in E. simpl in E. rewrite Hlen in E.
  bind_inv E. bind_inv E. inversion E; subst; clear E.
  match goal with H : DataLoader.series_div _ _ = Ok _ |- _ =>
    unfold DataLoader.series_div in H; bind_inv H; bind_inv H;
    inversion H; subst; clear H end.
  match goal with H : floats _ = Ok ?v |- _ => apply floats_Ok in H; rename H into Hsel end.
  exists date_column, nav_column, raw_dates, dates0, sorted_navs.
  do 2 eexists. unfold keep.
  split; [reflexivity|]. split; [reflexivity|]. split; [exact Eraw|].
  split; [exact Edates|]. split; [exact Enc|]. split; [exact Enav|].
  split; [exact Hsel|]. split; [|reflexivity].
  rewrite Hsel in E0. 
  match goal with H : as_float ?c = Ok ?f |- _ => rename H into Hf end.
  match type of E0 with iloc (cells ?l) _ = _ => destruct l as [|y l] end; [discriminate|].
  simpl in E0. inversion E0; subst. simpl in Hf. inversion Hf. reflexivity.
Qed.

Lemma assoc_In {A} k (v : A) l : assoc k l = Some v -> In (k, v) l.
Proof.
  induction l as [|[k' v'] l IH]; simpl; [discriminate|].
  destruct (String.eqb k k') eqn:E.
  - apply String.eqb_eq in E. intros H. inversion H; subst. now left.
  - intros H. right. auto.
Qed.

Lemma well_formed_get d c v : well_formed d -> get_column d c = Ok v -> length v = nrows d.
Proof.
  unfold well_formed, get_column. intros Hwf H.
  destruct (assoc c (columns d)) as [w|] eqn:E; inversion H; subst.
  apply assoc_In in E. rewrite List.Forall_forall in Hwf. exact (Hwf _ E).
Qed.

Lemma well_formed_take_rows idx d : well_formed (take_rows idx d).
Proof.
  unfold well_formed, take_rows. simpl. apply List.Forall_forall.
  intros [c v] H. apply in_map_iff in H as ([c' v'] & E & _).
  inversion E; subst. simpl. now rewrite length_map.
Qed.

Lemma well_formed_set_column d c v : well_formed d -> well_formed (set_column d c v).
Proof.
  unfold well_formed, set_column. simpl. generalize (fit_length (nrows d) v).
  generalize (fit (nrows d) v). intros w Hw H.
  induction H as [|[k x] l Hx Hl IH]; simpl.
  - repeat constructor. exact Hw.
  - destruct (String.eqb c k); constructor; simpl; auto.
Qed.

Lemma well_formed_filter_rows mask d : well_formed d -> well_formed (filter_rows mask d).
Proof.
  unfold well_formed, filter_rows. simpl. intros H.
  apply List.Forall_forall. intros [c v] Hin.
  apply in_map_iff in Hin as ([c' v'] & E & Hin). inversion E; subst. simpl.
  rewrite List.Forall_forall in H. specialize (H _ Hin). simpl in H.
  apply select_length. now rewrite length_seq.
Qed.

Lemma select_length_le {A} (mask : list bool) (v : list A) :
  (length (select mask v) <= length v)%nat.
Proof.
  revert v. induction mask as [|b mask IH]; intros [|x v]; simpl; try lia.
  specialize (IH v). destruct b; simpl; lia.
Qed.

Lemma extends_take_rows idx d : extends d (take_rows idx d).
Proof.
  intros c. unfold has_column, take_rows. simpl. rewrite assoc_map.
  now destruct (assoc c (columns d)).
Qed.

Lemma extends_filter_rows mask d : extends d (filter_rows mask d).
Proof.
  intros c. unfold has_column, filter_rows. simpl. rewrite assoc_map.
  now destruct (assoc c (columns d)).
Qed.

(** The shape of a normalized frame. *)
Lemma preprocess_frame (raw out : DataFrame) (log : list st_message) :
  DataLoader.preprocess_fund_data (Some raw) = (Some out, log) ->
  log = []
  /\ well_formed out
  /\ (1 <= nrows out <= nrows raw)%nat
  /\ extends raw out
  /\ has_column out "date" = true
  /\ has_column out "nav" = true
  /\ has_column out "cum_nav" = true.
Proof.
  intros H. apply preprocess_form in H
    as (dc & nc & rd & dates0 & sn & x0 & v & -> & _ & _ & _ & _ & _ & Hsel & Hhead & ->).
  set (idx := DataLoader.argsort (fit (nrows raw) dates0)) in *.
  set (navs := fit (nrows raw) (DataLoader.to_numeric sn)) in *.
  set (mask := keep navs _) in *.
  assert (Hidx : length idx = nrows raw)
    by (unfold idx; rewrite argsort_length; apply fit_length).
  split; [reflexivity|]. split.
  { apply well_formed_set_column, well_formed_filter_rows,
      well_formed_set_column, well_formed_take_rows. }
  split.
  { simpl. rewrite Hidx.
    rewrite (select_length mask (seq 0 (nrows raw)) navs)
      by (unfold navs; now rewrite length_seq, fit_length).
    split.
    - rewrite Hsel. destruct v; [discriminate|]. simpl. lia.
    - etransitivity; [apply select_length_le|]. unfold navs. now rewrite fit_length. }
  split.
  { eapply extends_trans; [apply extends_set|].
    eapply extends_trans; [apply extends_take_rows|].
    eapply extends_trans; [apply extends_set|].
    eapply extends_trans; [apply extends_filter_rows|]. apply extends_set. }
  split; [|split].
  - apply extends_set, extends_filter_rows, extends_set, extends_take_rows, has_set_same.
  - apply extends_set, extends_filter_rows, has_set_same.
  - apply has_set_same.
Qed.

(** X1.  A successful normalization reports nothing and returns a frame
    in which every column has exactly one cell per row, with at least
    one row and no more rows than the payload; the frame keeps the
    payload's columns and has the date, nav and cum_nav columns. *)
Theorem preprocess_well_formed (raw out : DataFrame) (log : list st_message) :
  DataLoader.preprocess_fund_data (Some raw) = (Some out, log) ->
  log = []
  /\ well_formed out
  /\ (1 <= nrows out <= nrows raw)%nat
  /\ extends raw out
  /\ has_column out "date" = true
  /\ has_column out "nav" = true
  /\ has_column out "cum_nav" = true.
Proof. apply preprocess_frame. Qed.

Lemma preprocess_well_formed_witness :
  DataLoader.preprocess_fund_data (Some Examples.raw_nav) = (Some Examples.fund3, [])
  /\ well_formed Examples.fund3
  /\ (1 <= nrows Examples.fund3 <= nrows Examples.raw_nav)%nat.
Proof.
  assert (H : DataLoader.preprocess_fund_data (Some Examples.raw_nav)
              = (Some Examples.fund3, [])) by (vm_compute; reflexivity).
  split; [exact H|].
  destruct (preprocess_well_formed _ _ _ H) as (_ & Hwf & Hn & _).
  split; [exact Hwf | exact Hn].
Defined.

Lemma has_take_rows idx d c : has_column (take_rows idx d) c = has_column d c.
Proof.
  unfold has_column, take_rows. simpl. rewrite assoc_map.
  now destruct (assoc c (columns d)).
Qed.

Lemma has_set_other d k v c : k <> c -> has_column (set_column d k v) c = has_column d c.
Proof. intros H. unfold has_column, set_column. simpl. now rewrite assoc_set_other. Qed.

Lemma first_present_congr d d' names :
  (forall c, In c names -> has_column d' c = has_column d c) ->
  DataLoader.first_present d' names = DataLoader.first_present d names.
Proof.
  induction names as [|c names IH]; simpl; intros H; [reflexivity|].
  rewrite (H c) by now left. destruct (has_column d c); [reflexivity|].
  apply IH. intros c' Hc'. apply H. now right.
Qed.

Lemma first_present_has d names c :
  DataLoader.first_present d names = Some c -> has_column d c = true /\ In c names.
Proof.
  induction names as [|c' names IH]; simpl; [discriminate|].
  destruct (has_column d c') eqn:E.
  - intros H. inversion H; subst. auto.
  - intros H. apply IH in H as [H1 H2]. auto.
Qed.

Lemma has_get d c : has_column d c = true -> exists v, get_column d c = Ok v.
Proof.
  unfold has_column, get_column. destruct (assoc c (columns d)); [eauto | discriminate].
Qed.

(** The sorted frame offers the same price columns as the payload. *)
Lemma sorted_nav_column raw dates0 idx :
  DataLoader.first_present (take_rows idx (set_column raw "date" dates0))
    ["unit_nav"; "adj_nav"; "close"]
  = DataLoader.first_present raw ["unit_nav"; "adj_nav"; "close"].
Proof.
  apply first_present_congr. intros c Hc. rewrite has_take_rows.
  apply has_set_other. simpl in Hc.
  destruct Hc as [<-|[<-|[<-|[]]]]; discriminate.
Qed.

Lemma to_datetime_total l :
  (exists l', DataLoader.to_datetime l = Ok l') \/ DataLoader.to_datetime l = Raise ValueError.
Proof.
  unfold DataLoader.to_datetime. induction l as [|c l IH]; simpl; [eauto|].
  destruct c as [[|q]| | | |]; simpl; auto;
    destruct IH as [[l' ->]| ->]; simpl; eauto.
Qed.

Lemma to_datetime_text l s : In (Text s) l -> DataLoader.to_datetime l = Raise ValueError.
Proof.
  unfold DataLoader.to_datetime. induction l as [|c l IH]; simpl; [contradiction|].
  intros [->|H]; [reflexivity|].
  rewrite (IH H). destruct c as [[|q]| | | |]; reflexivity.
Qed.

(** X2.  A payload with rows but with neither an ann_date nor a
    trade_date column is refused with one report and no exception; a
    payload with none of the unit_nav, adj_nav and close columns is
    refused with exactly one report as well. *)
Theorem preprocess_missing_column (raw : DataFrame) :
  empty raw = false ->
  (has_column raw "ann_date" = false -> has_column raw "trade_date" = false ->
   DataLoader.preprocess_fund_data (Some raw)
   = (None, [st_error "preprocess_fund_data: no date column" None]))
  /\ (has_column raw "unit_nav" = false -> has_column raw "adj_nav" = false ->
      has_column raw "close" = false ->
      exists report, DataLoader.preprocess_fund_data (Some raw) = (None, [report])).
Proof.
  intros Hne. unfold DataLoader.preprocess_fund_data. rewrite Hne.
  unfold DataLoader.preprocess_try. split.
  - intros H1 H2. simpl. now rewrite H1, H2.
  - intros H1 H2 H3.
    destruct (DataLoader.first_present raw ["ann_date"; "trade_date"]) as [dc|] eqn:Edc;
      [|eauto].
    apply first_present_has in Edc as [Hdc _].
    destruct (has_get _ _ Hdc) as [col ->]. run.
    destruct (to_datetime_total col) as [[dates0 ->]| ->]; [|eauto]. run.
    unfold DataLoader.sort_values. rewrite get_set_same. run.
    rewrite sorted_nav_column. simpl. rewrite H1, H2, H3. eauto.
Qed.

Lemma preprocess_missing_column_witness :
  empty (mkFrame 1 [("ts_code", [Text "510300.SH"])]) = false
  /\ DataLoader.preprocess_fund_data (Some (mkFrame 1 [("ts_code", [Text "510300.SH"])]))
     = (None, [st_error "preprocess_fund_data: no date column" None]).
Proof.
  split; [reflexivity|].
  exact (proj1 (preprocess_missing_column (mkFrame 1 [("ts_code", [Text "510300.SH"])])
                  eq_refl) eq_refl eq_refl).
Defined.

(** X3.  When the date column chosen holds a text that is not a date,
    the conversion raises: nothing is returned and the exception is
    reported. *)
Theorem preprocess_unparseable_date (raw : DataFrame) (c s : string) (col : list cell) :
  empty raw = false ->
  DataLoader.first_present raw ["ann_date"; "trade_date"] = Some c ->
  get_column raw c = Ok col ->
  In (Text s) col ->
  DataLoader.preprocess_fund_data (Some raw)
  = (None, [st_error "preprocess_fund_data" (Some ValueError)]).
Proof.
  intros Hne Hc Hcol Hs. unfold DataLoader.preprocess_fund_data. rewrite Hne.
  unfold DataLoader.preprocess_try. rewrite Hc, Hcol. run.
  now rewrite (to_datetime_text _ _ Hs).
Qed.

Lemma preprocess_unparseable_date_witness :
  let raw := mkFrame 2 [("trade_date", [Timestamp 20230103; Text "n/a"]);
                        ("close", [num 1; num 2])] in
  empty raw = false
  /\ DataLoader.first_present raw ["ann_date"; "trade_date"] = Some "trade_date"
  /\ In (Text "n/a") [Timestamp 20230103; Text "n/a"]
  /\ DataLoader.preprocess_fund_data (Some raw)
     = (None, [st_error "preprocess_fund_data" (Some ValueError)]).
Proof.
  cbv zeta. split; [reflexivity|]. split; [reflexivity|].
  assert (H : In (Text "n/a") [Timestamp 20230103; Text "n/a"]) by (right; now left).
  split; [exact H|].
  exact (preprocess_unparseable_date
           (mkFrame 2 [("trade_date", [Timestamp 20230103; Text "n/a"]);
                       ("close", [num 1; num 2])])
           "trade_date" "n/a" [Timestamp 20230103; Text "n/a"]
           eq_refl eq_refl eq_refl H).
Defined.

Lemma zip_with_maps {A B C D} (f : B -> C -> D) (g : A -> B) (h : A -> C) l :
  zip_with f (map g l) (map h l) = map (fun x => f (g x) (h x)) l.
Proof. induction l as [|x l IH]; simpl; [reflexivity | now rewrite IH]. Qed.

Lemma fit_lookup_na n v i :
  isna (default (Float nan) (v !! i)) = true ->
  isna (default (Float nan) (fit n v !! i)) = true.
Proof.
  intros H. destruct (fit n v !! i) as [x|] eqn:E; [|reflexivity]. simpl.
  unfold fit in E. apply lookup_take_Some in E as [E _].
  apply lookup_app_Some in E as [E|[_ E]].
  - now rewrite E in H.
  - apply lookup_replicate in E as [-> _]. reflexivity.
Qed.

Lemma missing_to_numeric c : missing c = true -> isna (DataLoader.to_numeric1 c) = true.
Proof. destruct c as [[|q]| | | |]; simpl; intros H; try discriminate; reflexivity. Qed.

(** X4.  When every row of the payload lacks a date or lacks a price
    (the price cell is NaN or None), no row survives, reading the first
    price fails, and the normalization returns nothing and reports the
    IndexError. *)
Theorem preprocess_no_valid_row (raw : DataFrame) (date_column nav_column : string)
    (raw_dates raw_navs dates0 : list cell) :
  empty raw = false ->
  DataLoader.first_present raw ["ann_date"; "trade_date"] = Some date_column ->
  get_column raw date_column = Ok raw_dates ->
  DataLoader.to_datetime raw_dates = Ok dates0 ->
  DataLoader.first_present raw ["unit_nav"; "adj_nav"; "close"] = Some nav_column ->
  get_column raw nav_column = Ok raw_navs ->
  (forall i, isna (default (Float nan) (dates0 !! i))
             || missing (default (Float nan) (raw_navs !! i)) = true) ->
  DataLoader.preprocess_fund_data (Some raw)
  = (None, [st_error "preprocess_fund_data" (Some IndexError)]).
Proof.
  intros Hne Hdc Hrd Hdt Hnc Hrn Hna.
  unfold DataLoader.preprocess_fund_data. rewrite Hne.
  unfold DataLoader.preprocess_try. rewrite Hdc, Hrd. run. rewrite Hdt. run.
  unfold DataLoader.sort_values. rewrite get_set_same. run.
  rewrite (fit_id _ (fit _ _)) by apply fit_length.
  rewrite sorted_nav_column, Hnc.
  assert (Hne' : "date" <> nav_column).
  { apply first_present_has in Hnc as [_ Hin]. simpl in Hin.
    destruct Hin as [<-|[<-|[<-|[]]]]; discriminate. }
  rewrite get_take_rows, (get_set_other _ _ _ _ Hne'), Hrn. run.
  unfold DataLoader.dropna. rewrite get_set_same. run.
  rewrite get_set_other by discriminate.
  rewrite get_take_rows, get_set_same. run.
  rewrite get_filter_rows, get_set_same. run.
  cbn [nrows take_rows set_column].
  set (idx := DataLoader.argsort (fit (nrows raw) dates0)).
  assert (Hlen : length idx = nrows raw)
    by (unfold idx; rewrite argsort_length; apply fit_length).
  rewrite Hlen. rewrite (fit_id _ (fit _ _)) by apply fit_length.
  unfold DataLoader.to_numeric. rewrite map_map.
  rewrite !(fit_id _ (map _ idx)) by (now rewrite length_map).
  rewrite zip_with_maps. rewrite select_none; [reflexivity|].
  apply List.Forall_map, List.Forall_forall. intros i _.
  apply negb_false_iff. rewrite orb_comm.
  specialize (Hna i). apply orb_true_iff in Hna as [Hi|Hi].
  - apply orb_true_iff. left. now apply fit_lookup_na.
  - apply orb_true_iff. right. now apply missing_to_numeric.
Qed.

Lemma preprocess_no_valid_row_witness :
  let raw := mkFrame 2 [("ann_date", [Timestamp 20230103; PyNone]);
                        ("unit_nav", [PyNone; num 1])] in
  empty raw = false
  /\ DataLoader.preprocess_fund_data (Some raw)
     = (None, [st_error "preprocess_fund_data" (Some IndexError)]).
Proof.
  cbv zeta. split; [reflexivity|].
  apply (preprocess_no_valid_row
           (mkFrame 2 [("ann_date", [Timestamp 20230103; PyNone]);
                       ("unit_nav", [PyNone; num 1])])
           "ann_date" "unit_nav" [Timestamp 20230103; PyNone] [PyNone; num 1]
           [Timestamp 20230103; NaT]); try reflexivity.
  intros [|[|i]]; reflexivity.
Defined.

(** *** Normalizing twice *)

Lemma assoc_set_id {A} k (v : A) l : assoc k l = Some v -> assoc_set k v l = l.
Proof.
  induction l as [|[k' v'] l IH]; simpl; [discriminate|].
  destruct (String.eqb k k') eqn:E.
  - apply String.eqb_eq in E. intros H. inversion H; subst. reflexivity.
  - intros H. now rewrite IH.
Qed.

Lemma set_column_id d c v :
  get_column d c = Ok v -> length v = nrows d -> set_column d c v = d.
Proof.
  destruct d as [n cols]. unfold get_column, set_column. simpl. intros H Hlen.
  rewrite (fit_id _ _ Hlen).
  destruct (assoc c cols) as [w|] eqn:E; inversion H; subst.
  now rewrite (assoc_set_id _ _ _ E).
Qed.

Lemma lookup_all (v : list cell) :
  map (fun i => default (Float nan) (v !! i)) (seq 0 (length v)) = v.
Proof.
  induction v as [|x v IH]; [reflexivity|].
  simpl. f_equal. rewrite <- seq_shift, map_map. exact IH.
Qed.

Lemma take_rows_id d : well_formed d -> take_rows (seq 0 (nrows d)) d = d.
Proof.
  destruct d as [n cols]. unfold well_formed, take_rows. simpl. intros H.
  rewrite length_seq. f_equal.
  induction H as [|[c v] l Hv _ IH]; simpl; [reflexivity|].
  simpl in Hv. subst n. rewrite lookup_all. f_equal. exact IH.
Qed.

Lemma select_all {A} (mask : list bool) (v : list A) :
  List.Forall (fun b => b = true) mask -> length mask = length v -> select mask v = v.
Proof.
  intros H. revert v. induction H as [|b mask -> _ IH]; intros [|x v] Hlen;
    simpl in *; try discriminate; try reflexivity.
  f_equal. apply IH. lia.
Qed.

Lemma filter_rows_id mask d :
  well_formed d -> length mask = nrows d -> List.Forall (fun b => b = true) mask ->
  filter_rows mask d = d.
Proof.
  destruct d as [n cols]. unfold well_formed, filter_rows. simpl.
  intros Hwf Hlen Hall.
  rewrite (select_all mask (seq 0 n)) by (rewrite ?length_seq; assumption).
  rewrite length_seq. f_equal.
  induction Hwf as [|[c v] l Hv _ IH]; simpl; [reflexivity|].
  simpl in Hv. rewrite (select_all mask v) by (try assumption; lia).
  f_equal. exact IH.
Qed.

Lemma select_map {A B} (f : A -> B) (mask : list bool) (v : list A) :
  select mask (map f v) = map f (select mask v).
Proof.
  revert v. induction mask as [|b mask IH]; intros [|x v]; simpl; try reflexivity.
  destruct b; simpl; now rewrite IH.
Qed.

Lemma sort_by_sorted_id {A} (le : A -> A -> bool) l :
  StronglySorted (fun a b => le a b = true) l -> DataLoader.sort_by le l = l.
Proof.
  induction 1 as [|x l Hs IH Hx]; [reflexivity|].
  simpl. rewrite IH. destruct l as [|y l]; [reflexivity|].
  simpl. inversion Hx as [|? ? Hxy _]; subst. now rewrite Hxy.
Qed.

Lemma combine_sorted (K : list cell) (s : list nat) :
  StronglySorted (fun a b => DataLoader.date_le a b = true) K ->
  StronglySorted (fun p q : nat * cell => DataLoader.date_le (snd p) (snd q) = true)
    (combine s K).
Proof.
  intros H. revert s. induction H as [|x K Hs IH Hx]; intros [|i s]; simpl;
    try constructor; [apply IH|].
  apply List.Forall_forall. intros [j y] Hin. apply in_combine_r in Hin.
  rewrite List.Forall_forall in Hx. simpl. auto.
Qed.

Lemma combine_map_fst_seq (K : list cell) a :
  map fst (combine (seq a (length K)) K) = seq a (length K).
Proof.
  revert a. induction K as [|x K IH]; intros a; simpl; [reflexivity|].
  now rewrite IH.
Qed.

(** Sorting keys that are in order already moves nothing. *)
Lemma argsort_sorted K :
  StronglySorted (fun a b => DataLoader.date_le a b = true) K ->
  DataLoader.argsort K = seq 0 (length K).
Proof.
  intros H. unfold DataLoader.argsort.
  rewrite sort_by_sorted_id by now apply combine_sorted.
  apply combine_map_fst_seq.
Qed.

Lemma traverse_select {A B} (f : A -> result B) (mask : list bool) (a : list A) (b : list B) :
  (forall k x y, mask !! k = Some true -> a !! k = Some x -> b !! k = Some y -> f x = Ok y) ->
  length a = length b ->
  traverse f (select mask a) = Ok (select mask b).
Proof.
  revert a b. induction mask as [|m mask IH]; intros [|x a] [|y b] H Hlen;
    simpl in *; try discriminate; try reflexivity.
  assert (IH' : traverse f (select mask a) = Ok (select mask b)).
  { apply IH; [|lia]. intros k x' y' Hm Hx Hy. exact (H (S k) x' y' Hm Hx Hy). }
  destruct m; [|exact IH'].
  simpl. rewrite (H 0%nat x y eq_refl eq_refl eq_refl). run. now rewrite IH'.
Qed.

(** A date that survives comes from the payload cell at the same
    position. *)
Lemma date_origin raw_dates dates0 n i :
  DataLoader.to_datetime raw_dates = Ok dates0 ->
  isna (default (Float nan) (fit n dates0 !! i)) = false ->
  DataLoader.to_datetime1 (default (Float nan) (raw_dates !! i))
  = Ok (default (Float nan) (fit n dates0 !! i)).
Proof.
  intros Hdt Hna. apply traverse_Ok in Hdt.
  destruct (fit n dates0 !! i) as [c|] eqn:E; [|discriminate]. simpl in *.
  unfold fit in E. apply lookup_take_Some in E as [E _].
  apply lookup_app_Some in E as [E|[_ E]].
  - destruct (Forall2_lookup_r _ _ _ _ _ Hdt E) as (r & Hr & Hrc). now rewrite Hr.
  - apply lookup_replicate in E as [-> _]. discriminate.
Qed.

Lemma keep_lookup navs dates k :
  keep navs dates !! k = Some true ->
  exists x y, navs !! k = Some x /\ dates !! k = Some y
              /\ isna x = false /\ isna y = false.
Proof.
  unfold keep. intros H. apply lookup_zip_with_Some in H as (x & y & Hb & Hx & Hy).
  exists x, y. symmetry in Hb. apply negb_true_iff, orb_false_iff in Hb. tauto.
Qed.

Lemma keep_all_true navs dates :
  List.Forall (fun c => isna c = false) navs ->
  List.Forall (fun c => isna c = false) dates ->
  List.Forall (fun b => b = true) (keep navs dates).
Proof.
  unfold keep. intros H. revert dates. induction H as [|x navs Hx _ IH];
    intros dates Hd; simpl; [constructor|].
  destruct Hd as [|y dates Hy Hd]; constructor; [|now apply IH].
  now rewrite Hx, Hy.
Qed.

Lemma has_filter_rows mask d c : has_column (filter_rows mask d) c = has_column d c.
Proof.
  unfold has_column, filter_rows. simpl. rewrite assoc_map.
  now destruct (assoc c (columns d)).
Qed.

(** X5.  Normalizing a normalized series whose dates are pairwise
    distinct changes nothing and reports nothing: no row is dropped or
    moved, no value recomputed differently.  (With distinct dates the
    statement does not depend on how the sort orders equal keys.) *)
Theorem preprocess_idempotent (raw out : DataFrame) (log : list st_message)
    (dates : list cell) :
  DataLoader.preprocess_fund_data (Some raw) = (Some out, log) ->
  get_column out "date" = Ok dates ->
  List.NoDup dates ->
  DataLoader.preprocess_fund_data (Some out) = (Some out, []).
Proof.
  intros H _ _.
  destruct (preprocess_frame _ _ _ H) as (_ & Hwf & [Hn1 _] & _ & Hd & _).
  apply preprocess_form in H
    as (dc & nc & rd & dates0 & sn & x0 & v & -> & Hdc & Hrd & Hdt & Hnc & Hsn
        & Hsel & Hhead & Hout).
  set (n := nrows raw) in *.
  set (K := fit n dates0) in *.
  set (idx := DataLoader.argsort K) in *.
  set (sdates := map (fun i => default (Float nan) (K !! i)) idx) in *.
  set (snavs := fit n (DataLoader.to_numeric sn)) in *.
  set (mask := keep snavs sdates) in *.
  set (cum := cells (map (fun a => fdiv a x0) v)) in *.
  assert (Hidx : length idx = n)
    by (unfold idx; rewrite argsort_length; apply fit_length).
  assert (Hdcn : In dc ["ann_date"; "trade_date"])
    by (apply first_present_has in Hdc; tauto).
  assert (Hncn : In nc ["unit_nav"; "adj_nav"; "close"])
    by (apply first_present_has in Hnc; tauto).
  assert (Hsnlen : length sn = n).
  { rewrite get_take_rows in Hsn. bind_inv Hsn. inversion Hsn; subst sn.
    now rewrite length_map. }
  assert (Hsnavs : snavs = DataLoader.to_numeric sn).
  { unfold snavs. apply fit_id. unfold DataLoader.to_numeric. now rewrite length_map. }
  (* the columns of the result *)
  assert (F1 : get_column out "date" = Ok (select mask sdates)).
  { rewrite Hout, get_set_other, get_filter_rows, get_set_other by discriminate.
    rewrite get_take_rows, get_set_same. reflexivity. }
  assert (F2 : get_column out "nav" = Ok (cells v)).
  { rewrite Hout, get_set_other, get_filter_rows, get_set_same by discriminate.
    cbn [nrows take_rows]. rewrite Hidx. fold snavs. run. now rewrite Hsel. }
  assert (F3 : get_column out "cum_nav" = Ok cum).
  { pose proof Hwf as Hwf'. rewrite Hout in Hwf' |- *. rewrite get_set_same.
    f_equal. apply fit_id.
    assert (E : get_column
                  (set_column (filter_rows mask
                     (set_column (take_rows idx (set_column raw "date" dates0))
                        "nav" (DataLoader.to_numeric sn))) "cum_nav" cum) "cum_nav"
                = Ok (fit (nrows (filter_rows mask
                     (set_column (take_rows idx (set_column raw "date" dates0))
                        "nav" (DataLoader.to_numeric sn)))) cum))
      by apply get_set_same.
    apply (well_formed_get _ _ _ Hwf') in E. rewrite fit_length in E.
    cbn [nrows set_column] in E.
    assert (Hc : get_column out "nav" = Ok (cells v)) by exact F2.
    apply (well_formed_get _ _ _ Hwf) in Hc. rewrite Hout in Hc. cbn [nrows set_column] in Hc.
    unfold cum, cells in *. rewrite !length_map in *. exact Hc. }
  assert (F4 : get_column out dc
               = Ok (select mask (map (fun i => default (Float nan) (rd !! i)) idx))).
  { rewrite Hout.
    rewrite get_set_other by (destruct Hdcn as [<-|[<-|[]]]; discriminate).
    rewrite get_filter_rows.
    rewrite get_set_other by (destruct Hdcn as [<-|[<-|[]]]; discriminate).
    rewrite get_take_rows.
    rewrite get_set_other by (destruct Hdcn as [<-|[<-|[]]]; discriminate).
    now rewrite Hrd. }
  assert (F5 : get_column out nc = Ok (select mask sn)).
  { rewrite Hout.
    rewrite get_set_other by (destruct Hncn as [<-|[<-|[<-|[]]]]; discriminate).
    rewrite get_filter_rows.
    rewrite get_set_other by (destruct Hncn as [<-|[<-|[<-|[]]]]; discriminate).
    now rewrite Hsn. }
  assert (F6 : DataLoader.first_present out ["ann_date"; "trade_date"] = Some dc).
  { rewrite <- Hdc. apply first_present_congr. intros c Hc. rewrite Hout.
    rewrite has_set_other, has_filter_rows, has_set_other, has_take_rows, has_set_other;
      try reflexivity; destruct Hc as [<-|[<-|[]]]; discriminate. }
  assert (F7 : DataLoader.first_present out ["unit_nav"; "adj_nav"; "close"] = Some nc).
  { rewrite <- Hnc. apply first_present_congr. intros c Hc. rewrite Hout.
    rewrite has_set_other, has_filter_rows, has_set_other;
      try reflexivity; destruct Hc as [<-|[<-|[<-|[]]]]; discriminate. }
  assert (Hne : empty out = false).
  { unfold empty. destruct (Nat.eqb_spec (nrows out) 0); [lia|]. simpl.
    unfold has_column in Hd. now destruct (columns out). }
  assert (Hnna : List.Forall (fun c => isna c = false) (select mask snavs))
    by apply select_notna_l.
  assert (Hdna : List.Forall (fun c => isna c = false) (select mask sdates))
    by apply select_notna_r.
  assert (Hds : StronglySorted (fun a b => DataLoader.date_le a b = true)
                  (select mask sdates))
    by (apply select_sorted, sorted_keys).
  assert (L1 : length (select mask sdates) = nrows out)
    by exact (well_formed_get _ _ _ Hwf F1).
  assert (L2 : length (cells v) = nrows out)
    by exact (well_formed_get _ _ _ Hwf F2).
  assert (L3 : length cum = nrows out)
    by exact (well_formed_get _ _ _ Hwf F3).
  (* the second run *)
  unfold DataLoader.preprocess_fund_data. rewrite Hne.
  unfold DataLoader.preprocess_try. rewrite F6, F4. run.
  unfold DataLoader.to_datetime.
  rewrite (traverse_select DataLoader.to_datetime1 mask _ sdates).
  2:{ intros k x y Hm Hx Hy. unfold sdates in Hy.
      rewrite list_lookup_fmap in Hx, Hy.
      destruct (idx !! k) as [i|] eqn:Ei; [|discriminate]. simpl in Hx, Hy.
      injection Hx as <-. injection Hy as <-.
      apply date_origin; [exact Hdt|].
      apply keep_lookup in Hm as (a & b & _ & Hb & _ & Hnb).
      unfold sdates in Hb. rewrite list_lookup_fmap, Ei in Hb. simpl in Hb.
      injection Hb as <-. exact Hnb. }
  2:{ unfold sdates. now rewrite !length_map. }
  run. rewrite (set_column_id out "date" _ F1 L1).
  unfold DataLoader.sort_values. rewrite F1. run.
  rewrite (fit_id _ _ L1). rewrite (argsort_sorted _ Hds), L1.
  rewrite (take_rows_id _ Hwf). rewrite F7, F5. run.
  unfold DataLoader.to_numeric at 1. rewrite <- select_map.
  fold (DataLoader.to_numeric sn). rewrite <- Hsnavs, Hsel.
  rewrite (set_column_id out "nav" _ F2 L2).
  unfold DataLoader.dropna. rewrite F2, F1. run.
  rewrite (fit_id _ _ L1), (fit_id _ _ L2).
  fold (keep (cells v) (select mask sdates)).
  rewrite filter_rows_id.
  2:{ exact Hwf. }
  2:{ unfold keep. rewrite length_zip_with, L1, L2. lia. }
  2:{ apply keep_all_true; [now rewrite <- Hsel | exact Hdna]. }
  rewrite F2. run.
  destruct v as [|y v]; [discriminate|]. simpl in Hhead. inversion Hhead; subst y.
  unfold iloc. simpl lookup. cbv iota. run.
  unfold DataLoader.series_div. simpl as_float. run.
  rewrite floats_cells. run.
  fold cum. now rewrite (set_column_id out "cum_nav" _ F3 L3).
Qed.

Lemma preprocess_idempotent_witness :
  DataLoader.preprocess_fund_data (Some Examples.raw_nav) = (Some Examples.fund3, [])
  /\ get_column Examples.fund3 "date"
     = Ok [Timestamp 20230103; Timestamp 20230104; Timestamp 20230105]
  /\ List.NoDup [Timestamp 20230103; Timestamp 20230104; Timestamp 20230105]
  /\ DataLoader.preprocess_fund_data (Some Examples.fund3) = (Some Examples.fund3, []).
Proof.
  assert (H : DataLoader.preprocess_fund_data (Some Examples.raw_nav)
              = (Some Examples.fund3, [])) by (vm_compute; reflexivity).
  assert (Hnd : List.NoDup [Timestamp 20230103; Timestamp 20230104; Timestamp 20230105]).
  { repeat constructor; simpl; intuition discriminate. }
  split; [exact H|]. split; [reflexivity|]. split; [exact Hnd|].
  exact (preprocess_idempotent Examples.raw_nav Examples.fund3 [] _ H eq_refl Hnd).
Defined.

(** ** calculate_technical_indicators *)

Lemma preserves_refl d : preserves d d.
Proof. split; auto. Qed.

Lemma preserves_trans d1 d2 d3 : preserves d1 d2 -> preserves d2 d3 -> preserves d1 d3.
Proof.
  intros [H1 H2] [H3 H4]. split; [congruence|].
  intros c Hc. rewrite H4, H2 by assumption. reflexivity.
Qed.

Lemma preserves_set d k v : ~ In k core_columns -> preserves d (set_column d k v).
Proof.
  intros Hk. split; [reflexivity|]. intros c Hc.
  apply get_set_other. intros ->. contradiction.
Qed.

Lemma fstr_not_core prefix n :
  prefix = "MA" \/ prefix = "RSI" -> ~ In (fstr prefix n) core_columns.
Proof.
  unfold fstr, core_columns. intros [-> | ->]; simpl;
    intros [H|[H|[H|[]]]]; discriminate.
Qed.

Lemma assign_preserves d k v d' :
  Indicators.assign d k v = Ok d' -> ~ In k core_columns -> preserves d d'.
Proof.
  unfold Indicators.assign. intros H Hk.
  destruct v as [|s|[|[c s] [|]]]; inversion H; subst; now apply preserves_set.
Qed.

Lemma assign_from_preserves d k v key d' :
  Indicators.assign_from d k v key = Ok d' -> ~ In k core_columns -> preserves d d'.
Proof.
  unfold Indicators.assign_from. intros H Hk. bind_inv H.
  eauto using assign_preserves.
Qed.

Ltac not_core :=
  first [ apply fstr_not_core; auto
        | unfold core_columns; simpl; intros [?|[?|[?|[]]]]; discriminate ].

Ltac preserves_tac :=
  repeat match goal with
    | H : _ ≫= _ = Ok _ |- _ => bind_inv H
    | H : (if ?b then _ else _) = Ok _ |- _ => destruct b
    | H : Indicators.assign _ _ _ = Ok _ |- _ =>
        apply assign_preserves in H; [|not_core]
    | H : Indicators.assign_from _ _ _ _ = Ok _ |- _ =>
        apply assign_from_preserves in H; [|not_core]
    | H : Ok _ = Ok _ |- _ => inversion H; subst; try clear H
    end;
  repeat first [ assumption | apply preserves_refl
               | apply preserves_set; not_core
               | eapply preserves_trans; [eassumption|] ].

Section EnginePreserves.
Import Indicators.
Variable ta : pandas_ta.
Variables (short_ma long_ma rsi_period : nat).

Lemma base_preserves d d' :
  base_step ta short_ma long_ma rsi_period d = Ok d' -> preserves d d'.
Proof. intros H. unfold base_step in H. preserves_tac. Qed.

Lemma boll_preserves d d' : boll_step ta d = Ok d' -> preserves d d'.
Proof. intros H. unfold boll_step in H. preserves_tac. Qed.

Lemma macd_preserves d d' : macd_step ta d = Ok d' -> preserves d d'.
Proof. intros H. unfold macd_step in H. preserves_tac. Qed.

Lemma kdj_preserves d d' : kdj_step ta d = Ok d' -> preserves d d'.
Proof. intros H. unfold kdj_step in H. preserves_tac. Qed.

Lemma cci_preserves d d' : cci_step ta d = Ok d' -> preserves d d'.
Proof. intros H. unfold cci_step in H. preserves_tac. Qed.

Lemma dmi_preserves d d' : dmi_step ta d = Ok d' -> preserves d d'.
Proof. intros H. unfold dmi_step in H. preserves_tac. Qed.

Lemma bbi_preserves d d' : bbi_step ta d = Ok d' -> preserves d d'.
Proof. intros H. unfold bbi_step in H. preserves_tac. Qed.

Lemma trix_preserves d d' : trix_step ta d = Ok d' -> preserves d d'.
Proof. intros H. unfold trix_step in H. preserves_tac. Qed.

Lemma atr_preserves d d' : atr_step ta d = Ok d' -> preserves d d'.
Proof. intros H. unfold atr_step in H. preserves_tac. Qed.

Lemma obv_preserves d d' : obv_step ta d = Ok d' -> preserves d d'.
Proof. intros H. unfold obv_step in H. preserves_tac. Qed.

Lemma mfi_preserves d d' : mfi_step ta d = Ok d' -> preserves d d'.
Proof. intros H. unfold mfi_step in H. preserves_tac. Qed.

Lemma when_preserves b step d d' :
  (forall x y, step x = Ok y -> preserves x y) ->
  when b step d = Ok d' -> preserves d d'.
Proof.
  intros Hs H. destruct b; simpl in H; [eauto|].
  inversion H. apply preserves_refl.
Qed.

(** X6.  Handed a frame with rows, the engine always returns a frame,
    whether an indicator failed or not, and that frame has the rows of
    the input and its date, nav and cum_nav columns, cell for cell:
    computing indicators never alters the price data. *)
Theorem indicators_preserve_prices (d : DataFrame) (sel : option (list string)) :
  empty d = false ->
  exists out,
    fst (calculate_technical_indicators ta short_ma long_ma rsi_period (Some d) sel)
    = Some out
    /\ nrows out = nrows d
    /\ get_column out "date" = get_column d "date"
    /\ get_column out "nav" = get_column d "nav"
    /\ get_column out "cum_nav" = get_column d "cum_nav".
Proof.
  intros Hne. unfold calculate_technical_indicators. rewrite Hne.
  destruct (indicators_try ta short_ma long_ma rsi_period d sel) as [out|e] eqn:E;
    [|exists d; simpl; auto].
  exists out. split; [reflexivity|].
  assert (Hp : preserves d out).
  { unfold indicators_try in E. bind_inv E. apply base_preserves in E0.
    eapply preserves_trans; [exact E0|].
    destruct sel as [[|n sel]|]; [inversion E; apply preserves_refl | |
                                  inversion E; apply preserves_refl].
    repeat bind_inv E.
    repeat match goal with
      | H : when _ _ _ = Ok _ |- _ =>
          apply when_preserves in H;
          [| solve [ apply boll_preserves | apply macd_preserves | apply kdj_preserves
                   | apply cci_preserves | apply dmi_preserves | apply bbi_preserves
                   | apply trix_preserves | apply atr_preserves | apply obv_preserves
                   | apply mfi_preserves ] ]
      end.
    repeat first [ assumption | eapply preserves_trans; [eassumption|] ]. }
  destruct Hp as [Hn Hc]. split; [exact Hn|].
  repeat split; apply Hc; unfold core_columns; simpl; auto.
Qed.
End EnginePreserves.

Lemma indicators_preserve_prices_witness :
  empty Examples.fund3 = false
  /\ exists out,
       fst (Indicators.calculate_technical_indicators Examples.short_series_ta 2 3 14
              (Some Examples.fund3) None) = Some out
       /\ nrows out = nrows Examples.fund3
       /\ get_column out "date" = get_column Examples.fund3 "date"
       /\ get_column out "nav" = get_column Examples.fund3 "nav"
       /\ get_column out "cum_nav" = get_column Examples.fund3 "cum_nav".
Proof.
  split; [reflexivity|].
  exact (indicators_preserve_prices Examples.short_series_ta 2 3 14
           Examples.fund3 None eq_refl).
Defined.

(** ** preprocess_fund_data, then calculate_performance_metrics *)

Lemma has_not_empty d c : (1 <= nrows d)%nat -> has_column d c = true -> empty d = false.
Proof.
  unfold empty, has_column. intros Hn Hc.
  destruct (nrows d); [lia|]. destruct (columns d); [discriminate|reflexivity].
Qed.

Lemma last_map {A B} (f : A -> B) (l : list A) : last (map f l) = option_map f (last l).
Proof.
  induction l as [|x [|y l] IH]; [reflexivity..|].
  change (last (map f (x :: y :: l))) with (last (map f (y :: l))).
  rewrite IH. reflexivity.
Qed.

Lemma last_cons_Some {A} (x : A) l : exists y, last (x :: l) = Some y.
Proof.
  destruct (last (x :: l)) eqn:E; [eauto|]. apply last_None in E. discriminate.
Qed.

Section Pipeline.
Import Indicators.
Variable np : numpy.

(** X7.  The analyzer never fails on a series the normalizer returned:
    without a benchmark it reports nothing and returns the six basic
    metrics; and when the first price is not zero, total_return is the
    last price over the first price, minus one. *)
Theorem normalized_series_metrics (raw out : DataFrame) (log : list st_message) :
  DataLoader.preprocess_fund_data (Some raw) = (Some out, log) ->
  exists m p0 prices plast,
    calculate_performance_metrics np (Some out) None = (Some m, [])
    /\ get_column out "nav" = Ok (map num (p0 :: prices))
    /\ last (p0 :: prices) = Some plast
    /\ is_Some (m !! "annual_return")
    /\ is_Some (m !! "annual_volatility")
    /\ is_Some (m !! "max_drawdown")
    /\ is_Some (m !! "sharpe_ratio")
    /\ is_Some (m !! "calmar_ratio")
    /\ (~ p0 == 0 ->
        exists q, m !! "total_return" = Some (fin q) /\ q == plast / p0 - 1)
    /\ (p0 == 0 -> m !! "total_return" = Some nan).
Proof.
  intros H.
  destruct (preprocess_frame _ _ _ H) as (_ & _ & [Hn _] & _ & _ & Hhas & _).
  pose proof (has_not_empty _ _ Hn Hhas) as Hne.
  destruct (preprocess_prices _ _ _ H) as (p0 & prices & Hnav).
  apply preprocess_shape in H
    as (dates & navs & x0 & v & _ & _ & _ & _ & _ & Hhead & Hnav' & Hcum).
  rewrite Hnav', <- cells_fin in Hnav.
  assert (Hv : v = map fin (p0 :: prices)) by (apply cells_inj; congruence).
  clear Hnav. subst v. simpl in Hhead. inversion Hhead; subst x0.
  destruct (performance_returns np out _ _ Hnav' Hcum) as [m Hm]; [discriminate|].
  destruct (last_cons_Some p0 prices) as [plast Hlast].
  exists m, p0, prices, plast.
  split. { unfold calculate_performance_metrics. now rewrite Hne, Hm. }
  split. { now rewrite Hnav', cells_fin. }
  split; [exact Hlast|].
  destruct (performance_entries np out None m _ _ Hm Hnav' Hcum)
    as (cl & cf & tr & ar & vol & mdd & Hcl & Hcf & Htr & _ & _ & _
        & Htot & Har & Hvol & Hmdd & Hsh & Hca).
  rewrite Har, Hvol, Hmdd, Hsh, Hca, Htot.
  do 5 (split; [eauto|]).
  rewrite !last_map, Hlast in Hcl. simpl in Hcl. inversion Hcl; subst cl.
  simpl in Hcf. inversion Hcf; subst cf. subst tr.
  split.
  - intros Hp0.
    assert (Hz : Qeq_bool p0 0 = false).
    { destruct (Qeq_bool p0 0) eqn:E; [|reflexivity].
      apply Qeq_bool_eq in E. contradiction. }
    assert (Hone : Qeq_bool (p0 / p0) 0 = false).
    { destruct (Qeq_bool (p0 / p0) 0) eqn:E; [|reflexivity].
      apply Qeq_bool_eq in E. exfalso.
      assert (E1 : p0 / p0 == 1) by (field; exact Hp0).
      rewrite E1 in E. discriminate. }
    simpl. rewrite Hz. simpl. rewrite Hone.
    eexists. split; [reflexivity|]. field. exact Hp0.
  - intros Hp0.
    assert (Hz : Qeq_bool p0 0 = true) by now apply Qeq_bool_iff.
    simpl. rewrite Hz. reflexivity.
Qed.
End Pipeline.

Lemma normalized_series_metrics_witness :
  DataLoader.preprocess_fund_data (Some Examples.raw_nav) = (Some Examples.fund3, [])
  /\ exists m p0 prices plast,
       Indicators.calculate_performance_metrics Examples.rational_numpy
         (Some Examples.fund3) None = (Some m, [])
       /\ get_column Examples.fund3 "nav" = Ok (map num (p0 :: prices))
       /\ last (p0 :: prices) = Some plast
       /\ (~ p0 == 0 ->
           exists q, m !! "total_return" = Some (fin q) /\ q == plast / p0 - 1).
Proof.
  assert (H : DataLoader.preprocess_fund_data (Some Examples.raw_nav)
              = (Some Examples.fund3, [])) by (vm_compute; reflexivity).
  split; [exact H|].
  destruct (normalized_series_metrics Examples.rational_numpy _ _ _ H)
    as (m & p0 & prices & plast & Hm & Hnav & Hlast & _ & _ & _ & _ & _ & Hq & _).
  exists m, p0, prices, plast. auto.
Defined.

(** ** calculate_performance_metrics *)

Section RelativeFacts.
Import Indicators.
Variable np : numpy.

Lemma relative_cases d b metrics m :
  relative_metrics np d b metrics = Ok m ->
  m = metrics
  \/ exists te ir beta,
       m = <["tracking_error" := te]>
           (<["information_ratio" := ir]> (<["beta" := beta]> metrics)).
Proof.
  intros H. unfold relative_metrics in H.
  repeat bind_inv H.
  destruct (_ && _); [|inversion H; auto].
  repeat bind_inv H.
  destruct (_ =? _)%nat; [|inversion H; auto].
  bind_inv H. inversion H; subst; clear H. right. eauto.
Qed.

Lemma performance_columns d bench m :
  performance_try np d bench = Ok m ->
  exists navs cum,
    get_column d "nav" = Ok (cells navs) /\ get_column d "cum_nav" = Ok (cells cum).
Proof.
  intros H. unfold performance_try in H.
  bind_inv H. bind_inv H. bind_inv H. bind_inv H.
  apply floats_Ok in E0, E2. subst. eauto.
Qed.

Lemma basic_without_relative d m :
  performance_try np d None = Ok m ->
  m !! "beta" = None /\ m !! "information_ratio" = None /\ m !! "tracking_error" = None.
Proof.
  intros H. unfold performance_try in H. repeat bind_inv H.
  inversion H; subst m.
  repeat split; rewrite !lookup_insert_ne by discriminate; apply lookup_empty.
Qed.

Lemma performance_cases d b m :
  performance_try np d (Some b) = Ok m ->
  exists m0, performance_try np d None = Ok m0
    /\ (m = m0
        \/ exists te ir beta,
             m = <["tracking_error" := te]>
                 (<["information_ratio" := ir]> (<["beta" := beta]> m0))).
Proof.
  intros H. unfold performance_try in *.
  destruct (get_column d "nav") as [nav|]; [|discriminate]. run. rewrite bind_ok in H.
  destruct (floats nav) as [navs|]; [|discriminate]. run. rewrite bind_ok in H.
  destruct (get_column d "cum_nav") as [cumc|]; [|discriminate]. run. rewrite bind_ok in H.
  destruct (floats cumc) as [cum|]; [|discriminate]. run. rewrite bind_ok in H.
  destruct (last_or_raise cum) as [cl|]; [|discriminate]. run. rewrite bind_ok in H.
  destruct (head_or_raise cum) as [cf|]; [|discriminate]. run. rewrite bind_ok in H.
  cbv zeta in *. eexists. split; [reflexivity|].
  destruct (empty b); [inversion H; auto|].
  apply relative_cases in H. exact H.
Qed.

(** X8.  Whatever benchmark is passed, a metrics mapping the analyzer
    returns comes with no report, holds the six basic entries, and holds
    beta, information_ratio and tracking_error either all three or none
    of them. *)
Theorem relative_metrics_together (d : DataFrame) (bench : option DataFrame)
    (m : gmap string float) (log : list st_message) :
  calculate_performance_metrics np (Some d) bench = (Some m, log) ->
  log = []
  /\ (is_Some (m !! "total_return") /\ is_Some (m !! "annual_return")
      /\ is_Some (m !! "annual_volatility") /\ is_Some (m !! "max_drawdown")
      /\ is_Some (m !! "sharpe_ratio") /\ is_Some (m !! "calmar_ratio"))
  /\ ((is_Some (m !! "beta") /\ is_Some (m !! "information_ratio")
       /\ is_Some (m !! "tracking_error"))
      \/ (m !! "beta" = None /\ m !! "information_ratio" = None
          /\ m !! "tracking_error" = None)).
Proof.
  intros H. split.
  { unfold calculate_performance_metrics in H. destruct (empty d); [discriminate|].
    destruct (performance_try np d bench); now inversion H. }
  apply metrics_Some in H.
  destruct (performance_columns _ _ _ H) as (navs & cum & Hnav & Hcum).
  split.
  { destruct (performance_entries np d bench m navs cum H Hnav Hcum)
      as (cl & cf & tr & ar & vol & mdd & _ & _ & _ & _ & _ & _
          & Htr & Har & Hvol & Hmdd & Hsh & Hca).
    rewrite Htr, Har, Hvol, Hmdd, Hsh, Hca. repeat split; eauto. }
  destruct bench as [b|].
  - apply performance_cases in H as (m0 & H0 & [-> | (te & ir & beta & ->)]).
    + right. now apply (basic_without_relative d).
    + left. repeat split;
        rewrite ?lookup_insert_eq, ?lookup_insert_ne by discriminate;
        try rewrite lookup_insert_eq; eauto.
  - right. now apply (basic_without_relative d).
Qed.

(** X9.  A benchmark that has rows but no close column costs the whole
    result: the analyzer reports the KeyError and returns None, on a
    series for which it returns the metrics when no benchmark is
    passed. *)
Theorem benchmark_without_close (d b : DataFrame) (navs cum : list float) :
  empty d = false ->
  get_column d "nav" = Ok (cells navs) ->
  get_column d "cum_nav" = Ok (cells cum) -> cum <> [] ->
  empty b = false ->
  has_column b "close" = false ->
  calculate_performance_metrics np (Some d) (Some b)
  = (None, [st_error "calculate_performance_metrics" (Some (KeyError "close"))])
  /\ exists m, calculate_performance_metrics np (Some d) None = (Some m, []).
Proof.
  intros Hd Hnav Hcum Hne Hb Hclose.
  destruct (performance_returns np d navs cum Hnav Hcum Hne) as [m Hm].
  split; [|exists m; unfold calculate_performance_metrics; now rewrite Hd, Hm].
  unfold calculate_performance_metrics. rewrite Hd.
  clear Hm. unfold performance_try.
  rewrite Hnav, Hcum. run. rewrite (floats_cells navs). run.
  rewrite (floats_cells cum). run.
  destruct cum as [|c cum]; [congruence|].
  destruct (last_cons_Some c cum) as [cl Hl].
  unfold last_or_raise, head_or_raise. rewrite Hl. run.
  assert (Hk : get_column b "close" = Raise (KeyError "close")).
  { unfold get_column. unfold has_column in Hclose.
    destruct (assoc "close" (columns b)); [discriminate|reflexivity]. }
  cbv zeta. rewrite Hb. unfold relative_metrics. rewrite Hk. reflexivity.
Qed.
End RelativeFacts.

Lemma relative_metrics_together_witness :
  exists m,
    Indicators.calculate_performance_metrics Examples.rational_numpy
      (Some Examples.fund3) None = (Some m, [])
    /\ ((is_Some (m !! "beta") /\ is_Some (m !! "information_ratio")
         /\ is_Some (m !! "tracking_error"))
        \/ (m !! "beta" = None /\ m !! "information_ratio" = None
            /\ m !! "tracking_error" = None)).
Proof.
  destruct (performance_returns Examples.rational_numpy Examples.fund3
              [fin 1; fin (110 # 100); fin (105 # 100)]
              [fin 1; fin (110 # 100); fin (105 # 100)] eq_refl eq_refl) as [m Hm];
    [discriminate|].
  assert (H : Indicators.calculate_performance_metrics Examples.rational_numpy
                (Some Examples.fund3) None = (Some m, []))
    by (unfold Indicators.calculate_performance_metrics; now rewrite Hm).
  exists m. split; [exact H|].
  exact (proj2 (proj2 (relative_metrics_together Examples.rational_numpy _ _ _ _ H))).
Defined.

Lemma benchmark_without_close_witness :
  Indicators.calculate_performance_metrics Examples.rational_numpy
    (Some Examples.fund3) (Some (mkFrame 1 [("trade_date", [Timestamp 20230103])]))
  = (None, [st_error "calculate_performance_metrics" (Some (KeyError "close"))]).
Proof.
  exact (proj1 (benchmark_without_close Examples.rational_numpy Examples.fund3
                  (mkFrame 1 [("trade_date", [Timestamp 20230103])])
                  [fin 1; fin (110 # 100); fin (105 # 100)]
                  [fin 1; fin (110 # 100); fin (105 # 100)]
                  eq_refl eq_refl eq_refl ltac:(discriminate) eq_refl eq_refl)).
Defined.

Lemma isin_self ts :
  List.Forall (fun b => b = true) (isin (map Timestamp ts) (map Timestamp ts)).
Proof.
  unfold isin. apply List.Forall_forall. intros b Hb.
  apply in_map_iff in Hb as (x & <- & Hx).
  apply existsb_exists. exists x. split; [exact Hx|].
  apply in_map_iff in Hx as (t & <- & _). simpl. apply Z.eqb_refl.
Qed.

Lemma Qeq_bool_false x : ~ x == 0 -> Qeq_bool x 0 = false.
Proof.
  intros H. destruct (Qeq_bool x 0) eqn:E; [|reflexivity].
  apply Qeq_bool_eq in E. contradiction.
Qed.

Lemma pct_from_fin i prev l :
  ~ prev == 0 -> List.Forall (fun p => ~ p == 0) l ->
  Indicators.dropna_s (Indicators.pct_from i (fin prev) (map fin l))
  = Indicators.pct_from i (fin prev) (map fin l)
  /\ Indicators.values (Indicators.pct_from i (fin prev) (map fin l))
     = map fin (simple_returns prev l).
Proof.
  intros Hp Hl. revert i prev Hp.
  induction Hl as [|x l Hx _ IH]; intros i prev Hp; [split; reflexivity|].
  destruct (IH (S i) x Hx) as [IH1 IH2].
  unfold Indicators.dropna_s, Indicators.values in *. simpl.
  rewrite (Qeq_bool_false prev Hp). simpl. rewrite IH1, IH2. split; reflexivity.
Qed.

Lemma returns_fin p l :
  List.Forall (fun p => ~ p == 0) (p :: l) ->
  Indicators.values (Indicators.dropna_s (Indicators.pct_change (map fin (p :: l))))
  = map fin (simple_returns p l).
Proof.
  intros H. inversion H as [|? ? Hp Hl]; subst.
  destruct (pct_from_fin 1 p l Hp Hl) as [H1 H2].
  simpl. unfold Indicators.dropna_s in *. simpl. rewrite H1. exact H2.
Qed.

Lemma simple_returns_length p l : length (simple_returns p l) = length l.
Proof. revert p. induction l as [|x l IH]; intros p; simpl; [reflexivity|now rewrite IH]. Qed.

Lemma skipna_fin l : Indicators.skipna (map fin l) = l.
Proof.
  unfold Indicators.skipna. induction l as [|x l IH]; [reflexivity|].
  simpl. f_equal. exact IH.
Qed.

Lemma flat_returns c0 p l :
  ~ c0 == 0 -> List.Forall (fun c => c == c0) (p :: l) ->
  List.Forall (fun r => r == 0) (simple_returns p l).
Proof.
  intros Hc H. revert p H. induction l as [|x l IH]; intros p H; [constructor|].
  inversion H as [|? ? Hp Hl]; subst. inversion Hl as [|? ? Hx Hl']; subst.
  simpl. constructor; [|apply IH; assumption].
  rewrite Hx, Hp. field. exact Hc.
Qed.

Lemma Qsum_zero l : List.Forall (fun r => r == 0) l -> Indicators.Qsum l == 0.
Proof.
  induction 1 as [|x l Hx _ IH]; [reflexivity|].
  simpl. rewrite Hx, IH. reflexivity.
Qed.

Lemma codeviation_zero l :
  List.Forall (fun r => r == 0) l -> Indicators.codeviation l l == 0.
Proof.
  intros H. unfold Indicators.codeviation. apply Qsum_zero.
  assert (Hm : Indicators.Qmean l == 0).
  { unfold Indicators.Qmean. rewrite (Qsum_zero l H). unfold Qdiv. apply Qmult_0_l. }
  generalize dependent (Indicators.Qmean l). intros M HM.
  induction H as [|x l Hx _ IH]; [constructor|].
  simpl. constructor; [|exact IH]. rewrite Hx, HM. reflexivity.
Qed.

Lemma flat_variance l :
  List.Forall (fun r => r == 0) l ->
  fgt (Indicators.variance 0 (map fin l)) (fin 0) = false.
Proof.
  intros H. unfold Indicators.variance. rewrite skipna_fin.
  destruct (length l <=? 0)%nat; [reflexivity|].
  unfold fgt, fcmp, Qltb. apply negb_false_iff, Qle_bool_iff.
  rewrite (codeviation_zero l H). unfold Qdiv. rewrite Qmult_0_l. apply Qle_refl.
Qed.

Lemma floats_num l : floats (map num l) = Ok (map fin l).
Proof. rewrite <- cells_fin. apply floats_cells. Qed.

Lemma nonzero_of_positive l :
  List.Forall (fun p => 0 < p) l -> List.Forall (fun p => ~ p == 0) l.
Proof.
  apply List.Forall_impl. intros p Hp E. rewrite E in Hp. now apply Qlt_irrefl in Hp.
Qed.

Section Aligned.
Import Indicators.
Variable np : numpy.

Lemma np_cov_Ok a b : length a = length b -> exists cv, np_cov a b = Ok cv.
Proof.
  intros H. unfold np_cov. rewrite H, Nat.eqb_refl. simpl.
  destruct (_ || _); [eauto|]. destruct (_ <=? _)%nat; eauto.
Qed.

(** On two frames that carry the same timestamps, with positive prices
    on both sides, the three relative metrics are returned. *)
Lemma shared_dates_metrics (d b : DataFrame) (ts : list Z) (prices close : list Q)
    (cum : list float) :
  well_formed d -> well_formed b ->
  empty d = false ->
  get_column d "date" = Ok (map Timestamp ts) ->
  get_column b "trade_date" = Ok (map Timestamp ts) ->
  get_column d "nav" = Ok (map num prices) ->
  List.Forall (fun p => 0 < p) prices ->
  get_column d "cum_nav" = Ok (cells cum) ->
  get_column b "close" = Ok (map num close) ->
  List.Forall (fun c => 0 < c) close ->
  exists m,
    calculate_performance_metrics np (Some d) (Some b) = (Some m, [])
    /\ is_Some (m !! "beta")
    /\ is_Some (m !! "information_ratio")
    /\ is_Some (m !! "tracking_error")
    /\ ((exists c0, List.Forall (fun c => c == c0) close) -> m !! "beta" = Some (fin 1)).
Proof.
  intros Hwd Hwb Hd Hdate Htrade Hnav Hpos Hcum Hclose Hcpos.
  pose proof (well_formed_get _ _ _ Hwd Hdate) as Ld. rewrite length_map in Ld.
  pose proof (well_formed_get _ _ _ Hwb Htrade) as Lb. rewrite length_map in Lb.
  pose proof (well_formed_get _ _ _ Hwd Hnav) as Ln. rewrite length_map in Ln.
  pose proof (well_formed_get _ _ _ Hwd Hcum) as Lc. unfold cells in Lc.
  rewrite length_map in Lc.
  pose proof (well_formed_get _ _ _ Hwb Hclose) as Lcl. rewrite length_map in Lcl.
  assert (Hn : (0 < nrows d)%nat).
  { unfold empty in Hd. apply orb_false_elim in Hd as [Hd _].
    apply Nat.eqb_neq in Hd. lia. }
  assert (Hb : empty b = false).
  { apply (has_not_empty b "close"); [lia | eapply get_has; eauto]. }
  assert (Hfd : filter_rows (isin (map Timestamp ts) (map Timestamp ts)) d = d).
  { apply filter_rows_id; [exact Hwd | unfold isin; rewrite !length_map; lia
                          | apply isin_self]. }
  assert (Hfb : filter_rows (isin (map Timestamp ts) (map Timestamp ts)) b = b).
  { apply filter_rows_id; [exact Hwb | unfold isin; rewrite !length_map; lia
                          | apply isin_self]. }
  destruct prices as [|p0 prices]; [simpl in Ln; lia|].
  destruct close as [|c0 close]; [simpl in Lcl; lia|].
  destruct cum as [|u cum]; [simpl in Lc; lia|].
  destruct (last_cons_Some u cum) as [cl Hl].
  pose proof (returns_fin p0 prices (nonzero_of_positive _ Hpos)) as Hfr.
  pose proof (returns_fin c0 close (nonzero_of_positive _ Hcpos)) as Hbr.
  destruct (np_cov_Ok (map fin (simple_returns p0 prices))
              (map fin (simple_returns c0 close))) as [cv Hcv].
  { rewrite !length_map, !simple_returns_length. simpl in Ln, Lcl. lia. }
  assert (Hrows : ((0 <? nrows d)%nat && (0 <? nrows b)%nat) = true).
  { apply andb_true_intro. split; apply Nat.ltb_lt; lia. }
  assert (Hsame : (nrows d =? nrows b)%nat = true) by (apply Nat.eqb_eq; lia).
  assert (Hm : exists m0 te ir,
             performance_try np d (Some b)
             = Ok (<["tracking_error" := te]>
                   (<["information_ratio" := ir]>
                   (<["beta" := if fgt (variance 0 (map fin (simple_returns c0 close)))
                                       (fin 0)
                                then fdiv cv (variance 0 (map fin (simple_returns c0 close)))
                                else fin 1]> m0)))).
  { unfold performance_try.
    rewrite Hnav, Hcum. run. rewrite (floats_num (p0 :: prices)). run.
    rewrite (floats_cells (u :: cum)). run.
    unfold last_or_raise, head_or_raise. rewrite Hl. run.
    cbv zeta. rewrite Hb. unfold relative_metrics.
    rewrite Hclose. run. rewrite (floats_num (c0 :: close)). run.
    rewrite Hdate, Htrade. run. cbv zeta.
    rewrite Hfd, Hdate. run. rewrite Hfb, Hrows, Hsame.
    rewrite Hnav, Hclose. run.
    rewrite (floats_num (p0 :: prices)). run.
    rewrite (floats_num (c0 :: close)). run.
    unfold np_var. rewrite Hfr, Hbr, Hcv. run.
    do 3 eexists. reflexivity. }
  destruct Hm as (m0 & te & ir & Hm).
  eexists. split.
  { unfold calculate_performance_metrics. rewrite Hd, Hm. reflexivity. }
  split. { rewrite !lookup_insert_ne, lookup_insert_eq by discriminate. eauto. }
  split. { rewrite lookup_insert_ne, lookup_insert_eq by discriminate. eauto. }
  split. { rewrite lookup_insert_eq. eauto. }
  intros [c Hflat].
  rewrite !lookup_insert_ne, lookup_insert_eq by discriminate.
  rewrite flat_variance; [reflexivity|].
  apply (flat_returns c); [|exact Hflat].
  inversion Hflat as [|? ? E _]; subst. inversion Hcpos as [|? ? P _]; subst.
  intros Z. lra.
Qed.

Lemma select_flat (mask : list bool) (close : list Q) c0 :
  List.Forall (fun c => c == c0) close ->
  List.Forall (fun c => c == c0) (select mask close).
Proof.
  intros H. apply List.Forall_forall. intros c Hc. apply select_In in Hc.
  rewrite List.Forall_forall in H. auto.
Qed.

Lemma flat_close_variance (l : list Q) c0 :
  ~ c0 == 0 -> List.Forall (fun c => c == c0) l ->
  fgt (np_var (values (dropna_s (pct_change (map fin l))))) (fin 0) = false.
Proof.
  intros Hc Hflat. unfold np_var. destruct l as [|p l]; [reflexivity|].
  assert (Hnz : List.Forall (fun p => ~ p == 0) (p :: l)).
  { eapply List.Forall_impl; [|exact Hflat]. intros a Ha E. apply Hc.
    rewrite <- Ha. exact E. }
  rewrite (returns_fin p l Hnz). apply flat_variance.
  now apply (flat_returns c0).
Qed.

Lemma relative_flat d b metrics m close c0 :
  get_column b "close" = Ok (map num close) ->
  ~ c0 == 0 -> List.Forall (fun c => c == c0) close ->
  relative_metrics np d b metrics = Ok m ->
  m = metrics
  \/ exists te ir,
       m = <["tracking_error" := te]>
           (<["information_ratio" := ir]> (<["beta" := fin 1]> metrics)).
Proof.
  intros Hclose Hc Hflat H. unfold relative_metrics in H.
  repeat bind_inv H.
  destruct (_ && _); [|inversion H; auto].
  bind_inv H. bind_inv H. bind_inv H. bind_inv H.
  destruct (_ =? _)%nat; [|inversion H; auto].
  bind_inv H. inversion H; subst; clear H. right.
  match goal with
  | E : get_column (filter_rows ?mask b) "close" = Ok ?xc,
    F : floats ?xc = Ok ?bc |- _ =>
      rewrite get_filter_rows, Hclose in E; rewrite bind_ok in E;
      inversion E; subst xc; clear E;
      rewrite select_map, floats_num in F; inversion F; subst bc; clear F;
      rewrite (flat_close_variance (select mask close) c0 Hc (select_flat mask close c0 Hflat))
  end.
  eauto.
Qed.

Lemma performance_relative d b m :
  performance_try np d (Some b) = Ok m ->
  exists m0, performance_try np d None = Ok m0
    /\ (m = m0 \/ relative_metrics np d b m0 = Ok m).
Proof.
  intros H. unfold performance_try in *.
  destruct (get_column d "nav") as [nav|]; [|discriminate]. run. rewrite bind_ok in H.
  destruct (floats nav) as [navs|]; [|discriminate]. run. rewrite bind_ok in H.
  destruct (get_column d "cum_nav") as [cumc|]; [|discriminate]. run. rewrite bind_ok in H.
  destruct (floats cumc) as [cum|]; [|discriminate]. run. rewrite bind_ok in H.
  destruct (last_or_raise cum) as [cl|]; [|discriminate]. run. rewrite bind_ok in H.
  destruct (head_or_raise cum) as [cf|]; [|discriminate]. run. rewrite bind_ok in H.
  cbv zeta in *. eexists. split; [reflexivity|].
  destruct (empty b); [inversion H; auto|]. right. exact H.
Qed.

(** X10.  On a flat benchmark (every close the same, and positive),
    whichever rows the benchmark and the fund share, a returned metrics
    mapping never holds a beta other than 1: beta is absent, or it is
    the 1 of the zero-variance guard. *)
Theorem flat_benchmark_beta (d b : DataFrame) (close : list Q) (c0 : Q)
    (m : gmap string float) (log : list st_message) :
  get_column b "close" = Ok (map num close) ->
  0 < c0 ->
  List.Forall (fun c => c == c0) close ->
  calculate_performance_metrics np (Some d) (Some b) = (Some m, log) ->
  m !! "beta" = None \/ m !! "beta" = Some (fin 1).
Proof.
  intros Hclose Hpos Hflat H.
  assert (Hc : ~ c0 == 0) by (intros E; rewrite E in Hpos; now apply Qlt_irrefl in Hpos).
  apply metrics_Some in H.
  apply performance_relative in H as (m0 & H0 & [-> | H]).
  - left. now apply (basic_without_relative np d).
  - apply (relative_flat d b m0 m close c0 Hclose Hc Hflat) in H
      as [-> | (te & ir & ->)].
    + left. now apply (basic_without_relative np d).
    + right. rewrite !lookup_insert_ne by discriminate. apply lookup_insert_eq.
Qed.
End Aligned.

Lemma flat_benchmark_beta_witness :
  let b := mkFrame 3
             [("trade_date", [Timestamp 20230103; Timestamp 20230104; Timestamp 20230105]);
              ("close", [num 2; num 2; num 2])] in
  exists m,
    Indicators.calculate_performance_metrics Examples.rational_numpy
      (Some Examples.fund3) (Some b) = (Some m, [])
    /\ m !! "beta" = Some (fin 1).
Proof.
  intros b.
  assert (Hwd : well_formed Examples.fund3) by (repeat constructor).
  assert (Hwb : well_formed b) by (repeat constructor).
  assert (Hp : List.Forall (fun p => 0 < p) [1; 110 # 100; 105 # 100])
    by (repeat constructor).
  assert (Hc : List.Forall (fun p => 0 < p) [2; 2; 2]) by (repeat constructor).
  assert (Hf : List.Forall (fun c => c == 2) [2; 2; 2]) by (repeat constructor).
  destruct (shared_dates_metrics Examples.rational_numpy Examples.fund3 b
              [20230103; 20230104; 20230105]%Z [1; 110 # 100; 105 # 100] [2; 2; 2]
              [fin 1; fin (110 # 100); fin (105 # 100)]
              Hwd Hwb eq_refl eq_refl eq_refl eq_refl Hp eq_refl eq_refl Hc)
    as (m & Hm & Hbeta & _).
  exists m. split; [exact Hm|].
  destruct (flat_benchmark_beta Examples.rational_numpy Examples.fund3 b [2; 2; 2] 2 m []
              eq_refl eq_refl Hf Hm) as [Hn | H1]; [|exact H1].
  rewrite Hn in Hbeta. destruct Hbeta as [x Hx]. discriminate Hx.
Defined.

(** ** detect_golden_cross_death_cross and detect_cross_points *)

Lemma cross_try_empty d short_ma long_ma :
  empty d = true -> Indicators.cross_try d short_ma long_ma = Ok ([], []).
Proof.
  unfold empty, Indicators.cross_try. intros H.
  destruct (negb _ || negb _) eqn:E; [reflexivity|].
  apply orb_true_iff in H as [H|H].
  - apply Nat.eqb_eq in H. rewrite H. reflexivity.
  - unfold has_column in E. destruct (columns d); [discriminate E|discriminate H].
Qed.

(** X11.  The chart's detector and the indicator module's detector
    return the same two date lists on every input, absent and empty
    frames included; they differ only in that the first reports
    nothing. *)
Theorem detectors_agree (df : option DataFrame) (short_ma long_ma : nat) :
  Visualization.detect_cross_points df short_ma long_ma
  = fst (Indicators.detect_golden_cross_death_cross df short_ma long_ma).
Proof.
  destruct df as [d|]; [|reflexivity].
  unfold Visualization.detect_cross_points, Indicators.detect_golden_cross_death_cross.
  destruct (empty d) eqn:E.
  - now rewrite cross_try_empty.
  - now destruct (Indicators.cross_try d short_ma long_ma).
Qed.

Lemma string_ltb_irrefl s : String.ltb s s = false.
Proof.
  unfold String.ltb. pose proof (String.compare_antisym s s) as H.
  destruct (String.compare s s); try reflexivity. discriminate H.
Qed.

Lemma Qltb_irrefl x : Qltb x x = false.
Proof. unfold Qltb. now rewrite Qle_bool_refl. Qed.

Lemma cell_gt_irrefl c : no_or_raise (cell_gt c c).
Proof.
  destruct c as [[|q]| |t| |s]; unfold no_or_raise; simpl; eauto; left; f_equal.
  - apply Qltb_irrefl.
  - unfold Z.gtb. now rewrite Z.compare_refl.
  - apply string_ltb_irrefl.
Qed.

Lemma cell_lt_irrefl c : no_or_raise (cell_lt c c).
Proof.
  destruct c as [[|q]| |t| |s]; unfold no_or_raise; simpl; eauto; left; f_equal.
  - apply Qltb_irrefl.
  - apply Z.ltb_irrefl.
  - apply string_ltb_irrefl.
Qed.

Lemma and_then_no a b : no_or_raise b -> no_or_raise (and_then a b).
Proof.
  intros Hb. destruct a as [[|]|e]; simpl; [exact Hb|now left|right; eauto].
Qed.

Lemma same_cell_no (cmp : cell -> cell -> result bool) (v : list cell) i :
  (forall c, no_or_raise (cmp c c)) ->
  no_or_raise (s1 ← iloc v i; l1 ← iloc v i; cmp s1 l1).
Proof.
  intros H. destruct (iloc v i) as [c|e]; simpl; [apply H|right; eauto].
Qed.

Lemma same_column_step d c acc i :
  Indicators.cross_step d c c acc i = Ok acc
  \/ exists e, Indicators.cross_step d c c acc i = Raise e.
Proof.
  unfold Indicators.cross_step.
  destruct (get_column d c) as [v|e]; [|right; eauto]. run.
  match goal with
  | |- context [and_then ?a (s1 ← iloc v i; l1 ← iloc v i; cell_gt s1 l1)] =>
      destruct (and_then_no a _ (same_cell_no cell_gt v i cell_gt_irrefl)) as [-> | [e ->]]
  end; [|right; eauto]. run.
  match goal with
  | |- context [and_then ?a (s1 ← iloc v i; l1 ← iloc v i; cell_lt s1 l1)] =>
      destruct (and_then_no a _ (same_cell_no cell_lt v i cell_lt_irrefl)) as [-> | [e ->]]
  end; [|right; eauto]. run. now left.
Qed.

Lemma same_column_loop d c idx acc :
  Indicators.for_each (Indicators.cross_step d c c) idx acc = Ok acc
  \/ exists e, Indicators.for_each (Indicators.cross_step d c c) idx acc = Raise e.
Proof.
  induction idx as [|i idx IH]; [now left|]. simpl.
  destruct (same_column_step d c acc i) as [-> | [e ->]]; [|right; eauto].
  run. exact IH.
Qed.

(** X12.  With the same period for the short and the long average no
    crossing is ever returned, whatever the frame holds: both detectors
    return two empty lists. *)
Theorem same_period_no_cross (df : option DataFrame) (n : nat) :
  fst (Indicators.detect_golden_cross_death_cross df n n) = ([], [])
  /\ Visualization.detect_cross_points df n n = ([], []).
Proof.
  assert (H : forall d, Indicators.cross_try d n n = Ok ([], [])
                        \/ exists e, Indicators.cross_try d n n = Raise e).
  { intros d. unfold Indicators.cross_try. cbv zeta.
    destruct (negb _ || negb _); [now left|]. apply same_column_loop. }
  destruct df as [d|]; [|split; reflexivity].
  unfold Indicators.detect_golden_cross_death_cross, Visualization.detect_cross_points.
  destruct (H d) as [-> | [e ->]]; split; try reflexivity; now destruct (empty d).
Qed.

(** ** calculate_rolling_volatility *)

Lemma skipna_length v : (length (Indicators.skipna v) <= length v)%nat.
Proof.
  unfold Indicators.skipna. induction v as [|[|q] v IH]; cbn in *; lia.
Qed.

Section RollingFacts.
Import Indicators.
Variable np : numpy.

Lemma short_window_std w : (length w <= 1)%nat -> window_std np w = nan.
Proof.
  intros H. unfold window_std, variance.
  destruct (existsb fisnan w); [reflexivity|].
  pose proof (skipna_length w) as Hs.
  destruct (Nat.leb_spec (length (skipna w)) 1); [reflexivity|lia].
Qed.

Lemma rolling_std_lookup window v k x :
  rolling_std np window v !! k = Some x ->
  (k < window - 1)%nat \/ window = 1%nat -> x = nan.
Proof.
  unfold rolling_std. intros H Hk.
  apply list_lookup_imap_Some in H as (y & _ & ->).
  destruct Hk as [Hk | ->].
  - destruct (Nat.leb_spec window (S k)); [lia|reflexivity].
  - simpl. apply short_window_std. rewrite length_take. lia.
Qed.

(** X13.  On a series of positive prices the rolling volatility has
    one value per daily return (one fewer than the rows); its values
    before the window is full are NaN, and with a window of 1 every
    value is NaN. *)
Theorem rolling_warm_up (d : DataFrame) (prices : list Q) (window : nat) :
  empty d = false ->
  get_column d "nav" = Ok (map num prices) ->
  List.Forall (fun p => 0 < p) prices ->
  exists r,
    calculate_rolling_volatility np (Some d) window = (Some r, [])
    /\ length r = (length prices - 1)%nat
    /\ forall k x, r !! k = Some x ->
         (k < window - 1)%nat \/ window = 1%nat -> x = nan.
Proof.
  intros Hd Hnav Hpos.
  unfold calculate_rolling_volatility, rolling_try.
  rewrite Hd, Hnav. run. rewrite floats_num. run. cbv zeta.
  eexists. split; [reflexivity|]. split.
  - unfold rolling_std. rewrite length_map, length_imap.
    destruct prices as [|p0 l]; [reflexivity|].
    rewrite (returns_fin p0 l (nonzero_of_positive _ Hpos)).
    rewrite length_map, simple_returns_length. simpl. lia.
  - intros k x Hx Hk. rewrite list_lookup_fmap in Hx.
    destruct (rolling_std np window _ !! k) as [y|] eqn:Ey; [|discriminate].
    apply rolling_std_lookup in Ey; [|exact Hk]. subst y.
    simpl in Hx. now inversion Hx.
Qed.
End RollingFacts.

Lemma rolling_warm_up_witness :
  exists r,
    Indicators.calculate_rolling_volatility Examples.rational_numpy
      (Some Examples.fund3) 60 = (Some r, [])
    /\ length r = 2%nat.
Proof.
  assert (Hp : List.Forall (fun p => 0 < p) [1; 110 # 100; 105 # 100])
    by (repeat constructor).
  destruct (rolling_warm_up Examples.rational_numpy Examples.fund3
              [1; 110 # 100; 105 # 100] 60 eq_refl eq_refl Hp) as (r & Hr & Hl & _).
  exists r. split; [exact Hr | exact Hl].
Defined.

(** ** The loaders *)

Lemma load_one_outcome origin answer : loader_outcome (DataLoader.load_one origin answer).
Proof.
  unfold loader_outcome, DataLoader.load_one.
  destruct answer as [df|e]; [|simpl; discriminate].
  destruct (empty df) eqn:E; simpl; [discriminate|exact E].
Qed.

(** X14.  No loader returns an empty frame, and none returns None
    without displaying a warning or an error: each answers with a frame
    that has rows, or with None and at least one notice, whatever the
    endpoints return or raise. *)
Theorem loaders_never_empty (pro : DataLoader.tushare_pro)
    (code start_date end_date : string) :
  loader_outcome (DataLoader.load_fund_data pro code start_date end_date)
  /\ loader_outcome (DataLoader.load_fund_manager_info pro code)
  /\ loader_outcome (DataLoader.load_fund_share_data pro code start_date end_date)
  /\ loader_outcome (DataLoader.load_fund_div_data pro code)
  /\ loader_outcome (DataLoader.load_benchmark_data pro code start_date end_date).
Proof.
  split; [|repeat split; apply load_one_outcome].
  unfold loader_outcome, DataLoader.load_fund_data.
  destruct (DataLoader.fund_nav pro code start_date end_date) as [n|e];
    [|simpl; discriminate].
  destruct (empty n) eqn:En; [|exact En].
  destruct (DataLoader.fund_daily pro code start_date end_date) as [dl|e];
    [|simpl; discriminate].
  destruct (empty dl) eqn:Ed; simpl; [discriminate|exact Ed].
Qed.

(** X15.  load_fund_data returns a frame in two cases only: the NAV
    endpoint answered with rows, and that answer is returned with no
    notice; or the NAV endpoint answered without rows and the daily
    endpoint answered with rows, and the daily answer is returned with
    one warning.  In particular a NAV endpoint that raises is not
    retried on the daily endpoint. *)
Theorem load_fund_data_fallback (pro : DataLoader.tushare_pro)
    (code start_date end_date : string) (df : DataFrame)
    (log : list DataLoader.st_notice) :
  DataLoader.load_fund_data pro code start_date end_date = (Some df, log)
  <-> (DataLoader.fund_nav pro code start_date end_date = Ok df
       /\ empty df = false /\ log = [])
      \/ (exists n, DataLoader.fund_nav pro code start_date end_date = Ok n
                    /\ empty n = true
                    /\ DataLoader.fund_daily pro code start_date end_date = Ok df
                    /\ empty df = false
                    /\ log = [DataLoader.st_warning "load_fund_data"]).
Proof.
  unfold DataLoader.load_fund_data. split.
  - destruct (DataLoader.fund_nav pro code start_date end_date) as [n|e];
      [|discriminate].
    destruct (empty n) eqn:En.
    + destruct (DataLoader.fund_daily pro code start_date end_date) as [dl|e];
        [|discriminate].
      destruct (empty dl) eqn:Ed; [discriminate|].
      intros H. inversion H; subst. right. exists n. auto.
    + intros H. inversion H; subst. left. auto.
  - intros [(-> & -> & ->) | (n & -> & -> & -> & -> & ->)]; reflexivity.
Qed.

(** ** generate_technical_analysis_summary *)

Lemma summary_Some d sel s log :
  Visualization.generate_technical_analysis_summary (Some d) sel = (Some s, log) ->
  exists row, last_row d = Ok row /\ Visualization.summary_try d row = Ok s /\ log = [].
Proof.
  unfold Visualization.generate_technical_analysis_summary.
  destruct (empty d) eqn:E; [discriminate|].
  unfold empty in E. apply orb_false_elim in E as [E _].
  apply Nat.eqb_neq in E.
  destruct (Nat.ltb_spec 0 (nrows d)); [|lia].
  destruct (last_row d) as [row|e]; [|discriminate]. run.
  destruct (Visualization.summary_try d row) as [s'|e] eqn:Es; [|discriminate].
  intros Hs. inversion Hs; subst. exists row. auto.
Qed.

Section RiskFacts.
Import Visualization.
Variable df : DataFrame.
Variable latest_data : list (string * cell).

Lemma rsi_flag_cases r :
  rsi_flag df latest_data = Ok r ->
  r = 0%nat \/ (r = 1%nat /\ has_column df "RSI14" = true).
Proof.
  unfold rsi_flag. destruct (has_column df "RSI14"); [|intros H; inversion H; auto].
  cbv zeta. intros H. repeat bind_inv H.
  match type of H with Ok (if ?b then _ else _) = _ => destruct b end;
    inversion H; auto.
Qed.

Lemma atr_flag_cases a :
  atr_flag df latest_data = Ok a ->
  a = 0%nat \/ (a = 1%nat /\ has_column df "ATR" = true).
Proof.
  unfold atr_flag. destruct (has_column df "ATR"); [|intros H; inversion H; auto].
  intros H. repeat bind_inv H.
  match type of H with (if ?b then _ else _) = _ => destruct b end;
    [|inversion H; auto].
  bind_inv H.
  match type of H with Ok (if ?b then _ else _) = _ => destruct b end;
    inversion H; auto.
Qed.

Lemma summary_risk s :
  summary_try df latest_data = Ok s ->
  exists r a, rsi_flag df latest_data = Ok r /\ atr_flag df latest_data = Ok a
              /\ risk_level s = assess (r + a).
Proof.
  intros H. unfold summary_try in H. repeat bind_inv H.
  inversion H; subst. eauto.
Qed.
End RiskFacts.

(** X16.  The risk level of a returned summary is high only on a frame
    that holds both a column named RSI14 and a column named ATR, medium
    only on a frame that holds one of them at least, and low on a frame
    that holds neither: the initial value (medium) is never what is
    returned for want of data. *)
Theorem risk_level_columns (d : DataFrame) (sel : list string)
    (s : Visualization.summary) (log : list st_message) :
  Visualization.generate_technical_analysis_summary (Some d) sel = (Some s, log) ->
  (Visualization.risk_level s = Visualization.RiskHigh ->
     has_column d "RSI14" = true /\ has_column d "ATR" = true)
  /\ (Visualization.risk_level s = Visualization.RiskMedium ->
        has_column d "RSI14" = true \/ has_column d "ATR" = true)
  /\ (has_column d "RSI14" = false -> has_column d "ATR" = false ->
        Visualization.risk_level s = Visualization.RiskLow).
Proof.
  intros H. apply summary_Some in H as (row & _ & H & _).
  apply summary_risk in H as (r & a & Hr & Ha & ->).
  apply rsi_flag_cases in Hr. apply atr_flag_cases in Ha.
  destruct Hr as [-> | [-> Hr]], Ha as [-> | [-> Ha]]; simpl;
    repeat split; intros; try discriminate; try congruence; auto.
Qed.

Lemma risk_level_columns_witness :
  exists s,
    Visualization.generate_technical_analysis_summary (Some Examples.table_rsi7) []
    = (Some s, [])
    /\ Visualization.risk_level s = Visualization.RiskLow.
Proof.
  eexists. split; [vm_compute; reflexivity|].
  exact (proj2 (proj2 (risk_level_columns Examples.table_rsi7 [] _ [] eq_refl))
           eq_refl eq_refl).
Defined.

Lemma assoc_notin {A} k (l : list (string * A)) :
  ~ In k (map fst l) -> assoc k l = None.
Proof.
  induction l as [|[k' v] l IH]; simpl; [reflexivity|]. intros H.
  destruct (String.eqb k k') eqn:E.
  - apply String.eqb_eq in E. subst. exfalso. auto.
  - apply IH. auto.
Qed.

Lemma records_keys present name t t' pre :
  records present name t t' ->
  map fst (Visualization.analysis t) = map fst (List.filter snd pre) ->
  ~ In name (map fst pre) ->
  map fst (Visualization.analysis t')
  = map fst (List.filter snd (pre ++ [(name, present)])).
Proof.
  intros Hr Hpre Hfresh. rewrite List.filter_app, map_app, <- Hpre.
  unfold records in Hr. destruct present; simpl.
  - destruct Hr as [e ->]. rewrite assoc_set_fresh, map_app; [reflexivity|].
    apply assoc_notin. rewrite Hpre. intros Hin. apply Hfresh.
    apply in_map_iff in Hin as (p & <- & Hp). apply List.filter_In in Hp as [Hp _].
    now apply in_map.
  - rewrite Hr, app_nil_r. reflexivity.
Qed.

Lemma records_other present name t t' k :
  records present name t t' -> k <> name ->
  assoc k (Visualization.analysis t') = assoc k (Visualization.analysis t).
Proof.
  unfold records. intros Hr Hk. destruct present; [|now rewrite Hr].
  destruct Hr as [e ->]. now apply assoc_set_other.
Qed.

Lemma last_row_get d row c x :
  last_row d = Ok row -> latest d c x -> row_get row c = Ok x.
Proof.
  unfold last_row, latest, get_column, row_get.
  destruct (nrows d =? 0)%nat; [discriminate|].
  intros H (v & Hv & Hx). inversion H; subst row; clear H.
  induction (columns d) as [|[k w] l IH]; [discriminate|].
  simpl in Hv. destruct (String.eqb c k) eqn:E.
  - inversion Hv; subst w. cbn. rewrite Hx. cbn. now rewrite E.
  - cbn. destruct (w !! (nrows d - 1)%nat); cbn; [rewrite E|]; exact (IH Hv).
Qed.

Lemma cell_gt_nan_r c b : cell_gt c (Float nan) = Ok b -> b = false.
Proof.
  destruct c as [[|q]| | | |]; simpl; intros H; inversion H; reflexivity.
Qed.

Lemma cell_lt_nan_r c b : cell_lt c (Float nan) = Ok b -> b = false.
Proof.
  destruct c as [[|q]| | | |]; simpl; intros H; inversion H; reflexivity.
Qed.

Section SummarySteps.
Import Visualization.
Variable df : DataFrame.
Variable latest_data : list (string * cell).

Ltac records_tac :=
  repeat match goal with
    | H : (if ?b then _ else _) = Ok _ |- _ => destruct b
    | H : _ ≫= _ = Ok _ |- _ => bind_inv H
    | H : Ok _ = Ok _ |- _ => inversion H; subst; try clear H
    end;
  unfold records; cbn;
  first [ reflexivity | eexists; reflexivity ].

Lemma macd_records t t' :
  macd_analysis df latest_data t = Ok t' ->
  records (has_column df "MACD_DIF" && has_column df "MACD_DEA") "MACD" t t'.
Proof. intros H. unfold macd_analysis in H. records_tac. Qed.

Lemma rsi_records t t' :
  rsi_analysis df latest_data t = Ok t' ->
  records (match rsi_col df with [] => false | _ => true end) "RSI" t t'.
Proof. intros H. unfold rsi_analysis in H. destruct (rsi_col df); records_tac. Qed.

Lemma kdj_records t t' :
  kdj_analysis df latest_data t = Ok t' ->
  records (has_all df ["KDJ_K"; "KDJ_D"; "KDJ_J"]) "KDJ" t t'.
Proof. intros H. unfold kdj_analysis in H. records_tac. Qed.

Lemma boll_records t t' :
  boll_analysis df latest_data t = Ok t' ->
  records (has_all df ["BOLL_UPPER"; "BOLL_MIDDLE"; "BOLL_LOWER"]) "BOLL" t t'.
Proof. intros H. unfold boll_analysis in H. records_tac. Qed.

Lemma cci_records t t' :
  cci_analysis df latest_data t = Ok t' -> records (has_column df "CCI") "CCI" t t'.
Proof. intros H. unfold cci_analysis in H. records_tac. Qed.

Lemma dmi_records t t' :
  dmi_analysis df latest_data t = Ok t' ->
  records (has_all df ["DMI_PLUS"; "DMI_MINUS"; "DMI_ADX"]) "DMI" t t'.
Proof. intros H. unfold dmi_analysis in H. records_tac. Qed.

Lemma mfi_records t t' :
  mfi_analysis df latest_data t = Ok t' -> records (has_column df "MFI") "MFI" t t'.
Proof. intros H. unfold mfi_analysis in H. records_tac. Qed.

Lemma bbi_records t t' :
  bbi_analysis df latest_data t = Ok t' -> records (has_column df "BBI") "BBI" t t'.
Proof. intros H. unfold bbi_analysis in H. records_tac. Qed.

Lemma trix_records t t' :
  trix_analysis df latest_data t = Ok t' -> records (has_column df "TRIX") "TRIX" t t'.
Proof. intros H. unfold trix_analysis in H. records_tac. Qed.

Lemma summary_steps s :
  summary_try df latest_data = Ok s ->
  exists t1 t2 t3 t4 t5 t6 t7 t8 t9,
    macd_analysis df latest_data (mkTally 0 0 []) = Ok t1
    /\ rsi_analysis df latest_data t1 = Ok t2
    /\ kdj_analysis df latest_data t2 = Ok t3
    /\ boll_analysis df latest_data t3 = Ok t4
    /\ cci_analysis df latest_data t4 = Ok t5
    /\ dmi_analysis df latest_data t5 = Ok t6
    /\ mfi_analysis df latest_data t6 = Ok t7
    /\ bbi_analysis df latest_data t7 = Ok t8
    /\ trix_analysis df latest_data t8 = Ok t9
    /\ indicator_analysis s = analysis t9.
Proof.
  intros H. unfold summary_try in H. repeat bind_inv H. inversion H; subst; clear H.
  do 9 eexists. repeat split; eassumption.
Qed.
End SummarySteps.

Ltac fresh_name := simpl; intuition discriminate.

(** X17.  A returned summary analyses exactly the indicators whose
    guarding columns the frame holds, in the order MACD, RSI, KDJ, BOLL,
    CCI, DMI, MFI, BBI, TRIX, each once; whatever the frame holds, ATR
    and OBV get no entry. *)
Theorem summary_indicators (d : DataFrame) (sel : list string)
    (s : Visualization.summary) (log : list st_message) :
  Visualization.generate_technical_analysis_summary (Some d) sel = (Some s, log) ->
  map fst (Visualization.indicator_analysis s) = analysed d
  /\ ~ In "ATR" (map fst (Visualization.indicator_analysis s))
  /\ ~ In "OBV" (map fst (Visualization.indicator_analysis s)).
Proof.
  intros H. apply summary_Some in H as (row & _ & H & _).
  apply summary_steps in H
    as (t1 & t2 & t3 & t4 & t5 & t6 & t7 & t8 & t9
        & H1 & H2 & H3 & H4 & H5 & H6 & H7 & H8 & H9 & ->).
  apply macd_records in H1. apply rsi_records in H2. apply kdj_records in H3.
  apply boll_records in H4. apply cci_records in H5. apply dmi_records in H6.
  apply mfi_records in H7. apply bbi_records in H8. apply trix_records in H9.
  assert (K : map fst (Visualization.analysis t9) = analysed d).
  { eapply (records_keys _ _ _ _ []) in H1; [|reflexivity|fresh_name].
    eapply records_keys in H2; [|exact H1|fresh_name].
    eapply records_keys in H3; [|exact H2|fresh_name].
    eapply records_keys in H4; [|exact H3|fresh_name].
    eapply records_keys in H5; [|exact H4|fresh_name].
    eapply records_keys in H6; [|exact H5|fresh_name].
    eapply records_keys in H7; [|exact H6|fresh_name].
    eapply records_keys in H8; [|exact H7|fresh_name].
    eapply records_keys in H9; [|exact H8|fresh_name].
    exact H9. }
  rewrite K. split; [reflexivity|].
  assert (Hin : forall k, In k (analysed d) ->
                          In k (map fst (reported d))).
  { intros k Hk. unfold analysed in Hk.
    apply in_map_iff in Hk as (p & <- & Hp). apply List.filter_In in Hp as [Hp _].
    now apply in_map. }
  split; intros Hk; apply Hin in Hk; simpl in Hk; intuition discriminate.
Qed.

Lemma summary_indicators_witness :
  exists s,
    Visualization.generate_technical_analysis_summary (Some Examples.table_rsi7) []
    = (Some s, [])
    /\ map fst (Visualization.indicator_analysis s) = ["MACD"; "RSI"].
Proof.
  eexists. split; [vm_compute; reflexivity|].
  exact (proj1 (summary_indicators Examples.table_rsi7 [] _ [] eq_refl)).
Defined.

Section UndefinedFacts.
Import Visualization.
Variable df : DataFrame.
Variable latest_data : list (string * cell).

Lemma trix_undefined t t' :
  row_get latest_data "TRIX" = Ok (Float nan) ->
  trix_analysis df latest_data t = Ok t' ->
  has_column df "TRIX" = true ->
  assoc "TRIX" (analysis t') = Some (mkEntry Bearish [nan]).
Proof.
  intros Hrow H Hhas. unfold trix_analysis in H. rewrite Hhas, Hrow in H.
  simpl in H. inversion H; subst. simpl.
  apply assoc_set_same.
Qed.

Lemma bbi_undefined t t' :
  row_get latest_data "BBI" = Ok (Float nan) ->
  bbi_analysis df latest_data t = Ok t' ->
  has_column df "BBI" = true ->
  assoc "BBI" (analysis t') = Some (mkEntry Bearish []).
Proof.
  intros Hrow H Hhas. unfold bbi_analysis in H. rewrite Hhas, Hrow in H.
  simpl in H. bind_inv H. bind_inv H.
  apply cell_gt_nan_r in E0. subst. simpl in H.
  inversion H; subst. simpl. apply assoc_set_same.
Qed.

Lemma boll_undefined t t' :
  row_get latest_data "BOLL_UPPER" = Ok (Float nan) ->
  row_get latest_data "BOLL_LOWER" = Ok (Float nan) ->
  row_get latest_data "BOLL_MIDDLE" = Ok (Float nan) ->
  boll_analysis df latest_data t = Ok t' ->
  has_all df ["BOLL_UPPER"; "BOLL_MIDDLE"; "BOLL_LOWER"] = true ->
  assoc "BOLL" (analysis t') = Some (mkEntry WeakZone []).
Proof.
  intros Hu Hl Hm H Hhas. unfold boll_analysis in H. rewrite Hhas, Hu, Hl, Hm in H.
  bind_inv H. simpl in H. bind_inv H.
  apply cell_gt_nan_r in E0. subst. simpl in H.
  bind_inv H. bind_inv E0. apply cell_lt_nan_r in E1. subst. simpl in E0.
  bind_inv E0. apply cell_gt_nan_r in E1. subst. simpl in E0.
  inversion E0; subst. simpl in H. inversion H; subst. simpl.
  apply assoc_set_same.
Qed.
End UndefinedFacts.

Lemma latest_has d c x : latest d c x -> has_column d c = true.
Proof. intros (v & Hv & _). eapply get_has; eauto. Qed.

(** X18.  In a returned summary an undefined (NaN) latest value is read
    as a bearish vote by three analyses: TRIX and BBI are labelled
    bearish, and Bollinger bands that are all undefined put the price
    in the weak zone. *)
Theorem undefined_reads_bearish (d : DataFrame) (sel : list string)
    (s : Visualization.summary) (log : list st_message) :
  Visualization.generate_technical_analysis_summary (Some d) sel = (Some s, log) ->
  (latest d "TRIX" (Float nan) ->
     assoc "TRIX" (Visualization.indicator_analysis s)
     = Some (Visualization.mkEntry Visualization.Bearish [nan]))
  /\ (latest d "BBI" (Float nan) ->
        assoc "BBI" (Visualization.indicator_analysis s)
        = Some (Visualization.mkEntry Visualization.Bearish []))
  /\ (latest d "BOLL_UPPER" (Float nan) -> latest d "BOLL_MIDDLE" (Float nan) ->
      latest d "BOLL_LOWER" (Float nan) ->
        assoc "BOLL" (Visualization.indicator_analysis s)
        = Some (Visualization.mkEntry Visualization.WeakZone [])).
Proof.
  intros H. apply summary_Some in H as (row & Hrow & H & _).
  apply summary_steps in H
    as (t1 & t2 & t3 & t4 & t5 & t6 & t7 & t8 & t9
        & H1 & H2 & H3 & H4 & H5 & H6 & H7 & H8 & H9 & ->).
  pose proof (cci_records _ _ _ _ H5) as R5.
  pose proof (dmi_records _ _ _ _ H6) as R6.
  pose proof (mfi_records _ _ _ _ H7) as R7.
  pose proof (bbi_records _ _ _ _ H8) as R8.
  pose proof (trix_records _ _ _ _ H9) as R9.
  split; [|split].
  - intros L. eapply trix_undefined; [|exact H9|].
    + eapply last_row_get; eassumption.
    + eapply latest_has; eassumption.
  - intros L.
    rewrite (records_other _ _ _ _ "BBI" R9) by discriminate.
    eapply bbi_undefined; [|exact H8|].
    + eapply last_row_get; eassumption.
    + eapply latest_has; eassumption.
  - intros Lu Lm Ll.
    rewrite (records_other _ _ _ _ "BOLL" R9) by discriminate.
    rewrite (records_other _ _ _ _ "BOLL" R8) by discriminate.
    rewrite (records_other _ _ _ _ "BOLL" R7) by discriminate.
    rewrite (records_other _ _ _ _ "BOLL" R6) by discriminate.
    rewrite (records_other _ _ _ _ "BOLL" R5) by discriminate.
    eapply boll_undefined; [| | |exact H4|].
    + eapply last_row_get; eassumption.
    + eapply last_row_get; eassumption.
    + eapply last_row_get; eassumption.
    + unfold Visualization.has_all. simpl.
      rewrite (latest_has _ _ _ Lu), (latest_has _ _ _ Lm), (latest_has _ _ _ Ll).
      reflexivity.
Qed.

Lemma undefined_reads_bearish_witness :
  let d := mkFrame 2 [("date", [Timestamp 20230103; Timestamp 20230104]);
                      ("nav", [num 1; num (11 # 10)]);
                      ("TRIX", [Float nan; Float nan])] in
  exists s,
    Visualization.generate_technical_analysis_summary (Some d) [] = (Some s, [])
    /\ assoc "TRIX" (Visualization.indicator_analysis s)
       = Some (Visualization.mkEntry Visualization.Bearish [nan])
    /\ Visualization.overall_signal s = Visualization.LeanBearish.
Proof.
  intros d. eexists. split; [vm_compute; reflexivity|]. split; [|reflexivity].
  refine (proj1 (undefined_reads_bearish d [] _ [] eq_refl) _).
  exists [Float nan; Float nan]. split; reflexivity.
Defined.

(** ** preprocess_fund_data keeps rows whole *)

Lemma insert_by_perm {A} (le : A -> A -> bool) x l :
  Permutation (DataLoader.insert_by le x l) (x :: l).
Proof.
  induction l as [|z l IH]; simpl; [reflexivity|].
  destruct (le x z); [reflexivity|].
  rewrite IH. apply perm_swap.
Qed.

Lemma sort_by_perm {A} (le : A -> A -> bool) l : Permutation (DataLoader.sort_by le l) l.
Proof.
  induction l as [|x l IH]; simpl; [reflexivity|].
  rewrite insert_by_perm. now apply perm_skip.
Qed.

Lemma argsort_perm K : Permutation (DataLoader.argsort K) (seq 0 (length K)).
Proof.
  unfold DataLoader.argsort.
  rewrite <- (combine_map_fst_seq K 0) at 2.
  apply Permutation_map, sort_by_perm.
Qed.

Lemma select_NoDup {A} (mask : list bool) (v : list A) :
  List.NoDup v -> List.NoDup (select mask v).
Proof.
  intros H. revert mask. induction H as [|x v Hx _ IH]; intros [|b mask]; simpl;
    try constructor.
  destruct b; [|apply IH]. constructor; [|apply IH].
  intros Hin. apply Hx. eapply select_In; eassumption.
Qed.

(** X19.  Normalization keeps rows whole: the rows of the result are
    distinct rows of the payload, and every other column of the payload
    (the fund code, say) is carried along with its row; no row is
    repeated and no cell moves to another row. *)
Theorem preprocess_rows_intact (raw out : DataFrame) (log : list st_message) :
  DataLoader.preprocess_fund_data (Some raw) = (Some out, log) ->
  exists idx : list nat,
    List.NoDup idx
    /\ List.Forall (fun i => (i < nrows raw)%nat) idx
    /\ nrows out = length idx
    /\ forall c v, c <> "date" -> c <> "nav" -> c <> "cum_nav" ->
         get_column raw c = Ok v ->
         get_column out c = Ok (map (fun i => default (Float nan) (v !! i)) idx).
Proof.
  intros H. apply preprocess_form in H
    as (dc & nc & rd & dates0 & sn & x0 & v & _ & _ & _ & _ & _ & _ & _ & _ & ->).
  set (K := fit (nrows raw) dates0).
  set (mask := keep _ _).
  pose proof (argsort_perm K) as Hperm.
  assert (HK : length K = nrows raw) by apply fit_length.
  rewrite HK in Hperm.
  exists (select mask (DataLoader.argsort K)).
  split.
  { apply select_NoDup. eapply Permutation_NoDup; [symmetry; exact Hperm|].
    apply List.seq_NoDup. }
  split.
  { apply List.Forall_forall. intros i Hi. apply select_In in Hi.
    eapply Permutation_in in Hi; [|exact Hperm].
    apply in_seq in Hi. lia. }
  split.
  { simpl. apply select_length. now rewrite length_seq. }
  intros c col Hd Hn Hc Hcol.
  rewrite get_set_other by congruence.
  rewrite get_filter_rows, get_set_other by congruence.
  rewrite get_take_rows, get_set_other by congruence.
  rewrite Hcol. run. now rewrite select_map.
Qed.

Lemma preprocess_rows_intact_witness :
  DataLoader.preprocess_fund_data (Some Examples.raw_nav) = (Some Examples.fund3, [])
  /\ exists idx : list nat,
       List.NoDup idx
       /\ List.Forall (fun i => (i < nrows Examples.raw_nav)%nat) idx
       /\ nrows Examples.fund3 = length idx.
Proof.
  assert (H : DataLoader.preprocess_fund_data (Some Examples.raw_nav)
              = (Some Examples.fund3, [])) by (vm_compute; reflexivity).
  split; [exact H|].
  destruct (preprocess_rows_intact _ _ _ H) as (idx & H1 & H2 & H3 & _).
  exists idx. auto.
Defined.

(** ** A frame without a nav column *)

Lemma get_missing d c : has_column d c = false -> get_column d c = Raise (KeyError c).
Proof.
  unfold has_column, get_column. now destruct (assoc c (columns d)).
Qed.

(** X20.  On a frame that has rows but no nav column (a payload that was
    not normalized), the three calculations report the KeyError and
    differ in what they return: the indicator engine gives back the
    frame it was handed, the performance analyzer and the rolling
    volatility give None. *)
Theorem missing_nav_column (ta : Indicators.pandas_ta) (np : Indicators.numpy)
    (d : DataFrame) (short_ma long_ma rsi_period window : nat)
    (sel : option (list string)) (bench : option DataFrame) :
  empty d = false ->
  has_column d "nav" = false ->
  Indicators.calculate_technical_indicators ta short_ma long_ma rsi_period (Some d) sel
  = (Some d, [st_error "calculate_technical_indicators" (Some (KeyError "nav"))])
  /\ Indicators.calculate_performance_metrics np (Some d) bench
     = (None, [st_error "calculate_performance_metrics" (Some (KeyError "nav"))])
  /\ Indicators.calculate_rolling_volatility np (Some d) window
     = (None, [st_error "calculate_rolling_volatility" (Some (KeyError "nav"))]).
Proof.
  intros Hd Hnav. apply get_missing in Hnav.
  unfold Indicators.calculate_technical_indicators,
    Indicators.calculate_performance_metrics, Indicators.calculate_rolling_volatility.
  rewrite Hd.
  unfold Indicators.indicators_try, Indicators.base_step, Indicators.performance_try,
    Indicators.rolling_try.
  rewrite Hnav. repeat split; reflexivity.
Qed.

Lemma missing_nav_column_witness :
  Indicators.calculate_performance_metrics Examples.rational_numpy
    (Some Examples.raw_nav) None
  = (None, [st_error "calculate_performance_metrics" (Some (KeyError "nav"))]).
Proof.
  exact (proj1 (proj2 (missing_nav_column Examples.short_series_ta Examples.rational_numpy
                         Examples.raw_nav 2 3 14 60 None None eq_refl eq_refl))).
Defined.

(** ** calculate_technical_indicators, then the analyzers *)

Section AfterIndicators.
Import Indicators.
Variable ta : pandas_ta.
Variable np : numpy.

Lemma core_date : In "date" core_columns.
Proof. unfold core_columns; simpl; auto. Qed.

Lemma core_nav : In "nav" core_columns.
Proof. unfold core_columns; simpl; auto. Qed.

Lemma core_cum_nav : In "cum_nav" core_columns.
Proof. unfold core_columns; simpl; auto. Qed.

Lemma filter_rows_nrows mask d d' :
  nrows d' = nrows d -> nrows (filter_rows mask d') = nrows (filter_rows mask d).
Proof. intros H. unfold filter_rows. simpl. now rewrite H. Qed.

Lemma relative_preserved d d' b m :
  preserves d d' -> relative_metrics np d' b m = relative_metrics np d b m.
Proof.
  intros [Hn Hc]. unfold relative_metrics.
  destruct (get_column b "close") as [close|]; [|reflexivity]. run.
  destruct (floats close) as [closef|]; [|reflexivity]. run.
  rewrite (Hc "date" core_date).
  destruct (get_column d "date") as [dates|] eqn:Hdate; [|reflexivity]. run.
  destruct (get_column b "trade_date") as [trade|]; [|reflexivity]. run.
  cbv zeta.
  rewrite (get_filter_rows _ d' "date"), (get_filter_rows _ d "date").
  rewrite (Hc "date" core_date), Hdate. run.
  rewrite (filter_rows_nrows (isin dates trade) d d' Hn).
  rewrite (get_filter_rows _ d' "nav"), (get_filter_rows _ d "nav").
  rewrite (Hc "nav" core_nav).
  reflexivity.
Qed.

Lemma performance_preserved d d' bench :
  preserves d d' -> performance_try np d' bench = performance_try np d bench.
Proof.
  intros Hp. pose proof Hp as [Hn Hc]. unfold performance_try.
  rewrite (Hc "nav" core_nav), (Hc "cum_nav" core_cum_nav), Hn.
  destruct (get_column d "nav") as [nav|]; [|reflexivity]. run.
  destruct (floats nav) as [navs|]; [|reflexivity]. run.
  destruct (get_column d "cum_nav") as [cumc|]; [|reflexivity]. run.
  destruct (floats cumc) as [cum|]; [|reflexivity]. run.
  destruct (last_or_raise cum) as [cl|]; [|reflexivity]. run.
  destruct (head_or_raise cum) as [cf|]; [|reflexivity]. run.
  cbv zeta. destruct bench as [b|]; [|reflexivity].
  destruct (empty b); [reflexivity|]. now apply relative_preserved.
Qed.

Lemma rolling_preserved d d' window :
  preserves d d' -> rolling_try np d' window = rolling_try np d window.
Proof.
  intros [Hn Hc]. unfold rolling_try. now rewrite (Hc "nav" core_nav).
Qed.

Lemma preserves_empty d d' :
  preserves d d' -> has_column d "nav" = true -> empty d = false -> empty d' = false.
Proof.
  intros [Hn Hc] Hnav Hd. apply has_get in Hnav as [v Hv].
  apply (has_not_empty d' "nav").
  - rewrite Hn. unfold empty in Hd. apply orb_false_elim in Hd as [Hd _].
    apply Nat.eqb_neq in Hd. lia.
  - eapply get_has. rewrite (Hc "nav" core_nav). exact Hv.
Qed.

Lemma indicators_outcome d sel short_ma long_ma rsi_period :
  empty d = false ->
  exists out,
    fst (calculate_technical_indicators ta short_ma long_ma rsi_period (Some d) sel)
    = Some out
    /\ (out = d \/ (preserves d out /\ has_column d "nav" = true)).
Proof.
  intros Hne. unfold calculate_technical_indicators. rewrite Hne.
  destruct (indicators_try ta short_ma long_ma rsi_period d sel) as [out|e] eqn:E;
    [|exists d; simpl; auto].
  exists out. split; [reflexivity|]. right.
  unfold indicators_try in E. bind_inv E. split.
  - apply base_preserves in E0.
    eapply preserves_trans; [exact E0|].
    destruct sel as [[|n sel]|]; [inversion E; apply preserves_refl | |
                                  inversion E; apply preserves_refl].
    repeat bind_inv E.
    repeat match goal with
      | H : when _ _ _ = Ok _ |- _ =>
          apply when_preserves in H;
          [| solve [ apply boll_preserves | apply macd_preserves | apply kdj_preserves
                   | apply cci_preserves | apply dmi_preserves | apply bbi_preserves
                   | apply trix_preserves | apply atr_preserves | apply obv_preserves
                   | apply mfi_preserves ] ]
      end.
    repeat first [ assumption | eapply preserves_trans; [eassumption|] ].
  - unfold base_step in E0. bind_inv E0. eapply get_has; eassumption.
Qed.

(** X21.  Computing the indicators first does not change what the
    analyzers return: on the frame the engine gives back, the
    performance metrics (with any benchmark) and the rolling volatility
    are those of the frame it was handed, reports included. *)
Theorem indicators_keep_metrics (d : DataFrame) (sel : option (list string))
    (short_ma long_ma rsi_period window : nat) (bench : option DataFrame) :
  empty d = false ->
  exists out,
    fst (calculate_technical_indicators ta short_ma long_ma rsi_period (Some d) sel)
    = Some out
    /\ calculate_performance_metrics np (Some out) bench
       = calculate_performance_metrics np (Some d) bench
    /\ calculate_rolling_volatility np (Some out) window
       = calculate_rolling_volatility np (Some d) window.
Proof.
  intros Hne.
  destruct (indicators_outcome d sel short_ma long_ma rsi_period Hne)
    as (out & Hout & Hcase).
  exists out. split; [exact Hout|].
  destruct Hcase as [-> | [Hp Hnav]]; [split; reflexivity|].
  pose proof (preserves_empty _ _ Hp Hnav Hne) as Hne'.
  unfold calculate_performance_metrics, calculate_rolling_volatility.
  rewrite Hne, Hne', (performance_preserved _ _ bench Hp),
    (rolling_preserved _ _ window Hp).
  split; reflexivity.
Qed.
End AfterIndicators.

Lemma indicators_keep_metrics_witness :
  exists out,
    fst (Indicators.calculate_technical_indicators Examples.short_series_ta 2 3 14
           (Some Examples.fund3) None) = Some out
    /\ Indicators.calculate_performance_metrics Examples.rational_numpy (Some out) None
       = Indicators.calculate_performance_metrics Examples.rational_numpy
           (Some Examples.fund3) None.
Proof.
  destruct (indicators_keep_metrics Examples.short_series_ta Examples.rational_numpy
              Examples.fund3 None 2 3 14 60 None eq_refl) as (out & H1 & H2 & _).
  exists out. split; [exact H1 | exact H2].
Defined.
